(** * Vibanda Village admin backend: accounts, login and the role checks

    A shallow embedding of the account handlers of the Go service
    (internal/handlers/auth.go, internal/handlers/users.go), the user model
    (internal/models/user.go) and the route table (internal/routes/routes.go).

    The MongoDB collection "users" is a list of documents in natural order;
    a handler is a function from the request context, the process environment
    and the collection to the JSON response and the collection afterwards. *)

From Stdlib Require Import ZArith NArith Ascii String List Bool Lia.
From stdpp Require Import base option strings gmap.
Import ListNotations.

Local Open Scope string_scope.
Local Open Scope Z_scope.
Local Open Scope list_scope.

(* ===================================================================== *)
(** ** go.mongodb.org/mongo-driver/bson/primitive *)
(* ===================================================================== *)

Module primitive.

(** An ObjectID is twelve bytes; it is kept as the 96-bit number they spell. *)
Definition ObjectID : Type := N.

Definition hex_value (c : ascii) : option N :=
  let n := N_of_ascii c in
  if ((48 <=? n) && (n <=? 57))%N then Some (n - 48)%N
  else if ((97 <=? n) && (n <=? 102))%N then Some (n - 87)%N
  else if ((65 <=? n) && (n <=? 70))%N then Some (n - 55)%N
  else None.

Fixpoint decode_hex (s : string) (acc : N) : option N :=
  match s with
  | EmptyString => Some acc
  | String c rest =>
      match hex_value c with
      | Some d => decode_hex rest (16 * acc + d)%N
      | None => None
      end
  end.

(** [ObjectIDFromHex]: exactly 24 hexadecimal digits, or an error. *)
Definition ObjectIDFromHex (s : string) : option ObjectID :=
  if Nat.eqb (String.length s) 24 then decode_hex s 0%N else None.

Definition hex_char (d : N) : ascii :=
  nth (N.to_nat d) (list_ascii_of_string "0123456789abcdef") "0"%char.

Fixpoint encode_hex (digits : nat) (n : N) (acc : string) : string :=
  match digits with
  | O => acc
  | S k => encode_hex k (n / 16)%N (String (hex_char (n mod 16)%N) acc)
  end.

(** [id.Hex()] *)
Definition Hex (id : ObjectID) : string := encode_hex 24 id EmptyString.

End primitive.

(* ===================================================================== *)
(** ** internal/models/user.go *)
(* ===================================================================== *)

Module models.

(** [type UserRole string]: any string can be stored; three are named. *)
Definition UserRole : Type := string.
Definition RoleAdmin : UserRole := "admin".
Definition RoleManager : UserRole := "manager".
Definition RoleStaff : UserRole := "staff".

Definition UserStatus : Type := string.
Definition StatusActive : UserStatus := "active".
Definition StatusInactive : UserStatus := "inactive".

(** [time.Time], as an instant on the integer line. *)
Definition Time : Type := Z.

Record User : Type := mkUser {
  ID : primitive.ObjectID;
  Name : string;
  Email : string;
  Username : string;
  Password : string;
  Role : UserRole;
  Status : UserStatus;
  Phone : string;
  Department : string;
  Bio : string;
  ProfileImage : string;
  SocialLinks : option (gmap string string);
  LastLogin : option Time;
  CreatedAt : Time;
  UpdatedAt : Time
}.

(** [UserResponse]: the public projection, without the password. *)
Record UserResponse : Type := mkUserResponse {
  resp_ID : string;
  resp_Name : string;
  resp_Email : string;
  resp_Username : string;
  resp_Role : UserRole;
  resp_Status : UserStatus;
  resp_Phone : string;
  resp_Department : string;
  resp_Bio : string;
  resp_ProfileImage : string;
  resp_SocialLinks : option (gmap string string);
  resp_LastLogin : option Time;
  resp_CreatedAt : Time;
  resp_UpdatedAt : Time
}.

Definition ToResponse (u : User) : UserResponse :=
  {| resp_ID := primitive.Hex (ID u);
     resp_Name := Name u;
     resp_Email := Email u;
     resp_Username := Username u;
     resp_Role := Role u;
     resp_Status := Status u;
     resp_Phone := Phone u;
     resp_Department := Department u;
     resp_Bio := Bio u;
     resp_ProfileImage := ProfileImage u;
     resp_SocialLinks := SocialLinks u;
     resp_LastLogin := LastLogin u;
     resp_CreatedAt := CreatedAt u;
     resp_UpdatedAt := UpdatedAt u |}.


(** Field assignment [u.F = v] on a local [User] value. *)
Definition set_Name (u : User) (v : string) : User :=
  {| ID := ID u; Name := v; Email := Email u; Username := Username u;
     Password := Password u; Role := Role u; Status := Status u;
     Phone := Phone u; Department := Department u; Bio := Bio u;
     ProfileImage := ProfileImage u; SocialLinks := SocialLinks u;
     LastLogin := LastLogin u; CreatedAt := CreatedAt u;
     UpdatedAt := UpdatedAt u |}.

Definition set_Email (u : User) (v : string) : User :=
  {| ID := ID u; Name := Name u; Email := v; Username := Username u;
     Password := Password u; Role := Role u; Status := Status u;
     Phone := Phone u; Department := Department u; Bio := Bio u;
     ProfileImage := ProfileImage u; SocialLinks := SocialLinks u;
     LastLogin := LastLogin u; CreatedAt := CreatedAt u;
     UpdatedAt := UpdatedAt u |}.

Definition set_Username (u : User) (v : string) : User :=
  {| ID := ID u; Name := Name u; Email := Email u; Username := v;
     Password := Password u; Role := Role u; Status := Status u;
     Phone := Phone u; Department := Department u; Bio := Bio u;
     ProfileImage := ProfileImage u; SocialLinks := SocialLinks u;
     LastLogin := LastLogin u; CreatedAt := CreatedAt u;
     UpdatedAt := UpdatedAt u |}.

Definition set_Role (u : User) (v : UserRole) : User :=
  {| ID := ID u; Name := Name u; Email := Email u; Username := Username u;
     Password := Password u; Role := v; Status := Status u;
     Phone := Phone u; Department := Department u; Bio := Bio u;
     ProfileImage := ProfileImage u; SocialLinks := SocialLinks u;
     LastLogin := LastLogin u; CreatedAt := CreatedAt u;
     UpdatedAt := UpdatedAt u |}.

Definition set_Status (u : User) (v : UserStatus) : User :=
  {| ID := ID u; Name := Name u; Email := Email u; Username := Username u;
     Password := Password u; Role := Role u; Status := v; Phone := Phone u;
     Department := Department u; Bio := Bio u;
     ProfileImage := ProfileImage u; SocialLinks := SocialLinks u;
     LastLogin := LastLogin u; CreatedAt := CreatedAt u;
     UpdatedAt := UpdatedAt u |}.

Definition set_Phone (u : User) (v : string) : User :=
  {| ID := ID u; Name := Name u; Email := Email u; Username := Username u;
     Password := Password u; Role := Role u; Status := Status u;
     Phone := v; Department := Department u; Bio := Bio u;
     ProfileImage := ProfileImage u; SocialLinks := SocialLinks u;
     LastLogin := LastLogin u; CreatedAt := CreatedAt u;
     UpdatedAt := UpdatedAt u |}.

Definition set_Department (u : User) (v : string) : User :=
  {| ID := ID u; Name := Name u; Email := Email u; Username := Username u;
     Password := Password u; Role := Role u; Status := Status u;
     Phone := Phone u; Department := v; Bio := Bio u;
     ProfileImage := ProfileImage u; SocialLinks := SocialLinks u;
     LastLogin := LastLogin u; CreatedAt := CreatedAt u;
     UpdatedAt := UpdatedAt u |}.

Definition set_Bio (u : User) (v : string) : User :=
  {| ID := ID u; Name := Name u; Email := Email u; Username := Username u;
     Password := Password u; Role := Role u; Status := Status u;
     Phone := Phone u; Department := Department u; Bio := v;
     ProfileImage := ProfileImage u; SocialLinks := SocialLinks u;
     LastLogin := LastLogin u; CreatedAt := CreatedAt u;
     UpdatedAt := UpdatedAt u |}.

Definition set_ProfileImage (u : User) (v : string) : User :=
  {| ID := ID u; Name := Name u; Email := Email u; Username := Username u;
     Password := Password u; Role := Role u; Status := Status u;
     Phone := Phone u; Department := Department u; Bio := Bio u;
     ProfileImage := v; SocialLinks := SocialLinks u;
     LastLogin := LastLogin u; CreatedAt := CreatedAt u;
     UpdatedAt := UpdatedAt u |}.

Definition set_SocialLinks (u : User) (v : option (gmap string string)) : User :=
  {| ID := ID u; Name := Name u; Email := Email u; Username := Username u;
     Password := Password u; Role := Role u; Status := Status u;
     Phone := Phone u; Department := Department u; Bio := Bio u;
     ProfileImage := ProfileImage u; SocialLinks := v;
     LastLogin := LastLogin u; CreatedAt := CreatedAt u;
     UpdatedAt := UpdatedAt u |}.

Definition set_UpdatedAt (u : User) (v : Time) : User :=
  {| ID := ID u; Name := Name u; Email := Email u; Username := Username u;
     Password := Password u; Role := Role u; Status := Status u;
     Phone := Phone u; Department := Department u; Bio := Bio u;
     ProfileImage := ProfileImage u; SocialLinks := SocialLinks u;
     LastLogin := LastLogin u; CreatedAt := CreatedAt u; UpdatedAt := v |}.

Record LoginRequest : Type := mkLoginRequest {
  login_Email : string;
  login_Password : string
}.

Record RegisterRequest : Type := mkRegisterRequest {
  reg_Name : string;
  reg_Email : string;
  reg_Username : string;
  reg_Password : string;
  reg_Phone : string;
  reg_Department : string;
  reg_Bio : string;
  reg_Role : UserRole
}.

(** [UpdateUserRequest]: the zero value of a field (empty string, nil map)
    means that the field is not part of the patch. *)
Record UpdateUserRequest : Type := mkUpdateUserRequest {
  upd_Name : string;
  upd_Email : string;
  upd_Username : string;
  upd_Phone : string;
  upd_Department : string;
  upd_Bio : string;
  upd_ProfileImage : string;
  upd_SocialLinks : option (gmap string string);
  upd_Role : UserRole;
  upd_Status : UserStatus
}.

End models.

(* ===================================================================== *)
(** ** internal/config/config.go, net/http *)
(* ===================================================================== *)

Module config.

Record Config : Type := mkConfig {
  JWTSecret : string;
  JWTExpirationHours : Z
}.

End config.

Module http.

Definition StatusOK : Z := 200.
Definition StatusCreated : Z := 201.
Definition StatusNoContent : Z := 204.
Definition StatusBadRequest : Z := 400.
Definition StatusUnauthorized : Z := 401.
Definition StatusForbidden : Z := 403.
Definition StatusNotFound : Z := 404.
Definition StatusConflict : Z := 409.
Definition StatusInternalServerError : Z := 500.

End http.

(* ===================================================================== *)
(** ** The request context, the environment and the collection *)
(* ===================================================================== *)

Module gin.

Import models.

(** What a handler reads from [*gin.Context]: the outcome of
    [c.ShouldBindJSON(&req)] (the bound value or the error text),
    [c.Param("id")] and [c.Get("userID")]. *)
Record Context (B : Type) : Type := mkContext {
  ShouldBindJSON : string + B;
  Param_id : string;
  Get_userID : option string
}.
Arguments mkContext {B} _ _ _.
Arguments ShouldBindJSON {B} _.
Arguments Param_id {B} _.
Arguments Get_userID {B} _.

(** The value handed to [c.JSON]. *)
Inductive Body : Type :=
| ErrorResponse (Error : string)
| UserJSON (u : UserResponse)
| LoginResponse (Token : string) (User : UserResponse)
| Nil.

Record Response : Type := JSON { code : Z; body : Body }.

End gin.

Module database.

Import models.

(** What the process and the driver decide during one request:
    [time.Now()], [primitive.NewObjectID()], the randomness the password
    hasher draws, whether the driver reports an error on the write of this
    request, and the configuration [config.Load()] returns. *)
Record Env : Type := mkEnv {
  now : Time;
  NewObjectID : primitive.ObjectID;
  entropy : string;
  write_err : bool;
  cfg : config.Config
}.

(** [database.DB.Collection("users")] *)
Definition Collection : Type := list User.

(** [FindOne(filter).Decode(&u)]: the first matching document in natural
    order; [None] is the driver's error (no document). *)
Definition FindOne (filter : User -> bool) (coll : Collection) : option User :=
  List.find filter coll.

(** [InsertOne(ctx, user)]: the account is appended as the handler hands it
    over; what the driver keeps of its times is said by [bson.on_disk],
    below. *)
Definition InsertOne (e : Env) (u : User) (coll : Collection) : option Collection :=
  if write_err e then None else Some (coll ++ [u]).

Fixpoint update_first (filter : User -> bool) (set : User -> User)
  (coll : Collection) : Collection :=
  match coll with
  | [] => []
  | u :: rest =>
      if filter u then set u :: rest else u :: update_first filter set rest
  end.

(** [UpdateOne(filter, {"$set": ...})]: [set] rewrites the named fields of
    the first matching document, with the values as the handler hands them
    over; for the times see [bson.on_disk]. *)
Definition UpdateOne (e : Env) (filter : User -> bool) (set : User -> User)
  (coll : Collection) : option Collection :=
  if write_err e then None else Some (update_first filter set coll).

Fixpoint delete_first (filter : User -> bool) (coll : Collection) : Collection :=
  match coll with
  | [] => []
  | u :: rest => if filter u then rest else u :: delete_first filter rest
  end.

Definition DeleteOne (e : Env) (filter : User -> bool) (coll : Collection)
  : option Collection :=
  if write_err e then None else Some (delete_first filter coll).

(** The filters the handlers build with [bson.M]. *)
Definition by_id (id : primitive.ObjectID) : User -> bool :=
  fun u => N.eqb (ID u) id.

Definition by_email (email : string) : User -> bool :=
  fun u => String.eqb (Email u) email.

Definition by_email_or_username (email username : string) : User -> bool :=
  fun u => String.eqb (Email u) email || String.eqb (Username u) username.

Definition by_email_not_id (email : string) (id : primitive.ObjectID) : User -> bool :=
  fun u => String.eqb (Email u) email && negb (N.eqb (ID u) id).

Definition by_username_not_id (username : string) (id : primitive.ObjectID) : User -> bool :=
  fun u => String.eqb (Username u) username && negb (N.eqb (ID u) id).

End database.

(* ===================================================================== *)
(** ** What the driver keeps of a time *)
(* ===================================================================== *)

Module bson.

Import models.

(** A [time.Time] counts nanoseconds; in a document it is a BSON datetime, a
    count of whole milliseconds, and [primitive.NewDateTimeFromTime] drops
    what lies below the millisecond. *)
Definition Millisecond : Z := 1000000.

Definition DateTime (t : Time) : Time := t - t mod Millisecond.

(** An account as the driver keeps it. *)
Definition stored (u : User) : User :=
  {| ID := ID u; Name := Name u; Email := Email u; Username := Username u;
     Password := Password u; Role := Role u; Status := Status u;
     Phone := Phone u; Department := Department u; Bio := Bio u;
     ProfileImage := ProfileImage u; SocialLinks := SocialLinks u;
     LastLogin := option_map DateTime (LastLogin u);
     CreatedAt := DateTime (CreatedAt u);
     UpdatedAt := DateTime (UpdatedAt u) |}.

(** The collections of [database] hold the accounts as the handlers handed
    them to the driver; this is what the driver keeps of them, and what
    every later read decodes. *)
Definition on_disk (coll : list User) : list User := map stored coll.

(** The body a handler answered, as a later read of the same account shows
    it. *)
Definition read_back (r : UserResponse) : UserResponse :=
  {| resp_ID := resp_ID r; resp_Name := resp_Name r; resp_Email := resp_Email r;
     resp_Username := resp_Username r; resp_Role := resp_Role r;
     resp_Status := resp_Status r; resp_Phone := resp_Phone r;
     resp_Department := resp_Department r; resp_Bio := resp_Bio r;
     resp_ProfileImage := resp_ProfileImage r;
     resp_SocialLinks := resp_SocialLinks r;
     resp_LastLogin := option_map DateTime (resp_LastLogin r);
     resp_CreatedAt := DateTime (resp_CreatedAt r);
     resp_UpdatedAt := DateTime (resp_UpdatedAt r) |}.

End bson.

(* ===================================================================== *)
(** ** Handlers as early-return computations over the collection *)
(* ===================================================================== *)

Module handler_monad.

Import gin database.

(** A step of a handler either has written its response ([c.JSON(...)]
    followed by [return]) or goes on with a value. *)
Definition Handler (A : Type) : Type :=
  Collection -> (Response + A) * Collection.

Definition ret {A} (a : A) : Handler A := fun db => (inr a, db).

Definition respond {A} (status : Z) (b : Body) : Handler A :=
  fun db => (inl (JSON status b), db).

Definition bind {A B} (m : Handler A) (k : A -> Handler B) : Handler B :=
  fun db =>
    match m db with
    | (inl r, db') => (inl r, db')
    | (inr a, db') => k a db'
    end.

Definition when (b : bool) (h : Handler unit) : Handler unit :=
  if b then h else ret tt.

Definition or_else {A} (o : option A) (h : Handler A) : Handler A :=
  match o with Some a => ret a | None => h end.

(** [err == nil] after a call whose error is [None]. *)
Definition err_is_nil {A} (o : option A) : bool :=
  match o with Some _ => true | None => false end.

Definition find_one (filter : models.User -> bool) : Handler (option models.User) :=
  fun db => (inr (FindOne filter db), db).

(** A write leaves the collection as it was when the driver fails, and
    tells the handler whether [err == nil]. *)
Definition write (w : Collection -> option Collection) : Handler bool :=
  fun db =>
    match w db with
    | Some db' => (inr true, db')
    | None => (inr false, db)
    end.

(** A handler that returns without [c.JSON] leaves gin's empty 200. *)
Definition serve (h : Handler unit) (db : Collection) : Response * Collection :=
  match h db with
  | (inl r, db') => (r, db')
  | (inr _, db') => (JSON http.StatusOK Nil, db')
  end.

End handler_monad.

Declare Scope handler_scope.
Delimit Scope handler_scope with handler.
Notation "x <- m ;; k" := (handler_monad.bind m (fun x => k))
  (at level 100, m at next level, right associativity) : handler_scope.

(* ===================================================================== *)
(** ** internal/handlers/auth.go *)
(* ===================================================================== *)

Module handlers.

Import models gin database handler_monad.
Local Open Scope handler_scope.

Section Utils.

(** pkg/utils stays outside this development; its three functions are
    parameters.  [HashPassword] takes the randomness it draws for the salt
    and fails with [None]; [GenerateToken] reads the clock of the
    environment and fails with [None]. *)
Variable HashPassword : string -> string -> option string.
Variable CheckPassword : string -> string -> bool.
Variable GenerateToken : Env -> User -> string -> Z -> option string.

Definition Register (c : Context RegisterRequest) (e : Env)
  : Collection -> Response * Collection :=
  serve (
    req <- match ShouldBindJSON c with
           | inr req => ret req
           | inl _ =>
               respond http.StatusBadRequest
                 (ErrorResponse "Invalid request format. Please check your input data and try again.")
           end ;;
    (* Check if user already exists *)
    existingUser <- find_one (by_email_or_username (reg_Email req) (reg_Username req)) ;;
    _ <- when (err_is_nil existingUser)
           (respond http.StatusConflict
              (ErrorResponse "An account with this email or username already exists. Please use a different email or try logging in if you already have an account.")) ;;
    (* Hash password *)
    hashedPassword <- or_else (HashPassword (entropy e) (reg_Password req))
           (respond http.StatusInternalServerError
              (ErrorResponse "An error occurred while processing your request. Please try again later.")) ;;
    (* Create user *)
    let user :=
      {| ID := NewObjectID e;
         Name := reg_Name req;
         Email := reg_Email req;
         Username := reg_Username req;
         Password := hashedPassword;
         Role := reg_Role req;
         Status := StatusActive;
         Phone := reg_Phone req;
         Department := EmptyString;
         Bio := EmptyString;
         ProfileImage := EmptyString;
         SocialLinks := None;
         LastLogin := None;
         CreatedAt := now e;
         UpdatedAt := now e |} in
    ok <- write (InsertOne e user) ;;
    _ <- when (negb ok)
           (respond http.StatusInternalServerError
              (ErrorResponse "An error occurred while creating your account. Please try again later.")) ;;
    respond http.StatusCreated (UserJSON (ToResponse user))).

(** The two fields [Login] sets on the stored document. *)
Definition set_last_login (t : Time) (doc : User) : User :=
  {| ID := ID doc; Name := Name doc; Email := Email doc;
     Username := Username doc; Password := Password doc;
     Role := Role doc; Status := Status doc; Phone := Phone doc;
     Department := Department doc; Bio := Bio doc;
     ProfileImage := ProfileImage doc; SocialLinks := SocialLinks doc;
     LastLogin := Some t;
     CreatedAt := CreatedAt doc;
     UpdatedAt := t |}.

Definition Login (c : Context LoginRequest) (e : Env)
  : Collection -> Response * Collection :=
  serve (
    req <- match ShouldBindJSON c with
           | inr req => ret req
           | inl _ =>
               respond http.StatusBadRequest
                 (ErrorResponse "Invalid request format. Please check your input data and try again.")
           end ;;
    (* Find user by email *)
    found <- find_one (by_email (login_Email req)) ;;
    user <- or_else found
           (respond http.StatusUnauthorized
              (ErrorResponse "The email or password you entered is incorrect. Please check your credentials and try again.")) ;;
    (* Check password *)
    _ <- when (negb (CheckPassword (login_Password req) (Password user)))
           (respond http.StatusUnauthorized
              (ErrorResponse "The email or password you entered is incorrect. Please check your credentials and try again.")) ;;
    (* Check if user is active *)
    _ <- when (negb (String.eqb (Status user) StatusActive))
           (respond http.StatusUnauthorized
              (ErrorResponse "Your account is currently inactive. Please contact support for assistance.")) ;;
    (* Update last login; the error of the write is dropped *)
    let user := set_last_login (now e) user in
    _ <- write (UpdateOne e (by_id (ID user)) (set_last_login (now e))) ;;
    (* Generate JWT token *)
    token <- or_else
           (GenerateToken e user (config.JWTSecret (cfg e))
              (config.JWTExpirationHours (cfg e)))
           (respond http.StatusInternalServerError
              (ErrorResponse "An error occurred while logging you in. Please try again later.")) ;;
    respond http.StatusOK (LoginResponse token (ToResponse user))).


(* ================================================================= *)
(** ** internal/handlers/users.go *)
(* ================================================================= *)

Definition CreateUser (c : Context RegisterRequest) (e : Env)
  : Collection -> Response * Collection :=
  serve (
    req <- match ShouldBindJSON c with
           | inr req => ret req
           | inl err => respond http.StatusBadRequest (ErrorResponse err)
           end ;;
    (* Get current user from context (set by auth middleware) *)
    currentUserID <- or_else (Get_userID c)
           (respond http.StatusUnauthorized (ErrorResponse "Unauthorized")) ;;
    currentUserObjectID <- or_else (primitive.ObjectIDFromHex currentUserID)
           (respond http.StatusBadRequest (ErrorResponse "Invalid current user ID")) ;;
    foundCurrent <- find_one (by_id currentUserObjectID) ;;
    currentUser <- or_else foundCurrent
           (respond http.StatusInternalServerError
              (ErrorResponse "Failed to get current user")) ;;
    (* Permission checks *)
    _ <- (if String.eqb (Role currentUser) RoleAdmin then
            (* Admin can create managers and staff, but not other admins *)
            when (String.eqb (reg_Role req) RoleAdmin)
              (respond http.StatusForbidden
                 (ErrorResponse "Admin cannot create other admins"))
          else if String.eqb (Role currentUser) RoleManager then
            (* Manager can only create staff *)
            when (negb (String.eqb (reg_Role req) RoleStaff))
              (respond http.StatusForbidden
                 (ErrorResponse "Manager can only create staff accounts"))
          else
            (* Staff cannot create users *)
            respond http.StatusForbidden
              (ErrorResponse "Staff cannot create user accounts")) ;;
    (* Check if user already exists *)
    existingUser <- find_one (by_email_or_username (reg_Email req) (reg_Username req)) ;;
    _ <- when (err_is_nil existingUser)
           (respond http.StatusConflict
              (ErrorResponse "User with this email or username already exists")) ;;
    (* Hash password *)
    hashedPassword <- or_else (HashPassword (entropy e) (reg_Password req))
           (respond http.StatusInternalServerError
              (ErrorResponse "Failed to hash password")) ;;
    (* Create user *)
    let user :=
      {| ID := NewObjectID e;
         Name := reg_Name req;
         Email := reg_Email req;
         Username := reg_Username req;
         Password := hashedPassword;
         Role := reg_Role req;
         Status := StatusActive;
         Phone := reg_Phone req;
         Department := reg_Department req;
         Bio := reg_Bio req;
         ProfileImage := EmptyString;
         SocialLinks := None;
         LastLogin := None;
         CreatedAt := now e;
         UpdatedAt := now e |} in
    ok <- write (InsertOne e user) ;;
    _ <- when (negb ok)
           (respond http.StatusInternalServerError
              (ErrorResponse "Failed to create user")) ;;
    respond http.StatusCreated (UserJSON (ToResponse user))).

(** The eleven fields of the [$set] document of [UpdateUser], copied
    from the handler's local [user] into the stored document. *)
Definition set_profile (user doc : User) : User :=
  {| ID := ID doc;
     Name := Name user;
     Email := Email user;
     Username := Username user;
     Password := Password doc;
     Role := Role user;
     Status := Status user;
     Phone := Phone user;
     Department := Department user;
     Bio := Bio user;
     ProfileImage := ProfileImage user;
     SocialLinks := SocialLinks user;
     LastLogin := LastLogin doc;
     CreatedAt := CreatedAt doc;
     UpdatedAt := UpdatedAt user |}.

Definition is_empty (s : string) : bool := String.eqb s EmptyString.

Definition UpdateUser (c : Context UpdateUserRequest) (e : Env)
  : Collection -> Response * Collection :=
  serve (
    userObjectID <- or_else (primitive.ObjectIDFromHex (Param_id c))
           (respond http.StatusBadRequest (ErrorResponse "Invalid user ID")) ;;
    req <- match ShouldBindJSON c with
           | inr req => ret req
           | inl err => respond http.StatusBadRequest (ErrorResponse err)
           end ;;
    (* Get current user from context (set by auth middleware) *)
    currentUserID <- or_else (Get_userID c)
           (respond http.StatusUnauthorized (ErrorResponse "Unauthorized")) ;;
    currentUserObjectID <- or_else (primitive.ObjectIDFromHex currentUserID)
           (respond http.StatusBadRequest (ErrorResponse "Invalid current user ID")) ;;
    foundCurrent <- find_one (by_id currentUserObjectID) ;;
    currentUser <- or_else foundCurrent
           (respond http.StatusInternalServerError
              (ErrorResponse "Failed to get current user")) ;;
    found <- find_one (by_id userObjectID) ;;
    user <- or_else found
           (respond http.StatusNotFound (ErrorResponse "User not found")) ;;
    (* Permission checks *)
    _ <- (if String.eqb (Role currentUser) RoleAdmin then
            (* Admin can update all users except changing other admins' roles *)
            when (negb (is_empty (upd_Role req))
                  && String.eqb (Role user) RoleAdmin
                  && negb (String.eqb (upd_Role req) RoleAdmin))
              (respond http.StatusForbidden
                 (ErrorResponse "Admin cannot change other admins' roles"))
          else if String.eqb (Role currentUser) RoleManager then
            (* Manager can only update staff members *)
            _ <- when (negb (String.eqb (Role user) RoleStaff))
                   (respond http.StatusForbidden
                      (ErrorResponse "Manager can only update staff accounts")) ;;
            (* Manager cannot change roles *)
            when (negb (is_empty (upd_Role req)))
              (respond http.StatusForbidden
                 (ErrorResponse "Manager cannot change user roles"))
          else
            (* Staff cannot update users *)
            respond http.StatusForbidden
              (ErrorResponse "Staff cannot update user accounts")) ;;
    (* Check for email/username conflicts if they're being updated *)
    user <- (if negb (is_empty (upd_Email req))
                && negb (String.eqb (upd_Email req) (Email user)) then
               existingUser <- find_one (by_email_not_id (upd_Email req) userObjectID) ;;
               _ <- when (err_is_nil existingUser)
                      (respond http.StatusConflict
                         (ErrorResponse "Email already in use")) ;;
               ret (set_Email user (upd_Email req))
             else ret user) ;;
    user <- (if negb (is_empty (upd_Username req))
                && negb (String.eqb (upd_Username req) (Username user)) then
               existingUser <- find_one (by_username_not_id (upd_Username req) userObjectID) ;;
               _ <- when (err_is_nil existingUser)
                      (respond http.StatusConflict
                         (ErrorResponse "Username already in use")) ;;
               ret (set_Username user (upd_Username req))
             else ret user) ;;
    (* Update other fields *)
    let user := if negb (is_empty (upd_Name req))
                then set_Name user (upd_Name req) else user in
    let user := if negb (is_empty (upd_Phone req))
                then set_Phone user (upd_Phone req) else user in
    let user := if negb (is_empty (upd_Department req))
                then set_Department user (upd_Department req) else user in
    let user := if negb (is_empty (upd_Bio req))
                then set_Bio user (upd_Bio req) else user in
    let user := if negb (is_empty (upd_ProfileImage req))
                then set_ProfileImage user (upd_ProfileImage req) else user in
    let user := match upd_SocialLinks req with
                | Some links => set_SocialLinks user (Some links)
                | None => user
                end in
    let user := if negb (is_empty (upd_Role req))
                then set_Role user (upd_Role req) else user in
    let user := if negb (is_empty (upd_Status req))
                then set_Status user (upd_Status req) else user in
    let user := set_UpdatedAt user (now e) in
    ok <- write (UpdateOne e (by_id userObjectID) (set_profile user)) ;;
    _ <- when (negb ok)
           (respond http.StatusInternalServerError
              (ErrorResponse "Failed to update user")) ;;
    respond http.StatusOK (UserJSON (ToResponse user))).

Definition DeleteUser (c : Context unit) (e : Env)
  : Collection -> Response * Collection :=
  serve (
    userObjectID <- or_else (primitive.ObjectIDFromHex (Param_id c))
           (respond http.StatusBadRequest (ErrorResponse "Invalid user ID")) ;;
    found <- find_one (by_id userObjectID) ;;
    user <- or_else found
           (respond http.StatusNotFound (ErrorResponse "User not found")) ;;
    (* Get current user from context (set by auth middleware) *)
    currentUserID <- or_else (Get_userID c)
           (respond http.StatusUnauthorized (ErrorResponse "Unauthorized")) ;;
    currentUserObjectID <- or_else (primitive.ObjectIDFromHex currentUserID)
           (respond http.StatusBadRequest (ErrorResponse "Invalid current user ID")) ;;
    foundCurrent <- find_one (by_id currentUserObjectID) ;;
    currentUser <- or_else foundCurrent
           (respond http.StatusInternalServerError
              (ErrorResponse "Failed to get current user")) ;;
    (* Admin cannot delete other admins or managers *)
    _ <- when (String.eqb (Role currentUser) RoleAdmin
               && (String.eqb (Role user) RoleAdmin
                   || String.eqb (Role user) RoleManager))
           (respond http.StatusForbidden
              (ErrorResponse "Admin cannot delete other admins or managers")) ;;
    (* Manager cannot delete admins *)
    _ <- when (String.eqb (Role currentUser) RoleManager
               && String.eqb (Role user) RoleAdmin)
           (respond http.StatusForbidden
              (ErrorResponse "Manager cannot delete admin")) ;;
    ok <- write (DeleteOne e (by_id userObjectID)) ;;
    _ <- when (negb ok)
           (respond http.StatusInternalServerError
              (ErrorResponse "Failed to delete user")) ;;
    respond http.StatusNoContent Nil).

End Utils.

End handlers.

(* ===================================================================== *)
(** ** internal/routes/routes.go *)
(* ===================================================================== *)

Module routes.

Import models.

(** internal/middleware stays outside this development: the route
    table records which middleware guards a route, by name. *)
Inductive Middleware : Type :=
| CORSMiddleware
| AuthMiddleware
| RoleMiddleware (allowed : list UserRole).

Record Route : Type := mkRoute {
  method : string;
  path : string;
  chain : list Middleware;
  handler : string
}.

Definition group (prefix : string) (uses : list Middleware)
  (rs : list Route) : list Route :=
  map (fun r => mkRoute (method r) (prefix ++ path r)%string
                  (uses ++ chain r) (handler r)) rs.

Definition crud (plural singular : string) : list Route :=
  [ mkRoute "GET" EmptyString [] ("Get" ++ plural)%string;
    mkRoute "GET" "/:id" [] ("Get" ++ singular)%string;
    mkRoute "POST" EmptyString [] ("Create" ++ singular)%string;
    mkRoute "PUT" "/:id" [] ("Update" ++ singular)%string;
    mkRoute "DELETE" "/:id" [] ("Delete" ++ singular)%string ].

Definition SetupRoutes : list Route :=
  group EmptyString [CORSMiddleware]
    ([ mkRoute "GET" "/swagger/*any" [] "ginSwagger" ]
     (* Public routes (no authentication required) *)
     ++ group "/api/v1" []
          (group "/auth" []
             [ mkRoute "POST" "/register" [] "Register";
               mkRoute "POST" "/login" [] "Login" ])
     (* Protected routes (authentication required) *)
     ++ group "/api/v1" [AuthMiddleware]
          (group "/auth" [] [ mkRoute "GET" "/profile" [] "GetProfile" ]
           (* User management routes (admin only) *)
           ++ group "/users" [RoleMiddleware [RoleAdmin]] (crud "Users" "User")
           ++ group "/products" [RoleMiddleware [RoleAdmin; RoleManager]]
                (crud "Products" "Product")
           ++ group "/orders" [RoleMiddleware [RoleAdmin; RoleManager]]
                (crud "Orders" "Order")
           ++ group "/events" [RoleMiddleware [RoleAdmin; RoleManager]]
                (crud "Events" "Event")
           ++ group "/reservations" [RoleMiddleware [RoleAdmin; RoleManager]]
                (crud "Reservations" "Reservation"))).

(** The middleware chain in front of the handler named [h]. *)
Definition chain_of (h : string) : option (list Middleware) :=
  option_map chain (List.find (fun r => String.eqb (handler r) h) SetupRoutes).

Definition route_of (h : string) : option (string * string) :=
  option_map (fun r => (method r, path r))
    (List.find (fun r => String.eqb (handler r) h) SetupRoutes).

End routes.

(* ===================================================================== *)
(** ** Vocabulary of the specification *)
(* ===================================================================== *)

Module policy.

Import models gin.

(** The role hierarchy admin > manager > staff; a role string outside the
    three named ones has no place in it. *)
Definition rank (r : UserRole) : option nat :=
  if String.eqb r RoleAdmin then Some 2%nat
  else if String.eqb r RoleManager then Some 1%nat
  else if String.eqb r RoleStaff then Some 0%nat
  else None.

(** [target] is a peer or a superior of [actor]. *)
Definition peer_or_superior (actor target : UserRole) : Prop :=
  exists ra rt, rank actor = Some ra /\ rank target = Some rt /\ (ra <= rt)%nat.

(** The three roles of the tables of section 4.3. *)
Inductive role : Type := admin | manager | staff.

Definition role_string (r : role) : UserRole :=
  match r with
  | admin => RoleAdmin
  | manager => RoleManager
  | staff => RoleStaff
  end.

(** The can_create table, row by row as written. *)
Definition table_can_create (actor target : role) : bool :=
  match actor, target with
  | admin, admin => false
  | admin, manager => true
  | admin, staff => true
  | manager, admin => false
  | manager, manager => false
  | manager, staff => true
  | staff, _ => false
  end.

(** The can_update table with the admin exception as section 4.3 words it,
    for *another* admin only: an admin may update any target and change the
    role, except re-assigning another admin away from admin; a manager may
    update staff only and may not name a role at all; staff none.
    [patch_role] is the role field of the patch, empty when absent, and
    [own_account] tells whether the target is the actor's own account. *)
Definition table_can_update_as_written (actor target : role)
  (own_account : bool) (patch_role : UserRole) : bool :=
  match actor with
  | admin =>
      match target with
      | admin =>
          own_account
          || String.eqb patch_role EmptyString || String.eqb patch_role RoleAdmin
      | _ => true
      end
  | manager =>
      match target with
      | staff => String.eqb patch_role EmptyString
      | _ => false
      end
  | staff => false
  end.

(** The can_update table with the admin exception read on the target's role
    alone: re-assigning an admin target away from admin is denied whoever
    that admin is, the actor's own account included. *)
Definition table_can_update (actor target : role) (patch_role : UserRole) : bool :=
  match actor with
  | admin =>
      match target with
      | admin => String.eqb patch_role EmptyString || String.eqb patch_role RoleAdmin
      | _ => true
      end
  | manager =>
      match target with
      | staff => String.eqb patch_role EmptyString
      | _ => false
      end
  | staff => false
  end.


(** [CreateUser] gets as far as its permission checks: the body binds, the
    context names the actor, and the actor's document is found. *)
Definition create_reaches_check (c : Context RegisterRequest)
  (db : database.Collection) (req : RegisterRequest) (actor : User) : Prop :=
  ShouldBindJSON c = inr req /\
  exists hex id,
    Get_userID c = Some hex /\
    primitive.ObjectIDFromHex hex = Some id /\
    database.FindOne (database.by_id id) db = Some actor.

(** [UpdateUser] gets as far as its permission checks, with the actor's and
    the target's documents. *)
Definition update_reaches_check (c : Context UpdateUserRequest)
  (db : database.Collection) (req : UpdateUserRequest)
  (tid : primitive.ObjectID) (actor target : User) : Prop :=
  primitive.ObjectIDFromHex (Param_id c) = Some tid /\
  ShouldBindJSON c = inr req /\
  database.FindOne (database.by_id tid) db = Some target /\
  exists hex id,
    Get_userID c = Some hex /\
    primitive.ObjectIDFromHex hex = Some id /\
    database.FindOne (database.by_id id) db = Some actor.

(** The permission checks of [UpdateUser] as one boolean: does the handler
    answer Forbidden for this actor role, target role and patch role. *)
Definition update_denied (actor target patch_role : UserRole) : bool :=
  if String.eqb actor RoleAdmin then
    negb (String.eqb patch_role EmptyString)
    && String.eqb target RoleAdmin
    && negb (String.eqb patch_role RoleAdmin)
  else if String.eqb actor RoleManager then
    negb (String.eqb target RoleStaff)
    || negb (String.eqb patch_role EmptyString)
  else true.

(** Partial update of one string field: an empty patch entry keeps the
    prior value, any other entry replaces it. *)
Definition patch_string (patch prior : string) : string :=
  if String.eqb patch EmptyString then prior else patch.

(** The account after a partial update at time [t], said field by field:
    the ten patchable fields follow the patch, [updated_at] is stamped, and
    the identifier, the password hash, [created_at] and [last_login] are
    the prior ones. *)
Definition partial_update (req : UpdateUserRequest) (prior : User) (t : Time) : User :=
  {| ID := ID prior;
     Name := patch_string (upd_Name req) (Name prior);
     Email := patch_string (upd_Email req) (Email prior);
     Username := patch_string (upd_Username req) (Username prior);
     Password := Password prior;
     Role := patch_string (upd_Role req) (Role prior);
     Status := patch_string (upd_Status req) (Status prior);
     Phone := patch_string (upd_Phone req) (Phone prior);
     Department := patch_string (upd_Department req) (Department prior);
     Bio := patch_string (upd_Bio req) (Bio prior);
     ProfileImage := patch_string (upd_ProfileImage req) (ProfileImage prior);
     SocialLinks := match upd_SocialLinks req with
                    | Some links => Some links
                    | None => SocialLinks prior
                    end;
     LastLogin := LastLogin prior;
     CreatedAt := CreatedAt prior;
     UpdatedAt := t |}.

(** No account other than the target holds the email or the username the
    patch names. *)
Definition patch_free_of_conflict (req : UpdateUserRequest)
  (tid : primitive.ObjectID) (db : database.Collection) : Prop :=
  Forall (fun u => ID u <> tid ->
                   Email u <> upd_Email req /\ Username u <> upd_Username req) db.

(** Partial update of one field, as a relation: absent keeps, present
    replaces. *)
Definition patched_field (patch prior result : string) : Prop :=
  (patch = EmptyString -> result = prior) /\
  (patch <> EmptyString -> result = patch).

(** The part of a stored account that [update_account] must never touch. *)
Definition frozen (u : User) : primitive.ObjectID * string * Time * option Time :=
  (ID u, Password u, CreatedAt u, LastLogin u).

(** [DeleteUser] gets as far as its permission checks. *)
Definition delete_reaches_check (c : Context unit)
  (db : database.Collection) (tid : primitive.ObjectID)
  (actor target : User) : Prop :=
  primitive.ObjectIDFromHex (Param_id c) = Some tid /\
  database.FindOne (database.by_id tid) db = Some target /\
  exists hex id,
    Get_userID c = Some hex /\
    primitive.ObjectIDFromHex hex = Some id /\
    database.FindOne (database.by_id id) db = Some actor.

(** The login errors, as the handler writes them. *)
Definition InvalidCredentials : Response :=
  JSON http.StatusUnauthorized
    (ErrorResponse "The email or password you entered is incorrect. Please check your credentials and try again.").

Definition InactiveAccount : Response :=
  JSON http.StatusUnauthorized
    (ErrorResponse "Your account is currently inactive. Please contact support for assistance.").

Definition Conflict : Response :=
  JSON http.StatusConflict
    (ErrorResponse "An account with this email or username already exists. Please use a different email or try logging in if you already have an account.").

End policy.

(* ===================================================================== *)
(** ** A concrete pkg/utils and sample data, for running the handlers *)
(* ===================================================================== *)

Module sample.

Import models gin database.

Fixpoint after_dollar (s : string) : string :=
  match s with
  | EmptyString => EmptyString
  | String c rest => if Ascii.eqb c "$"%char then rest else after_dollar rest
  end.

Definition HashPassword (salt password : string) : option string :=
  Some (salt ++ "$" ++ password)%string.

Definition CheckPassword (password hash : string) : bool :=
  String.eqb password (after_dollar hash).

Definition GenerateToken (e : Env) (u : User) (secret : string) (hours : Z)
  : option string :=
  Some (primitive.Hex (ID u) ++ "." ++ Role u ++ "." ++ secret)%string.

Definition env : Env :=
  mkEnv 1700000000 7%N "s4lt" false (config.mkConfig "secret" 24).

Definition account (id : N) (name : string) (r : UserRole) (st : UserStatus) : User :=
  {| ID := id; Name := name; Email := (name ++ "@x.com")%string;
     Username := name; Password := ("s4lt$pw-" ++ name)%string;
     Role := r; Status := st; Phone := EmptyString;
     Department := EmptyString; Bio := EmptyString;
     ProfileImage := EmptyString; SocialLinks := None; LastLogin := None;
     CreatedAt := 1600000000; UpdatedAt := 1600000000 |}.

Definition id_hex (id : N) : string := primitive.Hex id.

(** A patch that names the role only, and one that names a phone only. *)
Definition role_patch (r : UserRole) : UpdateUserRequest :=
  mkUpdateUserRequest EmptyString EmptyString EmptyString EmptyString
    EmptyString EmptyString EmptyString None r EmptyString.

Definition phone_patch (phone : string) : UpdateUserRequest :=
  mkUpdateUserRequest EmptyString EmptyString EmptyString phone
    EmptyString EmptyString EmptyString None EmptyString EmptyString.

(** One account of each role, and an inactive one. *)
Definition db : Collection :=
  [ account 1 "root" RoleAdmin StatusActive;
    account 2 "mary" RoleManager StatusActive;
    account 3 "sam" RoleStaff StatusActive;
    account 4 "ann" RoleAdmin StatusActive;
    account 5 "mike" RoleManager StatusActive;
    account 6 "ida" RoleStaff StatusInactive ].

(** Requests used to run the handlers. *)
Definition eve_admin : RegisterRequest :=
  mkRegisterRequest "Eve" "eve@x.com" "eve" "hunter2" EmptyString
    EmptyString EmptyString RoleAdmin.

Definition sam_again : RegisterRequest :=
  mkRegisterRequest "Sam" "sam@x.com" "sammy" "letmein" EmptyString
    EmptyString EmptyString RoleStaff.

Definition new_account (r : UserRole) : RegisterRequest :=
  mkRegisterRequest "Newcomer" "new@x.com" "newcomer" "welcome1" EmptyString
    "Kitchen" EmptyString r.

(** A request with no token behind it. *)
Definition anonymous {B} (b : B) : Context B :=
  mkContext (inr b) EmptyString None.

(** A request by the account [actor] on the path parameter [target]. *)
Definition request_by {B} (actor target : N) (b : B) : Context B :=
  mkContext (inr b) (id_hex target) (Some (id_hex actor)).

End sample.

(* ===================================================================== *)
(** ** The no-escalation rationale of section 4.3, as a property *)
(* ===================================================================== *)

Module rationale.

Import models gin database.

(** "No actor may create a peer or superior": whenever [CreateUser]
    answers 201 and has appended an account, that account ranks strictly
    below the actor. *)
Definition create_never_escalates
  (HashPassword : string -> string -> option string) : Prop :=
  forall (c : Context RegisterRequest) (e : Env) (db : Collection)
    (req : RegisterRequest) (actor user : User),
    policy.create_reaches_check c db req actor ->
    code (fst (handlers.CreateUser HashPassword c e db)) = http.StatusCreated ->
    snd (handlers.CreateUser HashPassword c e db) = db ++ [user] ->
    ~ policy.peer_or_superior (Role actor) (Role user).

(** "No actor may promote a peer or superior": whenever [UpdateUser]
    answers 200, the target as stored afterwards ranks strictly below the
    actor. *)
Definition update_never_escalates : Prop :=
  forall (c : Context UpdateUserRequest) (e : Env) (db : Collection)
    (req : UpdateUserRequest) (tid : primitive.ObjectID)
    (actor target updated : User),
    policy.update_reaches_check c db req tid actor target ->
    code (fst (handlers.UpdateUser c e db)) = http.StatusOK ->
    FindOne (by_id tid) (snd (handlers.UpdateUser c e db)) = Some updated ->
    ~ policy.peer_or_superior (Role actor) (Role updated).

Definition mutation_never_escalates : Prop :=
  (forall HashPassword, create_never_escalates HashPassword) /\
  update_never_escalates.

(** "An admin actor ... may change the role field, except re-assigning
    another admin away from admin": [UpdateUser] answers Forbidden exactly
    where the table as written denies. *)
Definition update_follows_table_as_written : Prop :=
  forall (c : Context UpdateUserRequest) (e : Env) (db : Collection)
    (req : UpdateUserRequest) (tid : primitive.ObjectID)
    (actor target : User) (a t : policy.role),
    policy.update_reaches_check c db req tid actor target ->
    Role actor = policy.role_string a ->
    Role target = policy.role_string t ->
    (code (fst (handlers.UpdateUser c e db)) = http.StatusForbidden <->
     policy.table_can_update_as_written a t (N.eqb (ID actor) (ID target))
       (upd_Role req) = false).


End rationale.

(* ===================================================================== *)
(** ** Go's int, strconv and strings *)
(* ===================================================================== *)

Module goint.

(** [int] and [int64] are 64-bit two's complement. *)
Definition MinInt64 : Z := - 2 ^ 63.
Definition MaxInt64 : Z := 2 ^ 63 - 1.

Definition wrap (z : Z) : Z := (z + 2 ^ 63) mod 2 ^ 64 - 2 ^ 63.

Definition add (a b : Z) : Z := wrap (a + b).
Definition sub (a b : Z) : Z := wrap (a - b).
Definition mul (a b : Z) : Z := wrap (a * b).

(** Integer division truncates toward zero and panics on a zero divisor. *)
Definition div (a b : Z) : option Z :=
  if Z.eqb b 0 then None else Some (wrap (Z.quot a b)).

End goint.

Module strconv.

Definition is_digit (c : ascii) : bool :=
  ((48 <=? N_of_ascii c) && (N_of_ascii c <=? 57))%N.

Definition digit_value (c : ascii) : Z := Z.of_N (N_of_ascii c) - 48.

(** The value of a run of decimal digits, [None] at the first other byte. *)
Fixpoint digits (s : string) (acc : Z) : option Z :=
  match s with
  | EmptyString => Some acc
  | String c rest =>
      if is_digit c then digits rest (10 * acc + digit_value c) else None
  end.

(** [strconv.Atoi]: an optional sign, then one or more decimal digits, the
    value within the range of [int]; anything else is an error. *)
Definition Atoi (s : string) : option Z :=
  let '(negative, body) :=
    match s with
    | String "-"%char rest => (true, rest)
    | String "+"%char rest => (false, rest)
    | _ => (false, s)
    end in
  match body with
  | EmptyString => None
  | _ =>
      match digits body 0 with
      | None => None
      | Some v =>
          let n := if negative then - v else v in
          if (goint.MinInt64 <=? n) && (n <=? goint.MaxInt64) then Some n else None
      end
  end.

Definition digit_char (d : Z) : ascii := ascii_of_N (Z.to_N (48 + d)).

(** The decimal digits of [n], most significant first, in front of [acc];
    [fuel] bounds the number of digits. *)
Fixpoint utoa (fuel : nat) (n : Z) (acc : string) : string :=
  match fuel with
  | O => acc
  | S k =>
      if n <? 10 then String (digit_char n) acc
      else utoa k (n / 10) (String (digit_char (n mod 10)) acc)
  end.

(** [strconv.Itoa] on the range of [int] (at most nineteen digits). *)
Definition Itoa (n : Z) : string :=
  if n <? 0 then String "-"%char (utoa 19 (- n) EmptyString)
  else utoa 19 n EmptyString.

End strconv.

Module gostrings.

(** [strings.Split(s, ",")]: the pieces between the commas; one more piece
    than there are commas. *)
Fixpoint split_comma (s : string) (piece : string) : list string :=
  match s with
  | EmptyString => [piece]
  | String c rest =>
      if Ascii.eqb c ","%char then piece :: split_comma rest EmptyString
      else split_comma rest (piece ++ String c EmptyString)%string
  end.

Definition SplitComma (s : string) : list string := split_comma s EmptyString.

(** [strings.Join(pieces, ",")] *)
Fixpoint JoinComma (pieces : list string) : string :=
  match pieces with
  | [] => EmptyString
  | [p] => p
  | p :: rest => (p ++ String ","%char (JoinComma rest))%string
  end.

Fixpoint contains_comma (s : string) : bool :=
  match s with
  | EmptyString => false
  | String c rest => Ascii.eqb c ","%char || contains_comma rest
  end.

End gostrings.

(* ===================================================================== *)
(** ** internal/config/config.go, in full *)
(* ===================================================================== *)

Module configload.

(** [os.Getenv]: the value of the variable, empty when it is not set. *)
Definition Getenv (environ : gmap string string) (key : string) : string :=
  match environ !! key with
  | Some value => value
  | None => EmptyString
  end.

Definition getEnv (environ : gmap string string) (key defaultValue : string) : string :=
  let value := Getenv environ key in
  if negb (String.eqb value EmptyString) then value else defaultValue.

Definition getEnvAsInt (environ : gmap string string) (key : string)
  (defaultValue : Z) : Z :=
  let value := Getenv environ key in
  if negb (String.eqb value EmptyString) then
    match strconv.Atoi value with
    | Some intValue => intValue
    | None => defaultValue
    end
  else defaultValue.

Definition getEnvAsSlice (environ : gmap string string) (key : string)
  (defaultValue : list string) : list string :=
  let value := Getenv environ key in
  if negb (String.eqb value EmptyString) then gostrings.SplitComma value
  else defaultValue.

Record Config : Type := mkConfig {
  Port : string;
  GinMode : string;
  MongoURI : string;
  DatabaseName : string;
  JWTSecret : string;
  JWTExpirationHours : Z;
  AllowedOrigins : list string;
  MaxFileSize : string;
  UploadPath : string
}.

Definition Load (environ : gmap string string) : Config :=
  {| Port := getEnv environ "PORT" "8080";
     GinMode := getEnv environ "GIN_MODE" "debug";
     MongoURI := getEnv environ "MONGODB_URI" "mongodb://localhost:27017";
     DatabaseName := getEnv environ "DATABASE_NAME" "vibanda_village";
     JWTSecret := getEnv environ "JWT_SECRET" "your-super-secret-jwt-key-here";
     JWTExpirationHours := getEnvAsInt environ "JWT_EXPIRATION_HOURS" 24;
     AllowedOrigins :=
       getEnvAsSlice environ "ALLOWED_ORIGINS"
         ["http://localhost:3000"; "http://localhost:5173"];
     MaxFileSize := getEnv environ "MAX_FILE_SIZE" "10MB";
     UploadPath := getEnv environ "UPLOAD_PATH" "uploads/" |}.

(** The names [Load] looks up. *)
Definition variables : list string :=
  [ "PORT"; "GIN_MODE"; "MONGODB_URI"; "DATABASE_NAME"; "JWT_SECRET";
    "JWT_EXPIRATION_HOURS"; "ALLOWED_ORIGINS"; "MAX_FILE_SIZE"; "UPLOAD_PATH" ].

(** The two fields [Login] hands to the token service. *)
Definition token_settings (c : Config) : config.Config :=
  config.mkConfig (JWTSecret c) (JWTExpirationHours c).

End configload.

(* ===================================================================== *)
(** ** internal/database/database.go *)
(* ===================================================================== *)

Module initdb.

Import models database.

(** How [InitDB] ends: [log.Fatal], or a live connection; either way with
    the pauses, in seconds, it slept between pings and the number of pings
    it sent. *)
Inductive Startup : Type :=
| Fatal (reason : string) (slept : list Z) (pings : nat)
| Connected (slept : list Z) (pings : nat).

(** The ping loop from iteration [i] on, [left] iterations before
    [i < maxRetries] fails; [ping k] tells whether the ping of iteration [k]
    succeeds. *)
Fixpoint ping_loop (ping : nat -> bool) (maxRetries i left : nat)
  (slept : list Z) : Startup :=
  match left with
  | O => Connected slept i
  | S left' =>
      if ping i then Connected slept (S i)
      else if Nat.eqb i (maxRetries - 1) then
        Fatal "Failed to ping MongoDB after" slept (S i)
      else ping_loop ping maxRetries (S i) left' (slept ++ [Z.of_nat (i + 1)])
  end.

Definition connect_and_ping (connect_ok : bool) (ping : nat -> bool) : Startup :=
  if connect_ok then
    let maxRetries := 3%nat in
    ping_loop ping maxRetries 0 maxRetries []
  else Fatal "Failed to connect to MongoDB:" [] 0.

Section TestUser.

Variable HashPassword : string -> string -> option string.

Definition createTestUserIfNotExists (e : Env) (db : Collection) : Collection :=
  (* Check if user already exists *)
  match FindOne (by_email "testandtest@gmail.com") db with
  | Some _ => db
  | None =>
      (* Hash password *)
      match HashPassword (entropy e) "12345678" with
      | None => db
      | Some hashedPassword =>
          (* Create user *)
          let user :=
            {| ID := NewObjectID e;
               Name := "Test User";
               Email := "testandtest@gmail.com";
               Username := "testuser";
               Password := hashedPassword;
               Role := RoleAdmin;
               Status := StatusActive;
               Phone := EmptyString;
               Department := EmptyString;
               Bio := EmptyString;
               ProfileImage := EmptyString;
               SocialLinks := None;
               LastLogin := None;
               CreatedAt := now e;
               UpdatedAt := now e |} in
          match InsertOne e user db with
          | None => db
          | Some db' => db'
          end
      end
  end.

(** [InitDB]: connect, ping, and on success seed the test user. *)
Definition InitDB (connect_ok : bool) (ping : nat -> bool) (e : Env)
  (db : Collection) : Startup * Collection :=
  match connect_and_ping connect_ok ping with
  | Fatal reason slept pings => (Fatal reason slept pings, db)
  | Connected slept pings =>
      (Connected slept pings, createTestUserIfNotExists e db)
  end.

End TestUser.

End initdb.

(* ===================================================================== *)
(** ** The read handlers: GetUser, GetUsers, GetProfile *)
(* ===================================================================== *)

Module readers.

Import models gin database handler_monad.
Local Open Scope handler_scope.

(** [parseIntParam] of package handlers: the default for an empty or
    unparsable parameter, the parsed number otherwise. *)
Definition parseIntParam (param : string) (defaultValue : Z) : Z :=
  if String.eqb param EmptyString then defaultValue
  else match strconv.Atoi param with
       | Some value => value
       | None => defaultValue
       end.

(** [GetUser] *)
Definition GetUser (c : Context unit) : Collection -> Response * Collection :=
  serve (
    userObjectID <- or_else (primitive.ObjectIDFromHex (Param_id c))
           (respond http.StatusBadRequest (ErrorResponse "Invalid user ID")) ;;
    found <- find_one (by_id userObjectID) ;;
    user <- or_else found
           (respond http.StatusNotFound (ErrorResponse "User not found")) ;;
    respond http.StatusOK (UserJSON (ToResponse user))).

(** What a handler outside the account mutations leaves behind: a JSON
    answer, an error answer, or a run-time panic. *)
Inductive Outcome (A : Type) : Type :=
| Answer (status : Z) (payload : A)
| Refusal (status : Z) (Error : string)
| Panic (reason : string).
Arguments Answer {A} _ _.
Arguments Refusal {A} _ _.
Arguments Panic {A} _.

(** The query string of [GET /users]; [c.Query] gives the empty string for
    an absent parameter. *)
Record ListQuery : Type := mkListQuery {
  Query_page : string;
  Query_limit : string;
  Query_search : string;
  Query_role : string;
  Query_status : string
}.

Record PaginatedResponse : Type := mkPaginatedResponse {
  Data : list UserResponse;
  Total : Z;
  Page : Z;
  Limit : Z;
  TotalPages : Z
}.

Section Driver.

(** The server side of a query stays outside this development.
    [regex pattern] is the case-insensitive match of [$regex] with option
    [i], [None] when the server rejects the pattern; [Find filter skip limit]
    is the sorted, paged read, [None] when the driver reports an error. *)
Variable regex : string -> option (string -> bool).
Variable Find : (User -> bool) -> Z -> Z -> Collection -> option (list User).

(** The filter document [GetUsers] builds; [None] when its [$regex] is
    rejected. *)
Definition users_filter (search roleFilter statusFilter : string)
  : option (User -> bool) :=
  let by_search : option (User -> bool) :=
    if negb (String.eqb search EmptyString) then
      match regex search with
      | Some matches =>
          Some (fun u => matches (Name u) || matches (Email u) || matches (Username u))
      | None => None
      end
    else Some (fun _ => true) in
  let by_role : User -> bool :=
    if negb (String.eqb roleFilter EmptyString)
    then fun u => String.eqb (Role u) roleFilter else fun _ => true in
  let by_status : User -> bool :=
    if negb (String.eqb statusFilter EmptyString)
    then fun u => String.eqb (Status u) statusFilter else fun _ => true in
  match by_search with
  | Some f => Some (fun u => f u && by_role u && by_status u)
  | None => None
  end.

(** [GetUsers]; the stored documents are typed here, so [cursor.All] has
    no way to fail, and a nil slice is the empty list. *)
Definition GetUsers (q : ListQuery) (db : Collection) : Outcome PaginatedResponse :=
  let page := parseIntParam (Query_page q) 1 in
  let limit := parseIntParam (Query_limit q) 10 in
  (* Build filter; get total count *)
  match users_filter (Query_search q) (Query_role q) (Query_status q) with
  | None => Refusal http.StatusInternalServerError "Failed to count users"
  | Some filter =>
      let total := Z.of_nat (length (List.filter filter db)) in
      (* Get paginated results *)
      match Find filter (goint.mul (goint.sub page 1) limit) limit db with
      | None => Refusal http.StatusInternalServerError "Failed to fetch users"
      | Some users =>
          (* Convert to response format *)
          let userResponses := map ToResponse users in
          match goint.div (goint.sub (goint.add total limit) 1) limit with
          | None => Panic "runtime error: integer divide by zero"
          | Some totalPages =>
              Answer http.StatusOK
                {| Data := userResponses;
                   Total := total;
                   Page := page;
                   Limit := limit;
                   TotalPages := totalPages |}
          end
      end
  end.

End Driver.

(* ------------------------------------------------------------------- *)
(** *** GetProfile and its helpers *)

Record ProfileActivity : Type := mkProfileActivity {
  activity_ID : string;
  activity_Description : string;
  activity_Timestamp : Time
}.

Record ProfilePermissions : Type := mkProfilePermissions {
  CanManageUsers : bool;
  CanManageRoles : bool;
  CanManageSystem : bool;
  AccessPermissions : list string
}.

Record ProfileResponse : Type := mkProfileResponse {
  profile_ID : string;
  profile_Name : string;
  profile_Email : string;
  profile_Username : string;
  profile_Role : UserRole;
  profile_Status : UserStatus;
  profile_Phone : string;
  profile_Department : string;
  profile_Bio : string;
  profile_ProfileImage : string;
  profile_SocialLinks : option (gmap string string);
  profile_LastLogin : option Time;
  profile_CreatedAt : Time;
  profile_UpdatedAt : Time;
  profile_JoinDate : string;
  profile_RoleDisplay : string;
  profile_Permissions : ProfilePermissions;
  profile_RecentActivities : list ProfileActivity
}.

(** Helper function to get role-based permissions *)
Definition getRolePermissions (role : UserRole) : ProfilePermissions :=
  if String.eqb role RoleAdmin then
    {| CanManageUsers := true;
       CanManageRoles := true;
       CanManageSystem := true;
       AccessPermissions :=
         [ "Full system access"; "User management"; "Role assignment";
           "System configuration"; "Financial reports"; "Inventory management";
           "Order processing"; "Reservation management"; "Event management";
           "Customer data access" ] |}
  else if String.eqb role RoleManager then
    {| CanManageUsers := true;
       CanManageRoles := false;
       CanManageSystem := false;
       AccessPermissions :=
         [ "Dashboard access"; "Team management"; "Order processing";
           "Reservation management"; "Event management"; "Inventory oversight";
           "Staff scheduling"; "Basic reporting" ] |}
  else if String.eqb role RoleStaff then
    {| CanManageUsers := false;
       CanManageRoles := false;
       CanManageSystem := false;
       AccessPermissions :=
         [ "Dashboard access"; "Order processing"; "Reservation management";
           "Event assistance"; "Inventory updates"; "Customer service" ] |}
  else
    {| CanManageUsers := false;
       CanManageRoles := false;
       CanManageSystem := false;
       AccessPermissions := [] |}.

(** Helper function to get role display name *)
Definition getRoleDisplay (role : UserRole) : string :=
  if String.eqb role RoleAdmin then "System Administrator"
  else if String.eqb role RoleManager then "Management Team"
  else if String.eqb role RoleStaff then "Staff Member"
  else role.

(** [time.Hour], in the nanoseconds of a [time.Duration]. *)
Definition Hour : Z := 3600000000000.

Section Profile.

(** [t.Format("2006-01-02")] depends on the time zone of the process and
    stays a parameter. *)
Variable FormatDate : Time -> string.

(** [GetProfile]; [user_id] is what [c.Get("user_id")] holds, and the type
    assertion on a missing value panics.  The handler reads the clock once
    for each of the three activities: [now1], [now2] and [now3] are those
    three readings of [time.Now()], in the order taken. *)
Definition GetProfile (user_id : option string) (now1 now2 now3 : Time)
  (db : Collection) : Outcome ProfileResponse :=
  match user_id with
  | None => Panic "interface conversion: interface {} is nil, not string"
  | Some userIDStr =>
      match primitive.ObjectIDFromHex userIDStr with
      | None => Refusal http.StatusBadRequest "Invalid user ID"
      | Some userObjectID =>
          match FindOne (by_id userObjectID) db with
          | None =>
              Refusal http.StatusInternalServerError
                "An error occurred while retrieving your profile. Please try again later."
          | Some user =>
              (* Build role-based permissions *)
              let permissions := getRolePermissions (Role user) in
              (* Build role display name *)
              let roleDisplay := getRoleDisplay (Role user) in
              (* Build recent activities (mock data for now) *)
              let recentActivities :=
                [ mkProfileActivity "1" "Logged into admin dashboard"
                    (now1 + (- Hour * 2));
                  mkProfileActivity "2" "Updated profile information"
                    (now2 + (- Hour * 24));
                  mkProfileActivity "3" "Created new user account"
                    (now3 + (- Hour * 48)) ] in
              Answer http.StatusOK
                {| profile_ID := primitive.Hex (ID user);
                   profile_Name := Name user;
                   profile_Email := Email user;
                   profile_Username := Username user;
                   profile_Role := Role user;
                   profile_Status := Status user;
                   profile_Phone := Phone user;
                   profile_Department := Department user;
                   profile_Bio := Bio user;
                   profile_ProfileImage := ProfileImage user;
                   profile_SocialLinks := SocialLinks user;
                   profile_LastLogin := LastLogin user;
                   profile_CreatedAt := CreatedAt user;
                   profile_UpdatedAt := UpdatedAt user;
                   profile_JoinDate := FormatDate (CreatedAt user);
                   profile_RoleDisplay := roleDisplay;
                   profile_Permissions := permissions;
                   profile_RecentActivities := recentActivities |}
          end
      end
  end.

End Profile.

(** The account fields of a profile, as [GetUser] would show them. *)
Definition account_of_profile (p : ProfileResponse) : UserResponse :=
  {| resp_ID := profile_ID p;
     resp_Name := profile_Name p;
     resp_Email := profile_Email p;
     resp_Username := profile_Username p;
     resp_Role := profile_Role p;
     resp_Status := profile_Status p;
     resp_Phone := profile_Phone p;
     resp_Department := profile_Department p;
     resp_Bio := profile_Bio p;
     resp_ProfileImage := profile_ProfileImage p;
     resp_SocialLinks := profile_SocialLinks p;
     resp_LastLogin := profile_LastLogin p;
     resp_CreatedAt := profile_CreatedAt p;
     resp_UpdatedAt := profile_UpdatedAt p |}.

End readers.

(* ===================================================================== *)
(** ** Invariants of the collection *)
(* ===================================================================== *)

Module invariant.

Import models.

(** Identifiers, emails and usernames are unique across the accounts. *)
Definition unique_accounts (db : list User) : Prop :=
  List.NoDup (map ID db) /\ List.NoDup (map Email db) /\ List.NoDup (map Username db).

(** An account with the two fields a login stamps blanked out. *)
Definition without_login_stamp (u : User) : User :=
  {| ID := ID u; Name := Name u; Email := Email u; Username := Username u;
     Password := Password u; Role := Role u; Status := Status u;
     Phone := Phone u; Department := Department u; Bio := Bio u;
     ProfileImage := ProfileImage u; SocialLinks := SocialLinks u;
     LastLogin := None; CreatedAt := CreatedAt u; UpdatedAt := 0 |}.

End invariant.


(* ===================================================================== *)
(** ** More sample data, for running the start-up and the read handlers *)
(* ===================================================================== *)

Module samples.

Import models gin database.

(** A token service that is down, and a driver that fails on writes. *)
Definition no_token (e : Env) (u : User) (secret : string) (hours : Z)
  : option string := None.

Definition read_only : Env :=
  mkEnv 1700000000 7%N "s4lt" true (config.mkConfig "secret" 24).

(** A request at an instant that is no whole millisecond. *)
Definition precise : Env :=
  mkEnv 1700000000123456789 7%N "s4lt" false (config.mkConfig "secret" 24).

(** Literal, case-sensitive matching stands in for the server's regex. *)
Definition regex (pattern : string) : option (string -> bool) :=
  Some (fun s => String.eqb s pattern).

Fixpoint insert_newest_first (u : User) (sorted : list User) : list User :=
  match sorted with
  | [] => [u]
  | v :: rest =>
      if CreatedAt v <? CreatedAt u then u :: v :: rest
      else v :: insert_newest_first u rest
  end.

(** A read that sorts by [created_at], newest first, and pages; a negative
    skip is an error and a limit of zero means no limit. *)
Definition Find (filter : User -> bool) (skip limit : Z) (db : Collection)
  : option (list User) :=
  if skip <? 0 then None
  else
    let sorted := fold_right insert_newest_first [] (List.filter filter db) in
    let rest := skipn (Z.to_nat skip) sorted in
    Some (if limit =? 0 then rest else firstn (Z.to_nat (Z.abs limit)) rest).

Definition FormatDate (t : Time) : string := "2020-09-13".

(** An environment in which no variable is set. *)
Definition no_variables : gmap string string := empty.

Definition staff_only (page limit : string) : readers.ListQuery :=
  readers.mkListQuery page limit EmptyString RoleStaff EmptyString.

Definition login_as (email password : string) : Context LoginRequest :=
  sample.anonymous (mkLoginRequest email password).

End samples.

(* ===================================================================== *)
(** ** Facts about the collection *)
(* ===================================================================== *)

Import models gin database handler_monad handlers.

Lemma FindOne_none (f : User -> bool) (coll : Collection) :
  FindOne f coll = None <-> Forall (fun u => f u = false) coll.
Proof.
  unfold FindOne. induction coll as [|u rest IH]; simpl.
  - split; [constructor | reflexivity].
  - destruct (f u) eqn:Hu.
    + split; [discriminate | intros H; inversion H; congruence].
    + rewrite IH. split; [now constructor | intros H; now inversion H].
Qed.

Lemma FindOne_some (f : User -> bool) (coll : Collection) (u : User) :
  FindOne f coll = Some u ->
  exists before after,
    coll = before ++ u :: after /\ f u = true /\
    Forall (fun x => f x = false) before.
Proof.
  unfold FindOne. induction coll as [|x rest IH]; simpl; [discriminate|].
  destruct (f x) eqn:Hx.
  - intros [= ->]. exists [], rest. repeat split; [assumption | constructor].
  - intros H. destruct (IH H) as (before & after & -> & Hu & Hall).
    exists (x :: before), after. repeat split; [assumption | now constructor].
Qed.

Lemma FindOne_exists (f : User -> bool) (coll : Collection) :
  Exists (fun u => f u = true) coll -> exists u, FindOne f coll = Some u.
Proof.
  unfold FindOne. induction 1 as [x rest Hx | x rest _ IH]; simpl.
  - rewrite Hx. eauto.
  - destruct (f x); eauto.
Qed.

Lemma delete_first_split (f : User -> bool) (before after : Collection) (u : User) :
  Forall (fun x => f x = false) before -> f u = true ->
  delete_first f (before ++ u :: after) = before ++ after.
Proof.
  induction 1 as [|x rest Hx _ IH]; intros Hu; simpl.
  - now rewrite Hu.
  - rewrite Hx. f_equal. now apply IH.
Qed.

Lemma update_first_split (f : User -> bool) (set : User -> User)
  (before after : Collection) (u : User) :
  Forall (fun x => f x = false) before -> f u = true ->
  update_first f set (before ++ u :: after) = before ++ set u :: after.
Proof.
  induction 1 as [|x rest Hx _ IH]; intros Hu; simpl.
  - now rewrite Hu.
  - rewrite Hx. f_equal. now apply IH.
Qed.

Lemma by_email_or_username_false (email username : string) (u : User) :
  by_email_or_username email username u = false <->
  Email u <> email /\ Username u <> username.
Proof.
  unfold by_email_or_username. rewrite orb_false_iff.
  now rewrite !String.eqb_neq.
Qed.

Lemma by_email_or_username_true (email username : string) (u : User) :
  by_email_or_username email username u = true <->
  Email u = email \/ Username u = username.
Proof.
  unfold by_email_or_username. rewrite orb_true_iff.
  now rewrite !String.eqb_eq.
Qed.

(** Unfolds one handler down to matches on what it reads. *)
Ltac open_handler h :=
  unfold h, serve, bind, ret, respond, when, or_else, find_one, write,
    err_is_nil.

(* ===================================================================== *)
(** ** Registration *)
(* ===================================================================== *)

Section RegisterProperties.

Variable HashPassword : string -> string -> option string.

Local Abbreviation Register := (handlers.Register HashPassword).

(** No path through [Register] answers 403. *)
Lemma Register_never_forbidden (c : Context RegisterRequest) (e : Env)
  (db : Collection) :
  code (fst (Register c e db)) <> http.StatusForbidden.
Proof.
  open_handler handlers.Register. unfold InsertOne.
  destruct (ShouldBindJSON c) as [err|req]; simpl; [discriminate|].
  destruct (FindOne _ db); simpl; [discriminate|].
  destruct (HashPassword _ _); simpl; [|discriminate].
  destruct (write_err e); simpl; discriminate.
Qed.

(** C1: the register route is public (only the CORS middleware stands in
    front of it, no authentication and no role gate), and for every request
    whose email and username are not taken the account is stored with
    exactly the requested role and status active, whatever the caller's
    identity; a request for role admin so yields an active admin account,
    and no path through the handler answers Forbidden. *)
Theorem Register_public_stores_requested_role
  (c : Context RegisterRequest) (e : Env) (db : Collection)
  (req : RegisterRequest) (hashed : string) :
  ShouldBindJSON c = inr req ->
  Forall (fun u => Email u <> reg_Email req /\ Username u <> reg_Username req) db ->
  HashPassword (entropy e) (reg_Password req) = Some hashed ->
  write_err e = false ->
  routes.chain_of "Register" = Some [routes.CORSMiddleware] /\
  routes.route_of "Register" = Some ("POST", "/api/v1/auth/register") /\
  (forall c' e' db', code (fst (Register c' e' db')) <> http.StatusForbidden) /\
  exists user,
    Register c e db
      = (JSON http.StatusCreated (UserJSON (ToResponse user)), db ++ [user]) /\
    Role user = reg_Role req /\
    Status user = StatusActive /\
    Email user = reg_Email req /\
    Username user = reg_Username req /\
    Password user = hashed /\
    (reg_Role req = RoleAdmin ->
       Role user = RoleAdmin /\ Status user = StatusActive).
Proof.
  intros Hbind Hfree Hhash Hwrite.
  split; [reflexivity|]. split; [reflexivity|].
  split; [intros; apply Register_never_forbidden|].
  assert (Hnone : FindOne (by_email_or_username (reg_Email req) (reg_Username req)) db = None).
  { apply FindOne_none. eapply List.Forall_impl; [|exact Hfree].
    intros u Hu. now apply by_email_or_username_false. }
  eexists. split.
  - open_handler handlers.Register. unfold InsertOne.
    rewrite Hbind; simpl. rewrite Hnone; simpl. rewrite Hhash; simpl.
    rewrite Hwrite; simpl. reflexivity.
  - simpl. repeat split; try reflexivity; assumption.
Qed.

(** C9: a registration whose email or username is already held by a stored
    account answers Conflict and leaves the collection exactly as it was. *)
Theorem Register_conflict_keeps_collection
  (c : Context RegisterRequest) (e : Env) (db : Collection)
  (req : RegisterRequest) :
  ShouldBindJSON c = inr req ->
  Exists (fun u => Email u = reg_Email req \/ Username u = reg_Username req) db ->
  Register c e db = (policy.Conflict, db) /\
  code policy.Conflict = http.StatusConflict.
Proof.
  intros Hbind Htaken. split; [|reflexivity].
  destruct (FindOne_exists (by_email_or_username (reg_Email req) (reg_Username req)) db)
    as [u Hu].
  { eapply List.Exists_impl; [|exact Htaken].
    intros a Ha. now apply by_email_or_username_true. }
  open_handler handlers.Register.
  rewrite Hbind; simpl. rewrite Hu; simpl. reflexivity.
Qed.

End RegisterProperties.

(* ===================================================================== *)
(** ** Login *)
(* ===================================================================== *)

Lemma by_email_false (email : string) (u : User) :
  by_email email u = false <-> Email u <> email.
Proof. unfold by_email. apply String.eqb_neq. Qed.

Lemma InactiveAccount_distinct : policy.InactiveAccount <> policy.InvalidCredentials.
Proof. unfold policy.InactiveAccount, policy.InvalidCredentials. intros H. discriminate H. Qed.

Section LoginProperties.

Variable CheckPassword : string -> string -> bool.
Variable GenerateToken : Env -> User -> string -> Z -> option string.

Local Abbreviation Login := (handlers.Login CheckPassword GenerateToken).

Lemma Login_unknown_email (c : Context LoginRequest) (e : Env)
  (db : Collection) (req : LoginRequest) :
  ShouldBindJSON c = inr req ->
  FindOne (by_email (login_Email req)) db = None ->
  Login c e db = (policy.InvalidCredentials, db).
Proof.
  intros Hbind Hnone. open_handler handlers.Login.
  rewrite Hbind; simpl. rewrite Hnone; simpl. reflexivity.
Qed.

Lemma Login_wrong_password (c : Context LoginRequest) (e : Env)
  (db : Collection) (req : LoginRequest) (user : User) :
  ShouldBindJSON c = inr req ->
  FindOne (by_email (login_Email req)) db = Some user ->
  CheckPassword (login_Password req) (Password user) = false ->
  Login c e db = (policy.InvalidCredentials, db).
Proof.
  intros Hbind Hfound Hpw. open_handler handlers.Login.
  rewrite Hbind; simpl. rewrite Hfound; simpl. rewrite Hpw; simpl.
  reflexivity.
Qed.

Lemma Login_inactive (c : Context LoginRequest) (e : Env)
  (db : Collection) (req : LoginRequest) (user : User) :
  ShouldBindJSON c = inr req ->
  FindOne (by_email (login_Email req)) db = Some user ->
  CheckPassword (login_Password req) (Password user) = true ->
  Status user <> StatusActive ->
  Login c e db = (policy.InactiveAccount, db).
Proof.
  intros Hbind Hfound Hpw Hst. open_handler handlers.Login.
  rewrite Hbind; simpl. rewrite Hfound; simpl. rewrite Hpw; simpl.
  apply String.eqb_neq in Hst. rewrite Hst; simpl. reflexivity.
Qed.

(** The inactive-account answer comes from one place only: a bound request,
    a matched account, a verified password and a status that is not active. *)
Lemma Login_inactive_only_after_password (c : Context LoginRequest) (e : Env)
  (db : Collection) :
  fst (Login c e db) = policy.InactiveAccount ->
  exists req user,
    ShouldBindJSON c = inr req /\
    FindOne (by_email (login_Email req)) db = Some user /\
    CheckPassword (login_Password req) (Password user) = true /\
    Status user <> StatusActive.
Proof.
  open_handler handlers.Login. unfold UpdateOne, policy.InactiveAccount.
  destruct (ShouldBindJSON c) as [err|req] eqn:Hbind; simpl; [discriminate|].
  destruct (FindOne _ db) as [user|] eqn:Hfound; simpl; [|discriminate].
  destruct (CheckPassword _ _) eqn:Hpw; simpl; [|discriminate].
  destruct (String.eqb (Status user) StatusActive) eqn:Hst; simpl.
  - destruct (write_err e); simpl;
      destruct (GenerateToken _ _ _ _); simpl; discriminate.
  - intros _. exists req, user. repeat split; try assumption.
    now apply String.eqb_neq.
Qed.

(** C7: both credential failures (no account with the supplied email, or a
    password that does not verify against the stored hash) give one and the
    same response, status and message alike; a matched account whose
    password verifies and whose status is not active gives the
    inactive-account response, which differs from the former.  No failure
    touches the collection. *)
Theorem Login_credential_errors_identical
  (c : Context LoginRequest) (e : Env) (db : Collection) (req : LoginRequest) :
  ShouldBindJSON c = inr req ->
  (Forall (fun u => Email u <> login_Email req) db ->
     Login c e db = (policy.InvalidCredentials, db)) /\
  (forall user,
     FindOne (by_email (login_Email req)) db = Some user ->
     CheckPassword (login_Password req) (Password user) = false ->
     Login c e db = (policy.InvalidCredentials, db)) /\
  (forall user,
     FindOne (by_email (login_Email req)) db = Some user ->
     CheckPassword (login_Password req) (Password user) = true ->
     Status user <> StatusActive ->
     Login c e db = (policy.InactiveAccount, db)) /\
  policy.InactiveAccount <> policy.InvalidCredentials /\
  code policy.InvalidCredentials = http.StatusUnauthorized.
Proof.
  intros Hbind. repeat split.
  - intros Hnone. apply (Login_unknown_email c e db req Hbind).
    apply FindOne_none. eapply List.Forall_impl; [|exact Hnone].
    intros u Hu. now apply by_email_false.
  - intros user. now apply Login_wrong_password.
  - intros user. now apply Login_inactive.
  - exact InactiveAccount_distinct.
Qed.

(** C8: the password is verified before the status is looked at.  For an
    inactive account a wrong password gives the credential error, a right
    one the inactive-account error; and whenever [Login] answers with the
    inactive-account error, the supplied password did verify against the
    hash of the matched account. *)
Theorem Login_password_before_status
  (c : Context LoginRequest) (e : Env) (db : Collection)
  (req : LoginRequest) (user : User) :
  ShouldBindJSON c = inr req ->
  FindOne (by_email (login_Email req)) db = Some user ->
  Status user <> StatusActive ->
  (CheckPassword (login_Password req) (Password user) = false ->
     Login c e db = (policy.InvalidCredentials, db)) /\
  (CheckPassword (login_Password req) (Password user) = true ->
     Login c e db = (policy.InactiveAccount, db)) /\
  (fst (Login c e db) = policy.InactiveAccount ->
     CheckPassword (login_Password req) (Password user) = true) /\
  (forall c' e' db',
     fst (Login c' e' db') = policy.InactiveAccount ->
     exists req' user',
       ShouldBindJSON c' = inr req' /\
       FindOne (by_email (login_Email req')) db' = Some user' /\
       CheckPassword (login_Password req') (Password user') = true /\
       Status user' <> StatusActive).
Proof.
  intros Hbind Hfound Hst. split; [|split; [|split]].
  - now apply Login_wrong_password.
  - intros Hpw. eapply Login_inactive; eassumption.
  - intros Hresp.
    destruct (Login_inactive_only_after_password c e db Hresp)
      as (req' & user' & Hbind' & Hfound' & Hpw' & _).
    congruence.
  - intros c' e' db'. apply Login_inactive_only_after_password.
Qed.

End LoginProperties.

(* ===================================================================== *)
(** ** Account creation by an authenticated actor *)
(* ===================================================================== *)

(** Case analysis on whatever the goal still branches on. *)
Ltac branch :=
  match goal with
  | |- context [match ?x with _ => _ end] =>
      lazymatch x with
      | context [match _ with _ => _ end] => fail
      | _ => destruct x eqn:?; simpl
      end
  end.

(** Runs [CreateUser] up to its permission checks. *)
Ltac enter_create Hbind Hget Hhex Hactor Ha Hadm Hstf :=
  open_handler handlers.CreateUser;
  rewrite Hbind, Hget; simpl; rewrite Hhex; simpl; rewrite Hactor; simpl;
  rewrite Ha, ?Hadm, ?Hstf.

Section CreateUserProperties.

Variable HashPassword : string -> string -> option string.

Local Abbreviation CreateUser := (handlers.CreateUser HashPassword).

(** C3: for each of the nine pairs of the can_create table, a denied pair
    answers Forbidden and inserts nothing, and an allowed pair goes on to
    the registration steps: it is never answered Forbidden, it answers
    Conflict without a write when the email or username is taken, and
    otherwise (hash and write succeeding) it appends the account with the
    requested role and status active. *)
Theorem CreateUser_follows_can_create_table
  (c : Context RegisterRequest) (e : Env) (db : Collection)
  (req : RegisterRequest) (actor : User) (a t : policy.role) :
  policy.create_reaches_check c db req actor ->
  Role actor = policy.role_string a ->
  reg_Role req = policy.role_string t ->
  (policy.table_can_create a t = false ->
     code (fst (CreateUser c e db)) = http.StatusForbidden /\
     snd (CreateUser c e db) = db) /\
  (policy.table_can_create a t = true ->
     code (fst (CreateUser c e db)) <> http.StatusForbidden /\
     (Exists (fun u => Email u = reg_Email req \/ Username u = reg_Username req) db ->
        code (fst (CreateUser c e db)) = http.StatusConflict /\
        snd (CreateUser c e db) = db) /\
     (Forall (fun u => Email u <> reg_Email req /\ Username u <> reg_Username req) db ->
      forall hashed,
        HashPassword (entropy e) (reg_Password req) = Some hashed ->
        write_err e = false ->
        exists user,
          CreateUser c e db
            = (JSON http.StatusCreated (UserJSON (ToResponse user)), db ++ [user]) /\
          Role user = policy.role_string t /\
          Status user = StatusActive /\
          Password user = hashed)).
Proof.
  intros (Hbind & hex & id & Hget & Hhex & Hactor) Ha Ht.
  assert (Hadm : String.eqb (reg_Role req) RoleAdmin
                 = String.eqb (policy.role_string t) RoleAdmin) by now rewrite Ht.
  assert (Hstf : String.eqb (reg_Role req) RoleStaff
                 = String.eqb (policy.role_string t) RoleStaff) by now rewrite Ht.
  split.
  - intros Hdeny. enter_create Hbind Hget Hhex Hactor Ha Hadm Hstf.
    destruct a, t; simpl in Hdeny; try discriminate Hdeny; simpl; split; reflexivity.
  - intros Hallow. split; [|split].
    + enter_create Hbind Hget Hhex Hactor Ha Hadm Hstf. unfold InsertOne.
      destruct a, t; simpl in Hallow; try discriminate Hallow; simpl;
        repeat branch; discriminate.
    + intros Htaken.
      destruct (FindOne_exists (by_email_or_username (reg_Email req) (reg_Username req)) db)
        as [u Hu].
      { eapply List.Exists_impl; [|exact Htaken].
        intros x Hx. now apply by_email_or_username_true. }
      enter_create Hbind Hget Hhex Hactor Ha Hadm Hstf.
      destruct a, t; simpl in Hallow; try discriminate Hallow; simpl;
        rewrite Hu; simpl; split; reflexivity.
    + intros Hfree hashed Hhash Hwrite.
      assert (Hnone : FindOne (by_email_or_username (reg_Email req) (reg_Username req)) db = None).
      { apply FindOne_none. eapply List.Forall_impl; [|exact Hfree].
        intros u Hu. now apply by_email_or_username_false. }
      eexists. split.
      * enter_create Hbind Hget Hhex Hactor Ha Hadm Hstf. unfold InsertOne.
        destruct a, t; simpl in Hallow; try discriminate Hallow; simpl;
          rewrite Hnone; simpl; rewrite Hhash; simpl; rewrite Hwrite; simpl;
          reflexivity.
      * simpl. repeat split; try reflexivity. exact Ht.
Qed.

End CreateUserProperties.

(* ===================================================================== *)
(** ** Account deletion *)
(* ===================================================================== *)

Lemma by_id_false (id : primitive.ObjectID) (u : User) :
  by_id id u = false <-> ID u <> id.
Proof. unfold by_id. apply N.eqb_neq. Qed.

Lemma by_id_true (id : primitive.ObjectID) (u : User) :
  by_id id u = true <-> ID u = id.
Proof. unfold by_id. apply N.eqb_eq. Qed.

(** The document [FindOne] returns for an id sits behind documents of other
    ids only. *)
Lemma FindOne_by_id_split (id : primitive.ObjectID) (db : Collection) (u : User) :
  FindOne (by_id id) db = Some u ->
  exists before after,
    db = before ++ u :: after /\ ID u = id /\
    Forall (fun x => ID x <> id) before /\
    Forall (fun x => by_id id x = false) before.
Proof.
  intros H. destruct (FindOne_some _ _ _ H) as (before & after & -> & Hu & Hall).
  exists before, after. repeat split; try assumption.
  - now apply by_id_true.
  - eapply List.Forall_impl; [|exact Hall]. intros x Hx. now apply by_id_false.
Qed.

(** Runs [DeleteUser] up to its permission checks. *)
Ltac enter_delete Hparam Htarget Hget Hhex Hactor :=
  open_handler handlers.DeleteUser; unfold DeleteOne;
  rewrite Hparam; simpl; rewrite Htarget; simpl; rewrite Hget; simpl;
  rewrite Hhex; simpl; rewrite Hactor; simpl.

(** With a working driver, a delete that passes the checks takes the found
    document out of the collection and answers 204. *)
Lemma DeleteUser_passes (c : Context unit) (e : Env) (db : Collection)
  (tid : primitive.ObjectID) (actor target : User) :
  policy.delete_reaches_check c db tid actor target ->
  String.eqb (Role actor) RoleAdmin
    && (String.eqb (Role target) RoleAdmin || String.eqb (Role target) RoleManager) = false ->
  String.eqb (Role actor) RoleManager && String.eqb (Role target) RoleAdmin = false ->
  write_err e = false ->
  exists before after,
    db = before ++ target :: after /\
    Forall (fun u => ID u <> tid) before /\
    DeleteUser c e db = (JSON http.StatusNoContent Nil, before ++ after).
Proof.
  intros (Hparam & Htarget & hex & id & Hget & Hhex & Hactor) Hc1 Hc2 Hwrite.
  destruct (FindOne_by_id_split _ _ _ Htarget)
    as (before & after & Hdb & Hid & Hne & Hall).
  exists before, after. split; [exact Hdb|]. split; [exact Hne|].
  enter_delete Hparam Htarget Hget Hhex Hactor.
  rewrite Hc1; simpl. rewrite Hc2; simpl. rewrite Hwrite; simpl.
  rewrite Hdb at 1. rewrite delete_first_split; [reflexivity|exact Hall|].
  now apply by_id_true.
Qed.

(** A delete is answered Forbidden exactly when one of the handler's two
    checks fires, and then nothing is removed. *)
Lemma DeleteUser_forbidden_iff (c : Context unit) (e : Env) (db : Collection)
  (tid : primitive.ObjectID) (actor target : User) :
  policy.delete_reaches_check c db tid actor target ->
  (code (fst (DeleteUser c e db)) = http.StatusForbidden <->
   String.eqb (Role actor) RoleAdmin
     && (String.eqb (Role target) RoleAdmin || String.eqb (Role target) RoleManager)
   || String.eqb (Role actor) RoleManager && String.eqb (Role target) RoleAdmin = true) /\
  (code (fst (DeleteUser c e db)) = http.StatusForbidden ->
   snd (DeleteUser c e db) = db).
Proof.
  intros (Hparam & Htarget & hex & id & Hget & Hhex & Hactor).
  enter_delete Hparam Htarget Hget Hhex Hactor.
  destruct (String.eqb (Role actor) RoleAdmin
            && (String.eqb (Role target) RoleAdmin || String.eqb (Role target) RoleManager));
    simpl; [split; [split|]; reflexivity|].
  destruct (String.eqb (Role actor) RoleManager && String.eqb (Role target) RoleAdmin);
    simpl; [split; [split|]; reflexivity|].
  destruct (write_err e); simpl; split; try split; try discriminate; reflexivity.
Qed.

(** C6: for a manager actor the permission checks refuse the delete exactly
    when the target is an admin; a manager target passes them, and with a
    working driver the found record is taken out of the collection and the
    answer is 204. *)
Theorem DeleteUser_manager_deletes_manager (c : Context unit) (e : Env)
  (db : Collection) (tid : primitive.ObjectID) (actor target : User) :
  policy.delete_reaches_check c db tid actor target ->
  Role actor = RoleManager ->
  (code (fst (DeleteUser c e db)) = http.StatusForbidden <-> Role target = RoleAdmin) /\
  (Role target = RoleManager ->
     code (fst (DeleteUser c e db)) <> http.StatusForbidden /\
     (write_err e = false ->
      exists before after,
        db = before ++ target :: after /\
        Forall (fun u => ID u <> tid) before /\
        DeleteUser c e db = (JSON http.StatusNoContent Nil, before ++ after))).
Proof.
  intros Hreach Ha.
  destruct (DeleteUser_forbidden_iff c e db tid actor target Hreach) as [Hiff _].
  assert (Hrole : code (fst (DeleteUser c e db)) = http.StatusForbidden
                  <-> Role target = RoleAdmin).
  { rewrite Hiff, Ha. simpl. apply String.eqb_eq. }
  split; [exact Hrole|]. intros Ht. split.
  - rewrite Hrole, Ht. discriminate.
  - intros Hwrite.
    apply (DeleteUser_passes c e db tid actor target Hreach); try assumption.
    + rewrite Ha. reflexivity.
    + rewrite Ha, Ht. reflexivity.
Qed.



(** No check of [DeleteUser] concerns an actor that is neither admin nor
    manager: such an actor is never answered Forbidden. *)
Lemma DeleteUser_other_actor_not_forbidden (c : Context unit) (e : Env)
  (db : Collection) (tid : primitive.ObjectID) (actor target : User) :
  policy.delete_reaches_check c db tid actor target ->
  Role actor <> RoleAdmin -> Role actor <> RoleManager ->
  code (fst (DeleteUser c e db)) <> http.StatusForbidden.
Proof.
  intros Hreach Hna Hnm.
  destruct (DeleteUser_forbidden_iff c e db tid actor target Hreach) as [Hiff _].
  rewrite Hiff. apply String.eqb_neq in Hna, Hnm. rewrite Hna, Hnm. discriminate.
Qed.

(* ===================================================================== *)
(** ** Account update *)
(* ===================================================================== *)

(** Runs [UpdateUser] up to its permission checks. *)
Ltac enter_update Hparam Hbind Htarget Hget Hhex Hactor :=
  open_handler handlers.UpdateUser; unfold UpdateOne;
  rewrite Hparam; simpl; rewrite Hbind; simpl; rewrite Hget; simpl;
  rewrite Hhex; simpl; rewrite Hactor; simpl; rewrite Htarget; simpl.

(** The scrutinee on which the evaluation of [t] is stuck. *)
Ltac stuck_on t :=
  lazymatch t with
  | match ?x with _ => _ end => stuck_on x
  | ?f ?a =>
      lazymatch f with
      | match _ with _ => _ end => stuck_on f
      | _ => t
      end
  | _ => t
  end.

(** One more step of a handler whose outcome is looked at through [fst]
    or [snd]. *)
Ltac step :=
  match goal with
  | |- context [fst ?t] =>
      let x := stuck_on t in
      destruct x eqn:?; unfold ret; simpl
  | |- context [snd ?t] =>
      let x := stuck_on t in
      destruct x eqn:?; unfold ret; simpl
  end.

(** An update is answered Forbidden exactly when the permission checks
    fire, and then the collection is as it was. *)
Lemma UpdateUser_forbidden_iff (c : Context UpdateUserRequest) (e : Env)
  (db : Collection) (req : UpdateUserRequest) (tid : primitive.ObjectID)
  (actor target : User) :
  policy.update_reaches_check c db req tid actor target ->
  (code (fst (UpdateUser c e db)) = http.StatusForbidden <->
   policy.update_denied (Role actor) (Role target) (upd_Role req) = true) /\
  (code (fst (UpdateUser c e db)) = http.StatusForbidden ->
   snd (UpdateUser c e db) = db).
Proof.
  intros (Hparam & Hbind & Htarget & hex & id & Hget & Hhex & Hactor).
  enter_update Hparam Hbind Htarget Hget Hhex Hactor.
  unfold policy.update_denied, is_empty.
  repeat step;
    (split; [split; intros H; first [reflexivity | discriminate H]
            | intros H; first [reflexivity | discriminate H]]).
Qed.

Lemma patch_keep (p x : string) :
  negb (String.eqb p EmptyString) && negb (String.eqb p x) = false ->
  policy.patch_string p x = x.
Proof.
  unfold policy.patch_string. destruct (String.eqb p EmptyString); simpl; [reflexivity|].
  intros H. apply negb_false_iff, String.eqb_eq in H. now symmetry.
Qed.

Lemma patch_take (p x : string) :
  negb (String.eqb p EmptyString) && negb (String.eqb p x) = true ->
  policy.patch_string p x = p.
Proof.
  unfold policy.patch_string. destruct (String.eqb p EmptyString); simpl;
    [discriminate | reflexivity].
Qed.

Lemma patched_field_patch_string (p x : string) :
  policy.patched_field p x (policy.patch_string p x).
Proof.
  unfold policy.patched_field, policy.patch_string. split.
  - intros ->. reflexivity.
  - intros H. apply String.eqb_neq in H. now rewrite H.
Qed.

Lemma frozen_update_first (f : User -> bool) (user : User) (db : Collection) :
  map policy.frozen (update_first f (set_profile user) db) = map policy.frozen db.
Proof.
  induction db as [|d rest IH]; simpl; [reflexivity|].
  destruct (f d); simpl; [reflexivity | now rewrite IH].
Qed.

(** Rewrites the email and username of the specification's record with what
    the handler's two conflict blocks decided. *)
Ltac settle_identity_fields :=
  repeat match goal with
  | H : negb (String.eqb ?p EmptyString) && negb (String.eqb ?p ?x) = false |- _ =>
      rewrite (patch_keep p x H); clear H
  | H : negb (String.eqb ?p EmptyString) && negb (String.eqb ?p ?x) = true |- _ =>
      rewrite (patch_take p x H); clear H
  end.

Ltac settle_other_fields :=
  unfold policy.patch_string;
  repeat match goal with
  | |- context [String.eqb ?p EmptyString] =>
      destruct (String.eqb p EmptyString); simpl
  | |- context [match upd_SocialLinks ?r with _ => _ end] =>
      destruct (upd_SocialLinks r); simpl
  end;
  first [reflexivity | simpl in *; congruence].

(** A successful update is the partial update of the found document, in
    place; the response shows the same account. *)
Lemma UpdateUser_success (c : Context UpdateUserRequest) (e : Env) (db : Collection) :
  code (fst (UpdateUser c e db)) = http.StatusOK ->
  exists req tid target before after,
    ShouldBindJSON c = inr req /\
    primitive.ObjectIDFromHex (Param_id c) = Some tid /\
    FindOne (by_id tid) db = Some target /\
    db = before ++ target :: after /\
    ID target = tid /\
    Forall (fun u => ID u <> tid) before /\
    UpdateUser c e db
      = (JSON http.StatusOK
           (UserJSON (ToResponse (policy.partial_update req target (now e)))),
         before ++ policy.partial_update req target (now e) :: after).
Proof.
  open_handler handlers.UpdateUser; unfold UpdateOne, is_empty.
  repeat step; try discriminate.
  all: intros _.
  all: match goal with
       | Hp : primitive.ObjectIDFromHex (Param_id _) = Some ?tid,
         Hb : ShouldBindJSON _ = inr ?req,
         Ht : FindOne (by_id ?tid) _ = Some ?target |- _ =>
           destruct (FindOne_by_id_split _ _ _ Ht)
             as (before & after & Hdb & Hid & Hne & Hall);
           exists req, tid, target, before, after;
           split; [reflexivity|]; split; [reflexivity|]; split; [exact Ht|];
           split; [exact Hdb|]; split; [exact Hid|]; split; [exact Hne|];
           rewrite Hdb at 1;
           rewrite (update_first_split _ _ _ _ _ Hall (proj2 (by_id_true _ _) Hid))
       end.
  all: unfold policy.partial_update; simpl in *; settle_identity_fields;
    settle_other_fields.
Qed.

(** The same, for a request known to reach the permission checks: these
    were passed. *)
Lemma UpdateUser_success_at (c : Context UpdateUserRequest) (e : Env)
  (db : Collection) (req : UpdateUserRequest) (tid : primitive.ObjectID)
  (actor target : User) :
  policy.update_reaches_check c db req tid actor target ->
  code (fst (UpdateUser c e db)) = http.StatusOK ->
  policy.update_denied (Role actor) (Role target) (upd_Role req) = false /\
  exists before after,
    db = before ++ target :: after /\
    Forall (fun u => ID u <> tid) before /\
    UpdateUser c e db
      = (JSON http.StatusOK
           (UserJSON (ToResponse (policy.partial_update req target (now e)))),
         before ++ policy.partial_update req target (now e) :: after).
Proof.
  intros Hreach Hok.
  destruct (UpdateUser_forbidden_iff c e db req tid actor target Hreach) as [Hiff _].
  split.
  - destruct (policy.update_denied _ _ _); [|reflexivity].
    assert (Hf : code (fst (UpdateUser c e db)) = http.StatusForbidden)
      by now apply Hiff.
    rewrite Hok in Hf. discriminate Hf.
  - destruct Hreach as (Hparam & Hbind & Htarget & _).
    destruct (UpdateUser_success c e db Hok)
      as (req' & tid' & target' & before & after
          & Hbind' & Hparam' & Htarget' & Hdb & _ & Hne & Hrun).
    assert (req' = req) by congruence. assert (tid' = tid) by congruence.
    subst req' tid'. assert (target' = target) by congruence. subst target'.
    exists before, after. repeat split; assumption.
Qed.

(** No outcome of [UpdateUser] changes the identifier, the password hash,
    [created_at] or [last_login] of any stored account. *)
Lemma UpdateUser_keeps_frozen (c : Context UpdateUserRequest) (e : Env)
  (db : Collection) :
  map policy.frozen (snd (UpdateUser c e db)) = map policy.frozen db.
Proof.
  open_handler handlers.UpdateUser; unfold UpdateOne, is_empty.
  repeat step; try reflexivity; apply frozen_update_first.
Qed.

(** C10: a successful update rewrites the found account in place and leaves
    every other document alone.  In the rewritten account each of the ten
    patchable fields keeps its prior value when its patch entry is empty (nil
    for the social links) and takes the patch entry otherwise; [updated_at]
    is the time of the operation; identifier, password hash, [created_at] and
    [last_login] are the prior ones.  Whatever the outcome, no stored
    account's password hash, [created_at] or [last_login] changes. *)
Theorem UpdateUser_partial_update_frame (c : Context UpdateUserRequest)
  (e : Env) (db : Collection) :
  code (fst (UpdateUser c e db)) = http.StatusOK ->
  (exists req tid target updated before after,
     ShouldBindJSON c = inr req /\
     primitive.ObjectIDFromHex (Param_id c) = Some tid /\
     FindOne (by_id tid) db = Some target /\
     db = before ++ target :: after /\
     UpdateUser c e db
       = (JSON http.StatusOK (UserJSON (ToResponse updated)),
          before ++ updated :: after) /\
     policy.patched_field (upd_Name req) (Name target) (Name updated) /\
     policy.patched_field (upd_Email req) (Email target) (Email updated) /\
     policy.patched_field (upd_Username req) (Username target) (Username updated) /\
     policy.patched_field (upd_Phone req) (Phone target) (Phone updated) /\
     policy.patched_field (upd_Department req) (Department target) (Department updated) /\
     policy.patched_field (upd_Bio req) (Bio target) (Bio updated) /\
     policy.patched_field (upd_ProfileImage req) (ProfileImage target) (ProfileImage updated) /\
     policy.patched_field (upd_Role req) (Role target) (Role updated) /\
     policy.patched_field (upd_Status req) (Status target) (Status updated) /\
     (upd_SocialLinks req = None -> SocialLinks updated = SocialLinks target) /\
     (forall links, upd_SocialLinks req = Some links ->
        SocialLinks updated = Some links) /\
     UpdatedAt updated = now e /\
     ID updated = ID target /\
     Password updated = Password target /\
     CreatedAt updated = CreatedAt target /\
     LastLogin updated = LastLogin target) /\
  (forall c' e' db',
     map policy.frozen (snd (UpdateUser c' e' db')) = map policy.frozen db').
Proof.
  intros Hok. split; [|intros; apply UpdateUser_keeps_frozen].
  destruct (UpdateUser_success c e db Hok)
    as (req & tid & target & before & after
        & Hbind & Hparam & Htarget & Hdb & _ & _ & Hrun).
  exists req, tid, target, (policy.partial_update req target (now e)), before, after.
  do 5 (split; [assumption|]).
  do 9 (split; [apply patched_field_patch_string|]).
  simpl. split; [intros ->; reflexivity|].
  split; [intros links ->; reflexivity|].
  repeat split.
Qed.

Lemma update_denied_table (a t : policy.role) (r : UserRole) :
  policy.update_denied (policy.role_string a) (policy.role_string t) r
  = negb (policy.table_can_update a t r).
Proof.
  unfold policy.update_denied.
  destruct a, t; simpl;
    destruct (String.eqb r EmptyString), (String.eqb r RoleAdmin); reflexivity.
Qed.

Lemma patch_free_of_conflict_lookups (req : UpdateUserRequest)
  (tid : primitive.ObjectID) (db : Collection) :
  policy.patch_free_of_conflict req tid db ->
  FindOne (by_email_not_id (upd_Email req) tid) db = None /\
  FindOne (by_username_not_id (upd_Username req) tid) db = None.
Proof.
  intros Hfree. split; apply FindOne_none;
    (eapply List.Forall_impl; [|exact Hfree]); intros u Hu;
    unfold by_email_not_id, by_username_not_id;
    destruct (N.eqb (ID u) tid) eqn:Hid; simpl;
    try apply andb_false_r; rewrite andb_true_r;
    apply N.eqb_neq in Hid; apply String.eqb_neq; now apply Hu.
Qed.

(** An update that passes the permission checks goes through: when no other
    account holds the email or username it names and the driver works, the
    answer is 200. *)
Lemma UpdateUser_allowed_goes_through (c : Context UpdateUserRequest) (e : Env)
  (db : Collection) (req : UpdateUserRequest) (tid : primitive.ObjectID)
  (actor target : User) :
  policy.update_reaches_check c db req tid actor target ->
  policy.update_denied (Role actor) (Role target) (upd_Role req) = false ->
  policy.patch_free_of_conflict req tid db ->
  write_err e = false ->
  code (fst (UpdateUser c e db)) = http.StatusOK.
Proof.
  intros (Hparam & Hbind & Htarget & hex & id & Hget & Hhex & Hactor)
    Hdenied Hfree Hwrite.
  destruct (patch_free_of_conflict_lookups req tid db Hfree) as [Hemail Huser].
  revert Hdenied.
  enter_update Hparam Hbind Htarget Hget Hhex Hactor.
  unfold policy.update_denied, is_empty.
  rewrite ?Hemail, ?Huser, ?Hwrite; simpl.
  repeat (step; rewrite ?Hemail, ?Huser, ?Hwrite; simpl);
    intros Hdenied; first [reflexivity | discriminate Hdenied | congruence].
Qed.

(** Two documents found under one identifier are one document. *)
Lemma same_account_found (db : Collection) (id tid : primitive.ObjectID)
  (actor target : User) :
  FindOne (by_id id) db = Some actor ->
  FindOne (by_id tid) db = Some target ->
  ID actor = ID target -> actor = target.
Proof.
  intros Hactor Htarget Hsame.
  destruct (FindOne_by_id_split _ _ _ Hactor) as (_ & _ & _ & Hid & _).
  destruct (FindOne_by_id_split _ _ _ Htarget) as (_ & _ & _ & Htid & _).
  assert (id = tid) by congruence. subst id. congruence.
Qed.

(** C4: the permission checks of the update follow the can_update table for
    every actor role, target role and patch, with the admin exception read on
    the target's role alone.  A staff actor is always refused; a manager
    actor passes exactly when the target is staff and the patch names no
    role; an admin actor is refused exactly when the target is an admin and
    the patch names a role other than admin, and that holds for the actor's
    own account as for any other admin.  A refusal is Forbidden and leaves
    the collection alone.  An allowed update goes through: when no other
    account holds the email or username of the patch and the driver works,
    the answer is 200 and the target is rewritten in place by the patch,
    the stored role being the role the patch names, if it names one. *)
Theorem UpdateUser_follows_can_update_table
  (c : Context UpdateUserRequest) (e : Env) (db : Collection)
  (req : UpdateUserRequest) (tid : primitive.ObjectID) (actor target : User)
  (a t : policy.role) :
  policy.update_reaches_check c db req tid actor target ->
  Role actor = policy.role_string a ->
  Role target = policy.role_string t ->
  (policy.table_can_update a t (upd_Role req) = false ->
     code (fst (UpdateUser c e db)) = http.StatusForbidden /\
     snd (UpdateUser c e db) = db) /\
  (policy.table_can_update a t (upd_Role req) = true ->
     code (fst (UpdateUser c e db)) <> http.StatusForbidden /\
     (policy.patch_free_of_conflict req tid db ->
      write_err e = false ->
      exists before after updated,
        db = before ++ target :: after /\
        UpdateUser c e db
        = (JSON http.StatusOK (UserJSON (ToResponse updated)),
           before ++ updated :: after) /\
        updated = policy.partial_update req target (now e) /\
        policy.patched_field (upd_Role req) (Role target) (Role updated))) /\
  (a = policy.staff ->
     code (fst (UpdateUser c e db)) = http.StatusForbidden) /\
  (a = policy.manager ->
     (code (fst (UpdateUser c e db)) <> http.StatusForbidden <->
      t = policy.staff /\ upd_Role req = EmptyString)) /\
  (a = policy.admin ->
     (code (fst (UpdateUser c e db)) = http.StatusForbidden <->
      t = policy.admin /\ upd_Role req <> EmptyString /\ upd_Role req <> RoleAdmin)) /\
  (a = policy.admin -> ID actor = ID target ->
   upd_Role req <> EmptyString -> upd_Role req <> RoleAdmin ->
     code (fst (UpdateUser c e db)) = http.StatusForbidden /\
     snd (UpdateUser c e db) = db) /\
  (a = policy.admin ->
   code (fst (UpdateUser c e db)) = http.StatusOK ->
   exists before after updated,
     db = before ++ target :: after /\
     snd (UpdateUser c e db) = before ++ updated :: after /\
     policy.patched_field (upd_Role req) (Role target) (Role updated)).
Proof.
  intros Hreach Ha Ht.
  destruct (UpdateUser_forbidden_iff c e db req tid actor target Hreach)
    as [Hiff Hkeep].
  assert (Hadmin : a = policy.admin ->
            (code (fst (UpdateUser c e db)) = http.StatusForbidden <->
             t = policy.admin /\ upd_Role req <> EmptyString
             /\ upd_Role req <> RoleAdmin)).
  { intros ->. rewrite Hiff, Ha, Ht, update_denied_table. simpl.
    destruct t; simpl; try (split; [discriminate | intros [H _]; discriminate H]).
    rewrite negb_true_iff, orb_false_iff, !String.eqb_neq. tauto. }
  split; [|split; [|split; [|split; [|split; [exact Hadmin|split]]]]].
  - intros Hdeny.
    assert (Hf : code (fst (UpdateUser c e db)) = http.StatusForbidden)
      by (apply Hiff; rewrite Ha, Ht, update_denied_table; now rewrite Hdeny).
    split; [exact Hf | now apply Hkeep].
  - intros Hallow.
    assert (Hpass : policy.update_denied (Role actor) (Role target) (upd_Role req)
                    = false)
      by (rewrite Ha, Ht, update_denied_table; now rewrite Hallow).
    split.
    + intros Hf. apply Hiff in Hf. rewrite Hpass in Hf. discriminate Hf.
    + intros Hfree Hwrite.
      pose proof (UpdateUser_allowed_goes_through c e db req tid actor target
                    Hreach Hpass Hfree Hwrite) as Hok.
      destruct (UpdateUser_success_at c e db req tid actor target Hreach Hok)
        as (_ & before & after & Hdb & _ & Hrun).
      exists before, after, (policy.partial_update req target (now e)).
      split; [exact Hdb|]. split; [exact Hrun|]. split; [reflexivity|].
      apply patched_field_patch_string.
  - intros ->. apply Hiff. rewrite Ha. reflexivity.
  - intros ->. rewrite Hiff, Ha, Ht, update_denied_table. simpl.
    destruct t; simpl; try (split; [intros H; now elim H | intros [H _]; discriminate H]).
    destruct (String.eqb (upd_Role req) EmptyString) eqn:Hr; simpl.
    + apply String.eqb_eq in Hr. split; [now split | discriminate].
    + apply String.eqb_neq in Hr.
      split; [intros H; now elim H | intros [_ H]; contradiction].
  - intros Hadm Hsame Hnamed Hother.
    assert (Hf : code (fst (UpdateUser c e db)) = http.StatusForbidden).
    { apply (Hadmin Hadm). split; [|split; assumption].
      destruct Hreach as (_ & _ & Htarget & _ & id & _ & _ & Hactor).
      assert (actor = target) by (eapply same_account_found; eassumption).
      subst actor a. rewrite Ha in Ht. destruct t; [reflexivity | |]; discriminate Ht. }
    split; [exact Hf | now apply Hkeep].
  - intros -> Hok.
    destruct (UpdateUser_success_at c e db req tid actor target Hreach Hok)
      as (_ & before & after & Hdb & _ & Hrun).
    exists before, after, (policy.partial_update req target (now e)).
    split; [exact Hdb|]. split; [now rewrite Hrun|].
    apply patched_field_patch_string.
Qed.

(** The admin exception as written, against the handler: the admin root
    (id 1) names the role staff for its own account.  The table as written
    excepts another admin only and allows this; the handler compares no
    identities and answers Forbidden. *)
Lemma UpdateUser_admin_cannot_leave_admin :
  let c := sample.request_by 1 1 (sample.role_patch RoleStaff) in
  let root := sample.account 1 "root" RoleAdmin StatusActive in
  policy.update_reaches_check c sample.db (sample.role_patch RoleStaff) 1%N root root /\
  policy.table_can_update_as_written policy.admin policy.admin
    (N.eqb (ID root) (ID root)) RoleStaff = true /\
  UpdateUser c sample.env sample.db
  = (JSON http.StatusForbidden
       (ErrorResponse "Admin cannot change other admins' roles"), sample.db) /\
  ~ rationale.update_follows_table_as_written.
Proof.
  intros c root.
  assert (Hreach : policy.update_reaches_check c sample.db
                     (sample.role_patch RoleStaff) 1%N root root).
  { split; [vm_compute; reflexivity|]. split; [reflexivity|].
    split; [vm_compute; reflexivity|].
    exists (sample.id_hex 1), 1%N. repeat split; vm_compute; reflexivity. }
  assert (Hrun : UpdateUser c sample.env sample.db
                 = (JSON http.StatusForbidden
                      (ErrorResponse "Admin cannot change other admins' roles"),
                    sample.db))
    by (vm_compute; reflexivity).
  split; [exact Hreach|]. split; [reflexivity|]. split; [exact Hrun|].
  intros Hclaim.
  pose proof (proj1 (Hclaim c sample.env sample.db (sample.role_patch RoleStaff)
                       1%N root root policy.admin policy.admin
                       Hreach eq_refl eq_refl)) as Hdeny.
  rewrite Hrun in Hdeny. specialize (Hdeny eq_refl). discriminate Hdeny.
Qed.

(* ===================================================================== *)
(** ** Who can end up at which rank *)
(* ===================================================================== *)

Lemma FindOne_split (f : User -> bool) (before after : Collection) (u : User) :
  Forall (fun x => f x = false) before -> f u = true ->
  FindOne f (before ++ u :: after) = Some u.
Proof.
  unfold FindOne. induction 1 as [|x rest Hx _ IH]; intros Hu; simpl.
  - now rewrite Hu.
  - rewrite Hx. now apply IH.
Qed.

Lemma rank_below_admin (r : UserRole) :
  r <> RoleAdmin -> ~ policy.peer_or_superior RoleAdmin r.
Proof.
  intros Hr (ra & rt & Hra & Hrt & Hle). apply String.eqb_neq in Hr.
  unfold policy.rank in Hra, Hrt. simpl in Hra. rewrite Hr in Hrt.
  injection Hra as <-.
  destruct (String.eqb r RoleManager); [injection Hrt as <-; lia|].
  destruct (String.eqb r RoleStaff); [injection Hrt as <-; lia | discriminate].
Qed.

Lemma staff_below_manager : ~ policy.peer_or_superior RoleManager RoleStaff.
Proof.
  intros (ra & rt & Hra & Hrt & Hle). vm_compute in Hra, Hrt.
  injection Hra as <-. injection Hrt as <-. lia.
Qed.

Section EscalationProperties.

Variable HashPassword : string -> string -> option string.

Local Abbreviation CreateUser := (handlers.CreateUser HashPassword).

(** A 201 from [CreateUser] means that the permission checks were passed
    and one account with the requested role was appended. *)
Lemma CreateUser_created (c : Context RegisterRequest) (e : Env)
  (db : Collection) (req : RegisterRequest) (actor : User) :
  policy.create_reaches_check c db req actor ->
  code (fst (CreateUser c e db)) = http.StatusCreated ->
  (Role actor = RoleAdmin /\ reg_Role req <> RoleAdmin \/
   Role actor = RoleManager /\ reg_Role req = RoleStaff) /\
  exists user,
    snd (CreateUser c e db) = db ++ [user] /\
    Role user = reg_Role req /\
    Status user = StatusActive.
Proof.
  intros (Hbind & hex & id & Hget & Hhex & Hactor).
  open_handler handlers.CreateUser. unfold InsertOne.
  rewrite Hbind, Hget; simpl. rewrite Hhex; simpl. rewrite Hactor; simpl.
  repeat step; try discriminate; intros _.
  all: split; [|eexists; split; [reflexivity|split; reflexivity]].
  - left. split; [now apply String.eqb_eq | now apply String.eqb_neq].
  - right. split; [now apply String.eqb_eq|].
    apply String.eqb_eq. now apply negb_false_iff.
Qed.

(** C2, as the handlers have it: an account created through
    [CreateUser] always ranks strictly below its creator, and an update by
    an actor who is not an admin leaves the target strictly below the
    actor.  An update by an admin is not so bounded: the stored role is
    whatever role the patch names (the prior one when it names none), admin
    included, except that an admin target stays admin. *)
Theorem mutation_escalation_bounds
  (cc : Context RegisterRequest) (cu : Context UpdateUserRequest)
  (e : Env) (db : Collection)
  (creq : RegisterRequest) (creator : User)
  (ureq : UpdateUserRequest) (tid : primitive.ObjectID) (actor target : User) :
  policy.create_reaches_check cc db creq creator ->
  policy.update_reaches_check cu db ureq tid actor target ->
  (code (fst (CreateUser cc e db)) = http.StatusCreated ->
   exists user,
     snd (CreateUser cc e db) = db ++ [user] /\
     Role user = reg_Role creq /\
     ~ policy.peer_or_superior (Role creator) (Role user)) /\
  (code (fst (UpdateUser cu e db)) = http.StatusOK ->
   exists updated,
     FindOne (by_id tid) (snd (UpdateUser cu e db)) = Some updated /\
     Role updated = policy.patch_string (upd_Role ureq) (Role target) /\
     (Role actor <> RoleAdmin ->
        ~ policy.peer_or_superior (Role actor) (Role updated)) /\
     (Role actor = RoleAdmin -> Role target = RoleAdmin ->
        Role updated = RoleAdmin)).
Proof.
  intros Hcreate Hupdate. split.
  - intros Hok.
    destruct (CreateUser_created cc e db creq creator Hcreate Hok)
      as (Hperm & user & Hsnd & Hrole & _).
    exists user. split; [exact Hsnd|]. split; [exact Hrole|].
    rewrite Hrole.
    destruct Hperm as [[-> Hne] | [-> ->]];
      [now apply rank_below_admin | exact staff_below_manager].
  - intros Hok.
    destruct (UpdateUser_success_at cu e db ureq tid actor target Hupdate Hok)
      as (Hpass & before & after & Hdb & Hne & Hrun).
    exists (policy.partial_update ureq target (now e)).
    destruct Hupdate as (_ & _ & Htarget & _).
    destruct (FindOne_by_id_split _ _ _ Htarget)
      as (before' & after' & _ & Hid & _ & _).
    split; [|split; [reflexivity|split]].
    + rewrite Hrun. simpl. apply FindOne_split.
      * eapply List.Forall_impl; [|exact Hne]. intros x Hx. now apply by_id_false.
      * apply by_id_true. exact Hid.
    + intros Hna. apply String.eqb_neq in Hna. simpl.
      unfold policy.update_denied in Hpass. rewrite Hna in Hpass.
      destruct (String.eqb (Role actor) RoleManager) eqn:Hm; [|discriminate Hpass].
      apply orb_false_iff in Hpass. destruct Hpass as [Hstaff Hnone].
      apply negb_false_iff in Hstaff, Hnone.
      apply String.eqb_eq in Hm, Hstaff.
      unfold policy.patch_string. rewrite Hnone, Hm, Hstaff.
      exact staff_below_manager.
    + intros Hadm Htadm. simpl.
      unfold policy.update_denied in Hpass. rewrite Hadm, Htadm in Hpass.
      simpl in Hpass. unfold policy.patch_string. rewrite Htadm.
      destruct (String.eqb (upd_Role ureq) EmptyString); [reflexivity|].
      simpl in Hpass. apply negb_false_iff, String.eqb_eq in Hpass.
      exact Hpass.
Qed.

End EscalationProperties.

(** C2 as stated fails on the update path: the admin root (id 1) sends a
    patch naming role admin for the staff account sam (id 3); the answer is
    200 and sam is stored as an admin, a peer of the actor. *)
Lemma UpdateUser_admin_promotes_staff_to_peer :
  let c := mkContext (inr (sample.role_patch RoleAdmin))
             (sample.id_hex 3) (Some (sample.id_hex 1)) in
  let root := sample.account 1 "root" RoleAdmin StatusActive in
  let sam := sample.account 3 "sam" RoleStaff StatusActive in
  policy.update_reaches_check c sample.db (sample.role_patch RoleAdmin) 3%N root sam /\
  code (fst (UpdateUser c sample.env sample.db)) = http.StatusOK /\
  FindOne (by_id 3%N) (snd (UpdateUser c sample.env sample.db))
    = Some (set_UpdatedAt (set_Role sam RoleAdmin) (now sample.env)) /\
  policy.peer_or_superior (Role root) RoleAdmin /\
  ~ rationale.update_never_escalates /\
  ~ rationale.mutation_never_escalates.
Proof.
  intros c root sam.
  assert (Hreach : policy.update_reaches_check c sample.db
                     (sample.role_patch RoleAdmin) 3%N root sam).
  { split; [vm_compute; reflexivity|]. split; [reflexivity|].
    split; [vm_compute; reflexivity|].
    exists (sample.id_hex 1), 1%N. repeat split; vm_compute; reflexivity. }
  assert (Hok : code (fst (UpdateUser c sample.env sample.db)) = http.StatusOK)
    by (vm_compute; reflexivity).
  assert (Hstored : FindOne (by_id 3%N) (snd (UpdateUser c sample.env sample.db))
                    = Some (set_UpdatedAt (set_Role sam RoleAdmin) (now sample.env)))
    by (vm_compute; reflexivity).
  assert (Hpeer : policy.peer_or_superior (Role root) RoleAdmin).
  { exists 2%nat, 2%nat. split; [reflexivity|]. split; [reflexivity | lia]. }
  assert (Hno : ~ rationale.update_never_escalates).
  { intros Hclaim. exact (Hclaim _ _ _ _ _ _ _ _ Hreach Hok Hstored Hpeer). }
  do 5 (split; [assumption|]).
  intros [_ Hclaim]. exact (Hno Hclaim).
Qed.

(* ===================================================================== *)
(** ** The theorems at work on the sample collection *)
(* ===================================================================== *)

Lemma free_by_FindOne (email username : string) (db : Collection) :
  FindOne (by_email_or_username email username) db = None ->
  Forall (fun u => Email u <> email /\ Username u <> username) db.
Proof.
  intros H. apply FindOne_none in H.
  eapply List.Forall_impl; [|exact H].
  intros u Hu. now apply by_email_or_username_false.
Defined.

(** An anonymous request for role admin on the sample collection. *)
Lemma Register_public_stores_requested_role_witness :
  Get_userID (sample.anonymous sample.eve_admin) = None /\
  exists user,
    handlers.Register sample.HashPassword (sample.anonymous sample.eve_admin)
      sample.env sample.db
    = (JSON http.StatusCreated (UserJSON (ToResponse user)), sample.db ++ [user]) /\
    Role user = RoleAdmin /\ Status user = StatusActive.
Proof.
  split; [reflexivity|].
  destruct (Register_public_stores_requested_role sample.HashPassword
              (sample.anonymous sample.eve_admin) sample.env sample.db
              sample.eve_admin "s4lt$hunter2" eq_refl
              (free_by_FindOne "eve@x.com" "eve" sample.db eq_refl) eq_refl eq_refl)
    as (_ & _ & _ & user & Hrun & Hrole & Hstatus & _).
  exists user. split; [exact Hrun|]. split; [exact Hrole | exact Hstatus].
Defined.

(** A second registration under sam's email. *)
Lemma Register_conflict_keeps_collection_witness :
  handlers.Register sample.HashPassword (sample.anonymous sample.sam_again)
    sample.env sample.db
  = (policy.Conflict, sample.db).
Proof.
  refine (proj1 (Register_conflict_keeps_collection sample.HashPassword
                   (sample.anonymous sample.sam_again) sample.env sample.db
                   sample.sam_again eq_refl _)).
  do 2 apply Exists_cons_tl. apply Exists_cons_hd. left. reflexivity.
Defined.

(** An unknown email and a wrong password for a known one answer alike. *)
Lemma Login_credential_errors_identical_witness :
  handlers.Login sample.CheckPassword sample.GenerateToken
    (sample.anonymous (mkLoginRequest "sam@x.com" "guess")) sample.env sample.db
  = (policy.InvalidCredentials, sample.db).
Proof.
  refine (proj1 (proj2 (Login_credential_errors_identical
                          sample.CheckPassword sample.GenerateToken
                          (sample.anonymous (mkLoginRequest "sam@x.com" "guess"))
                          sample.env sample.db _ eq_refl))
            (sample.account 3 "sam" RoleStaff StatusActive) eq_refl eq_refl).
Defined.

(** The inactive account ida, tried with a wrong password. *)
Lemma Login_password_before_status_witness :
  Status (sample.account 6 "ida" RoleStaff StatusInactive) <> StatusActive /\
  handlers.Login sample.CheckPassword sample.GenerateToken
    (sample.anonymous (mkLoginRequest "ida@x.com" "guess")) sample.env sample.db
  = (policy.InvalidCredentials, sample.db).
Proof.
  assert (Hst : Status (sample.account 6 "ida" RoleStaff StatusInactive) <> StatusActive)
    by (intros H; discriminate H).
  split; [exact Hst|].
  refine (proj1 (Login_password_before_status
                   sample.CheckPassword sample.GenerateToken
                   (sample.anonymous (mkLoginRequest "ida@x.com" "guess"))
                   sample.env sample.db _
                   (sample.account 6 "ida" RoleStaff StatusInactive)
                   eq_refl eq_refl Hst) eq_refl).
Defined.

Lemma sample_create_reach (actor : N) (who : User) (req : RegisterRequest) :
  FindOne (by_id actor) sample.db = Some who ->
  primitive.ObjectIDFromHex (sample.id_hex actor) = Some actor ->
  policy.create_reaches_check (sample.request_by actor 0 req) sample.db req who.
Proof.
  intros Hwho Hhex. split; [reflexivity|].
  exists (sample.id_hex actor), actor. split; [reflexivity|]. split; assumption.
Defined.

Lemma sample_update_reach (actor target : N) (who whom : User)
  (req : UpdateUserRequest) :
  FindOne (by_id actor) sample.db = Some who ->
  FindOne (by_id target) sample.db = Some whom ->
  primitive.ObjectIDFromHex (sample.id_hex actor) = Some actor ->
  primitive.ObjectIDFromHex (sample.id_hex target) = Some target ->
  policy.update_reaches_check (sample.request_by actor target req) sample.db
    req target who whom.
Proof.
  intros Hwho Hwhom Hhex Hhex'.
  split; [exact Hhex'|]. split; [reflexivity|]. split; [exact Hwhom|].
  exists (sample.id_hex actor), actor. split; [reflexivity|]. split; assumption.
Defined.

Lemma sample_delete_reach (actor target : N) (who whom : User) :
  FindOne (by_id actor) sample.db = Some who ->
  FindOne (by_id target) sample.db = Some whom ->
  primitive.ObjectIDFromHex (sample.id_hex actor) = Some actor ->
  primitive.ObjectIDFromHex (sample.id_hex target) = Some target ->
  policy.delete_reaches_check (sample.request_by actor target tt) sample.db
    target who whom.
Proof.
  intros Hwho Hwhom Hhex Hhex'.
  split; [exact Hhex'|]. split; [exact Hwhom|].
  exists (sample.id_hex actor), actor. split; [reflexivity|]. split; assumption.
Defined.

(** The manager mary asks for a manager account, then for a staff account. *)
Lemma CreateUser_follows_can_create_table_witness :
  (code (fst (handlers.CreateUser sample.HashPassword
                (sample.request_by 2 0 (sample.new_account RoleManager))
                sample.env sample.db)) = http.StatusForbidden /\
   snd (handlers.CreateUser sample.HashPassword
          (sample.request_by 2 0 (sample.new_account RoleManager))
          sample.env sample.db) = sample.db) /\
  exists user,
    handlers.CreateUser sample.HashPassword
      (sample.request_by 2 0 (sample.new_account RoleStaff)) sample.env sample.db
    = (JSON http.StatusCreated (UserJSON (ToResponse user)), sample.db ++ [user]) /\
    Role user = RoleStaff.
Proof.
  split.
  - exact (proj1 (CreateUser_follows_can_create_table sample.HashPassword
                    (sample.request_by 2 0 (sample.new_account RoleManager))
                    sample.env sample.db (sample.new_account RoleManager)
                    (sample.account 2 "mary" RoleManager StatusActive)
                    policy.manager policy.manager
                    (sample_create_reach 2 _ _ eq_refl eq_refl) eq_refl eq_refl)
             eq_refl).
  - destruct (proj2 (proj2 (proj2
               (CreateUser_follows_can_create_table sample.HashPassword
                  (sample.request_by 2 0 (sample.new_account RoleStaff))
                  sample.env sample.db (sample.new_account RoleStaff)
                  (sample.account 2 "mary" RoleManager StatusActive)
                  policy.manager policy.staff
                  (sample_create_reach 2 _ _ eq_refl eq_refl) eq_refl eq_refl)
               eq_refl))
               (free_by_FindOne "new@x.com" "newcomer" sample.db eq_refl)
               "s4lt$welcome1" eq_refl eq_refl)
      as (user & Hrun & Hrole & _).
    exists user. split; [exact Hrun | exact Hrole].
Defined.

Lemma sample_role_patch_is_free (r : UserRole) (tid : primitive.ObjectID) :
  policy.patch_free_of_conflict (sample.role_patch r) tid sample.db.
Proof.
  unfold policy.patch_free_of_conflict, sample.db.
  repeat (apply List.Forall_cons;
          [intros _; split; intros H; vm_compute in H; discriminate H|]).
  apply List.Forall_nil.
Defined.

(** The admin root makes the staff account sam a manager, and is refused
    when naming the role staff for its own account. *)
Lemma UpdateUser_follows_can_update_table_witness :
  (exists before after updated,
     sample.db = before ++ sample.account 3 "sam" RoleStaff StatusActive :: after /\
     UpdateUser (sample.request_by 1 3 (sample.role_patch RoleManager))
       sample.env sample.db
     = (JSON http.StatusOK (UserJSON (ToResponse updated)),
        before ++ updated :: after) /\
     Role updated = RoleManager) /\
  code (fst (UpdateUser (sample.request_by 1 1 (sample.role_patch RoleStaff))
               sample.env sample.db)) = http.StatusForbidden /\
  snd (UpdateUser (sample.request_by 1 1 (sample.role_patch RoleStaff))
         sample.env sample.db) = sample.db.
Proof.
  split.
  - destruct (proj2 (proj1 (proj2
               (UpdateUser_follows_can_update_table
                  (sample.request_by 1 3 (sample.role_patch RoleManager))
                  sample.env sample.db (sample.role_patch RoleManager) 3%N
                  (sample.account 1 "root" RoleAdmin StatusActive)
                  (sample.account 3 "sam" RoleStaff StatusActive)
                  policy.admin policy.staff
                  (sample_update_reach 1 3 _ _ _ eq_refl eq_refl eq_refl eq_refl)
                  eq_refl eq_refl))
               eq_refl)
               (sample_role_patch_is_free RoleManager 3%N) eq_refl)
      as (before & after & updated & Hdb & Hrun & Hupdated & _).
    exists before, after, updated. split; [exact Hdb|]. split; [exact Hrun|].
    rewrite Hupdated. reflexivity.
  - refine (proj1 (proj2 (proj2 (proj2 (proj2 (proj2
              (UpdateUser_follows_can_update_table
                 (sample.request_by 1 1 (sample.role_patch RoleStaff))
                 sample.env sample.db (sample.role_patch RoleStaff) 1%N
                 (sample.account 1 "root" RoleAdmin StatusActive)
                 (sample.account 1 "root" RoleAdmin StatusActive)
                 policy.admin policy.admin
                 (sample_update_reach 1 1 _ _ _ eq_refl eq_refl eq_refl eq_refl)
                 eq_refl eq_refl))))))
              eq_refl eq_refl _ _); intros H; discriminate H.
Defined.


(** The manager mary deletes the manager mike. *)
Lemma DeleteUser_manager_deletes_manager_witness :
  exists before after,
    sample.db = before ++ sample.account 5 "mike" RoleManager StatusActive :: after /\
    Forall (fun u => ID u <> 5%N) before /\
    DeleteUser (sample.request_by 2 5 tt) sample.env sample.db
    = (JSON http.StatusNoContent Nil, before ++ after).
Proof.
  exact (proj2 (proj2 (DeleteUser_manager_deletes_manager
                         (sample.request_by 2 5 tt) sample.env sample.db 5%N
                         (sample.account 2 "mary" RoleManager StatusActive)
                         (sample.account 5 "mike" RoleManager StatusActive)
                         (sample_delete_reach 2 5 _ _ eq_refl eq_refl eq_refl eq_refl)
                         eq_refl)
                  eq_refl)
           eq_refl).
Defined.

(** The admin root sets a phone number on the staff account sam. *)
Lemma UpdateUser_partial_update_frame_witness :
  exists updated before after,
    UpdateUser (sample.request_by 1 3 (sample.phone_patch "0700123456"))
      sample.env sample.db
    = (JSON http.StatusOK (UserJSON (ToResponse updated)),
       before ++ updated :: after) /\
    map policy.frozen (before ++ updated :: after) = map policy.frozen sample.db.
Proof.
  destruct (UpdateUser_partial_update_frame
              (sample.request_by 1 3 (sample.phone_patch "0700123456"))
              sample.env sample.db eq_refl)
    as ((req & tid & target & updated & before & after
         & _ & _ & _ & _ & Hrun & _) & Hfrozen).
  exists updated, before, after. split; [exact Hrun|].
  rewrite <- (Hfrozen (sample.request_by 1 3 (sample.phone_patch "0700123456"))
                sample.env sample.db).
  rewrite Hrun. reflexivity.
Defined.

(** The admin root creates a manager; the manager mary sets a phone number
    on the staff account sam. *)
Lemma mutation_escalation_bounds_witness :
  (exists user,
     snd (handlers.CreateUser sample.HashPassword
            (sample.request_by 1 0 (sample.new_account RoleManager))
            sample.env sample.db) = sample.db ++ [user] /\
     Role user = RoleManager /\
     ~ policy.peer_or_superior RoleAdmin (Role user)) /\
  (exists updated,
     FindOne (by_id 3%N)
       (snd (UpdateUser (sample.request_by 2 3 (sample.phone_patch "0700123456"))
               sample.env sample.db)) = Some updated /\
     Role updated = RoleStaff /\
     ~ policy.peer_or_superior RoleManager (Role updated)).
Proof.
  destruct (mutation_escalation_bounds sample.HashPassword
              (sample.request_by 1 0 (sample.new_account RoleManager))
              (sample.request_by 2 3 (sample.phone_patch "0700123456"))
              sample.env sample.db
              (sample.new_account RoleManager)
              (sample.account 1 "root" RoleAdmin StatusActive)
              (sample.phone_patch "0700123456") 3%N
              (sample.account 2 "mary" RoleManager StatusActive)
              (sample.account 3 "sam" RoleStaff StatusActive)
              (sample_create_reach 1 _ _ eq_refl eq_refl)
              (sample_update_reach 2 3 _ _ _ eq_refl eq_refl eq_refl eq_refl))
    as [Hcreate Hupdate].
  split.
  - destruct (Hcreate eq_refl) as (user & Hsnd & Hrole & Hbelow).
    exists user. split; [exact Hsnd|]. split; [exact Hrole | exact Hbelow].
  - destruct (Hupdate eq_refl) as (updated & Hstored & Hrole & Hbelow & _).
    exists updated. split; [exact Hstored|]. split; [exact Hrole|].
    apply Hbelow. intros H. discriminate H.
Defined.

(* ===================================================================== *)
(** ** Login, beyond its error answers *)
(* ===================================================================== *)

Lemma without_login_stamp_update_first (f : User -> bool) (t : Time) (db : Collection) :
  map invariant.without_login_stamp (update_first f (set_last_login t) db)
  = map invariant.without_login_stamp db.
Proof.
  induction db as [|d rest IH]; simpl; [reflexivity|].
  destruct (f d); simpl; [reflexivity | now rewrite IH].
Qed.

(** What the driver drops of a time is less than a millisecond. *)
Lemma DateTime_within_a_millisecond (t : Time) :
  bson.DateTime t <= t < bson.DateTime t + bson.Millisecond.
Proof.
  unfold bson.DateTime, bson.Millisecond.
  pose proof (Z.mod_pos_bound t 1000000 ltac:(lia)). lia.
Qed.

Lemma DateTime_keeps_iff (t : Time) :
  bson.DateTime t = t <-> t mod bson.Millisecond = 0.
Proof. unfold bson.DateTime. lia. Qed.

Lemma ToResponse_stored (u : User) :
  ToResponse (bson.stored u) = bson.read_back (ToResponse u).
Proof. reflexivity. Qed.

Lemma FindOne_on_disk (id : primitive.ObjectID) (db : Collection) :
  FindOne (by_id id) (bson.on_disk db)
  = option_map bson.stored (FindOne (by_id id) db).
Proof.
  unfold FindOne, bson.on_disk. induction db as [|u rest IH]; simpl; [reflexivity|].
  change (by_id id (bson.stored u)) with (by_id id u).
  destruct (by_id id u); [reflexivity | exact IH].
Qed.

Lemma on_disk_keeps (db : Collection) (u : User) :
  bson.on_disk db = db -> In u db -> bson.stored u = u.
Proof.
  unfold bson.on_disk. induction db as [|d rest IH]; simpl; [contradiction|].
  intros H [<- | Hin]; injection H as Hd Hrest; [exact Hd | now apply IH].
Qed.

Section LoginEffects.

Variable CheckPassword : string -> string -> bool.
Variable GenerateToken : Env -> User -> string -> Z -> option string.

Local Abbreviation Login := (handlers.Login CheckPassword GenerateToken).

Lemma Login_keeps_all_but_the_stamp (c : Context LoginRequest)
  (e : Env) (db : Collection) :
  map invariant.without_login_stamp (snd (Login c e db))
  = map invariant.without_login_stamp db.
Proof.
  open_handler handlers.Login. unfold UpdateOne.
  repeat step; try reflexivity; apply without_login_stamp_update_first.
Qed.

(** Whatever a login attempt answers, the collection afterwards differs from
    the one before in nothing but the [last_login] and [updated_at] of the
    accounts: no role, status, password, email or any other field changes,
    and no account is added or removed. *)
Theorem Login_changes_only_the_login_stamp (c : Context LoginRequest)
  (e : Env) (db : Collection) :
  map invariant.without_login_stamp (snd (Login c e db))
  = map invariant.without_login_stamp db /\
  length (snd (Login c e db)) = length db /\
  map Role (snd (Login c e db)) = map Role db /\
  map Password (snd (Login c e db)) = map Password db.
Proof.
  pose proof (Login_keeps_all_but_the_stamp c e db) as Hframe.
  split; [exact Hframe|]. split; [|split].
  - rewrite <- (length_map invariant.without_login_stamp), Hframe.
    apply length_map.
  - rewrite <- (map_ext _ _ (fun u => eq_refl : Role (invariant.without_login_stamp u) = Role u)),
      <- (map_map invariant.without_login_stamp Role), Hframe, map_map.
    reflexivity.
  - rewrite <- (map_ext _ _ (fun u => eq_refl : Password (invariant.without_login_stamp u) = Password u)),
      <- (map_map invariant.without_login_stamp Password), Hframe, map_map.
    reflexivity.
Qed.

(** A login is answered 200 exactly when the body binds, an account has the
    email, the password verifies against its hash, its status is active and
    the token service delivers a token for the stamped account. *)
Theorem Login_ok_iff (c : Context LoginRequest) (e : Env) (db : Collection) :
  code (fst (Login c e db)) = http.StatusOK <->
  exists req user token,
    ShouldBindJSON c = inr req /\
    FindOne (by_email (login_Email req)) db = Some user /\
    CheckPassword (login_Password req) (Password user) = true /\
    Status user = StatusActive /\
    GenerateToken e (set_last_login (now e) user)
      (config.JWTSecret (cfg e)) (config.JWTExpirationHours (cfg e)) = Some token.
Proof.
  split.
  - open_handler handlers.Login. unfold UpdateOne.
    repeat step; try discriminate; intros _.
    all: match goal with
         | Hb : ShouldBindJSON _ = inr ?req,
           Hf : FindOne _ _ = Some ?user,
           Ht : GenerateToken _ _ _ _ = Some ?token |- _ =>
             exists req, user, token
         end.
    all: repeat split; try assumption.
    all: try (apply negb_false_iff; assumption).
    all: apply String.eqb_eq; apply negb_false_iff; assumption.
  - intros (req & user & token & Hbind & Hfound & Hpw & Hst & Htok).
    apply String.eqb_eq in Hst.
    open_handler handlers.Login. unfold UpdateOne.
    rewrite Hbind; simpl. rewrite Hfound; simpl. rewrite Hpw; simpl.
    rewrite Hst; simpl. destruct (write_err e); simpl; rewrite Htok; reflexivity.
Qed.

(** Past the three checks, [Login] is one write and one token. *)
Lemma Login_past_checks (c : Context LoginRequest) (e : Env) (db : Collection)
  (req : LoginRequest) (user : User) :
  ShouldBindJSON c = inr req ->
  FindOne (by_email (login_Email req)) db = Some user ->
  CheckPassword (login_Password req) (Password user) = true ->
  Status user = StatusActive ->
  Login c e db
  = (match GenerateToken e (set_last_login (now e) user)
             (config.JWTSecret (cfg e)) (config.JWTExpirationHours (cfg e)) with
     | Some token =>
         JSON http.StatusOK
           (LoginResponse token (ToResponse (set_last_login (now e) user)))
     | None =>
         JSON http.StatusInternalServerError
           (ErrorResponse "An error occurred while logging you in. Please try again later.")
     end,
     if write_err e then db
     else update_first (by_id (ID user)) (set_last_login (now e)) db).
Proof.
  intros Hbind Hfound Hpw Hst. apply String.eqb_eq in Hst.
  open_handler handlers.Login. unfold UpdateOne.
  rewrite Hbind; simpl. rewrite Hfound; simpl. rewrite Hpw; simpl.
  rewrite Hst; simpl.
  destruct (write_err e); simpl; destruct (GenerateToken _ _ _ _); reflexivity.
Qed.

(** With unique identifiers, the account a filter finds is also the first
    one of its identifier. *)
Lemma found_is_first_of_its_id (f : User -> bool) (db : Collection) (user : User) :
  List.NoDup (map ID db) ->
  FindOne f db = Some user ->
  exists before after,
    db = before ++ user :: after /\
    Forall (fun x => by_id (ID user) x = false) before.
Proof.
  intros Hnodup Hfound.
  destruct (FindOne_some _ _ _ Hfound) as (before & after & -> & _ & _).
  exists before, after. split; [reflexivity|].
  rewrite map_app in Hnodup. simpl in Hnodup.
  apply List.NoDup_remove_2 in Hnodup.
  apply List.Forall_forall. intros x Hx. apply by_id_false. intros Heq.
  apply Hnodup. apply in_or_app. left. rewrite <- Heq. now apply in_map.
Qed.

(** A successful login with a working driver: the answer carries the token
    and the account with [last_login] and [updated_at] at the instant of the
    login; on disk the account is stamped in place with that instant cut to
    the millisecond, less than a millisecond earlier, and is otherwise the
    account that was found. *)
Theorem Login_success_stamps_last_login (c : Context LoginRequest) (e : Env)
  (db : Collection) (req : LoginRequest) (user : User) (token : string) :
  List.NoDup (map ID db) ->
  ShouldBindJSON c = inr req ->
  FindOne (by_email (login_Email req)) db = Some user ->
  CheckPassword (login_Password req) (Password user) = true ->
  Status user = StatusActive ->
  GenerateToken e (set_last_login (now e) user)
    (config.JWTSecret (cfg e)) (config.JWTExpirationHours (cfg e)) = Some token ->
  write_err e = false ->
  exists before after answered kept,
    db = before ++ user :: after /\
    fst (Login c e db) = JSON http.StatusOK (LoginResponse token (ToResponse answered)) /\
    LastLogin answered = Some (now e) /\
    UpdatedAt answered = now e /\
    bson.on_disk (snd (Login c e db))
    = bson.on_disk before ++ kept :: bson.on_disk after /\
    LastLogin kept = Some (bson.DateTime (now e)) /\
    UpdatedAt kept = bson.DateTime (now e) /\
    bson.DateTime (now e) <= now e < bson.DateTime (now e) + bson.Millisecond /\
    invariant.without_login_stamp answered = invariant.without_login_stamp user /\
    invariant.without_login_stamp kept
    = invariant.without_login_stamp (bson.stored user).
Proof.
  intros Hnodup Hbind Hfound Hpw Hst Htok Hwrite.
  destruct (found_is_first_of_its_id _ _ _ Hnodup Hfound)
    as (before & after & Hdb & Hfirst).
  exists before, after, (set_last_login (now e) user),
    (bson.stored (set_last_login (now e) user)).
  rewrite (Login_past_checks c e db req user Hbind Hfound Hpw Hst).
  rewrite Htok, Hwrite. cbn [fst snd].
  split; [exact Hdb|]. split; [reflexivity|]. split; [reflexivity|].
  split; [reflexivity|]. split.
  - rewrite Hdb at 1.
    rewrite update_first_split; [|exact Hfirst | apply N.eqb_refl].
    unfold bson.on_disk. rewrite map_app. reflexivity.
  - split; [reflexivity|]. split; [reflexivity|].
    split; [apply DateTime_within_a_millisecond|]. split; reflexivity.
Qed.

(** The stamp is best effort: when the driver fails on the write, the login
    is answered 200 all the same, the answer shows [last_login] at the time
    of the login, and the collection is the one before. *)
Theorem Login_survives_write_failure (c : Context LoginRequest) (e : Env)
  (db : Collection) (req : LoginRequest) (user : User) (token : string) :
  ShouldBindJSON c = inr req ->
  FindOne (by_email (login_Email req)) db = Some user ->
  CheckPassword (login_Password req) (Password user) = true ->
  Status user = StatusActive ->
  GenerateToken e (set_last_login (now e) user)
    (config.JWTSecret (cfg e)) (config.JWTExpirationHours (cfg e)) = Some token ->
  write_err e = true ->
  Login c e db
  = (JSON http.StatusOK
       (LoginResponse token (ToResponse (set_last_login (now e) user))), db) /\
  resp_LastLogin (ToResponse (set_last_login (now e) user)) = Some (now e) /\
  FindOne (by_email (login_Email req)) (snd (Login c e db)) = Some user.
Proof.
  intros Hbind Hfound Hpw Hst Htok Hwrite.
  rewrite (Login_past_checks c e db req user Hbind Hfound Hpw Hst).
  rewrite Htok, Hwrite. repeat split. exact Hfound.
Qed.

(** The stamp precedes the token: when the token service fails, the login is
    answered 500 but the account has already been stamped in the
    collection. *)
Theorem Login_token_failure_keeps_stamp (c : Context LoginRequest) (e : Env)
  (db : Collection) (req : LoginRequest) (user : User) :
  List.NoDup (map ID db) ->
  ShouldBindJSON c = inr req ->
  FindOne (by_email (login_Email req)) db = Some user ->
  CheckPassword (login_Password req) (Password user) = true ->
  Status user = StatusActive ->
  GenerateToken e (set_last_login (now e) user)
    (config.JWTSecret (cfg e)) (config.JWTExpirationHours (cfg e)) = None ->
  write_err e = false ->
  exists before after,
    db = before ++ user :: after /\
    code (fst (Login c e db)) = http.StatusInternalServerError /\
    snd (Login c e db) = before ++ set_last_login (now e) user :: after.
Proof.
  intros Hnodup Hbind Hfound Hpw Hst Htok Hwrite.
  destruct (found_is_first_of_its_id _ _ _ Hnodup Hfound)
    as (before & after & Hdb & Hfirst).
  exists before, after. split; [exact Hdb|].
  rewrite (Login_past_checks c e db req user Hbind Hfound Hpw Hst).
  rewrite Htok, Hwrite. split; [reflexivity|]. simpl. rewrite Hdb.
  apply update_first_split; [exact Hfirst | apply N.eqb_refl].
Qed.

End LoginEffects.

(* ===================================================================== *)
(** ** A handler that does not succeed leaves the collection alone *)
(* ===================================================================== *)

Lemma UpdateUser_failure_keeps (c : Context UpdateUserRequest) (e : Env)
  (db : Collection) :
  code (fst (UpdateUser c e db)) <> http.StatusOK -> snd (UpdateUser c e db) = db.
Proof.
  open_handler handlers.UpdateUser; unfold UpdateOne, is_empty.
  repeat step; intros H; first [reflexivity | exfalso; apply H; reflexivity].
Qed.

Lemma DeleteUser_failure_keeps (c : Context unit) (e : Env) (db : Collection) :
  code (fst (DeleteUser c e db)) <> http.StatusNoContent ->
  snd (DeleteUser c e db) = db.
Proof.
  open_handler handlers.DeleteUser; unfold DeleteOne.
  repeat step; intros H; first [reflexivity | exfalso; apply H; reflexivity].
Qed.

Section FailureAtomicity.

Variable HashPassword : string -> string -> option string.

Lemma Register_failure_keeps (c : Context RegisterRequest) (e : Env)
  (db : Collection) :
  code (fst (handlers.Register HashPassword c e db)) <> http.StatusCreated ->
  snd (handlers.Register HashPassword c e db) = db.
Proof.
  open_handler handlers.Register; unfold InsertOne.
  repeat step; intros H; first [reflexivity | exfalso; apply H; reflexivity].
Qed.

Lemma CreateUser_failure_keeps (c : Context RegisterRequest) (e : Env)
  (db : Collection) :
  code (fst (handlers.CreateUser HashPassword c e db)) <> http.StatusCreated ->
  snd (handlers.CreateUser HashPassword c e db) = db.
Proof.
  open_handler handlers.CreateUser; unfold InsertOne.
  repeat step; intros H; first [reflexivity | exfalso; apply H; reflexivity].
Qed.

(** The four mutating handlers write only on success: any answer other than
    201 from [Register] or [CreateUser], other than 200 from [UpdateUser],
    other than 204 from [DeleteUser], comes with the collection exactly as it
    was.  [Login] is different: its write precedes its last failure. *)
Theorem mutations_write_only_on_success (e : Env) (db : Collection) :
  (forall c, code (fst (handlers.Register HashPassword c e db)) <> http.StatusCreated ->
             snd (handlers.Register HashPassword c e db) = db) /\
  (forall c, code (fst (handlers.CreateUser HashPassword c e db)) <> http.StatusCreated ->
             snd (handlers.CreateUser HashPassword c e db) = db) /\
  (forall c, code (fst (UpdateUser c e db)) <> http.StatusOK ->
             snd (UpdateUser c e db) = db) /\
  (forall c, code (fst (DeleteUser c e db)) <> http.StatusNoContent ->
             snd (DeleteUser c e db) = db).
Proof.
  split; [|split; [|split]]; intros c.
  - apply Register_failure_keeps.
  - apply CreateUser_failure_keeps.
  - apply UpdateUser_failure_keeps.
  - apply DeleteUser_failure_keeps.
Qed.

End FailureAtomicity.

(* ===================================================================== *)
(** ** Uniqueness of identifiers, emails and usernames *)
(* ===================================================================== *)

Lemma In_delete_first (f : User -> bool) (x : User) (l : Collection) :
  In x (delete_first f l) -> In x l.
Proof.
  induction l as [|u rest IH]; simpl; [tauto|].
  destruct (f u); simpl; [now right | intros [H|H]; [now left | right; now apply IH]].
Qed.

Lemma NoDup_map_delete_first {B} (g : User -> B) (f : User -> bool) (l : Collection) :
  List.NoDup (map g l) -> List.NoDup (map g (delete_first f l)).
Proof.
  induction l as [|u rest IH]; simpl; [trivial|].
  intros H. apply List.NoDup_cons_iff in H as [Hnot Hrest].
  destruct (f u); simpl; [exact Hrest|].
  constructor; [|now apply IH].
  intros Hin. apply Hnot. apply in_map_iff in Hin as (x & Hx & Hin).
  apply in_map_iff. exists x. split; [exact Hx | now apply In_delete_first in Hin].
Qed.

Lemma NoDup_map_snoc {B} (g : User -> B) (l : Collection) (x : User) :
  List.NoDup (map g l) -> ~ In (g x) (map g l) -> List.NoDup (map g (l ++ [x])).
Proof.
  intros Hl Hx. rewrite map_app. simpl.
  apply (proj2 (List.NoDup_Add (List.Add_app (g x) (map g l) []))).
  rewrite app_nil_r. split; assumption.
Qed.

Lemma NoDup_map_replace {B} (g : User -> B) (before after : Collection) (a p : User) :
  List.NoDup (map g (before ++ a :: after)) ->
  g p = g a \/ ~ In (g p) (map g (before ++ after)) ->
  List.NoDup (map g (before ++ p :: after)).
Proof.
  rewrite !map_app. simpl. intros H [Heq | Hnew].
  - now rewrite Heq.
  - apply List.NoDup_remove_1 in H.
    apply (proj2 (List.NoDup_Add (List.Add_app (g p) (map g before) (map g after)))).
    split; assumption.
Qed.

Lemma not_found_not_in (f : User -> bool) {B} (g : User -> B) (v : B) (l : Collection) :
  (forall u, g u = v -> f u = true) ->
  FindOne f l = None -> ~ In v (map g l).
Proof.
  intros Hf Hnone Hin. apply FindOne_none in Hnone.
  apply in_map_iff in Hin as (u & Hu & Hin).
  rewrite List.Forall_forall in Hnone. specialize (Hnone u Hin).
  rewrite (Hf u Hu) in Hnone. discriminate Hnone.
Qed.

(** An account whose email and username nobody holds, under a fresh
    identifier, can join without breaking uniqueness. *)
Lemma append_keeps_unique (db : Collection) (user : User) :
  invariant.unique_accounts db ->
  ~ In (ID user) (map ID db) ->
  FindOne (by_email_or_username (Email user) (Username user)) db = None ->
  invariant.unique_accounts (db ++ [user]).
Proof.
  intros (Hid & Hemail & Hname) Hfresh Hnone.
  split; [|split]; apply NoDup_map_snoc; try assumption.
  - apply (not_found_not_in
             (by_email_or_username (Email user) (Username user)) Email);
      [|exact Hnone].
    intros u Hu. apply by_email_or_username_true. now left.
  - apply (not_found_not_in
             (by_email_or_username (Email user) (Username user)) Username);
      [|exact Hnone].
    intros u Hu. apply by_email_or_username_true. now right.
Qed.

Section CreationKeepsUnique.

Variable HashPassword : string -> string -> option string.

Lemma Register_appends (c : Context RegisterRequest) (e : Env) (db : Collection) :
  code (fst (handlers.Register HashPassword c e db)) = http.StatusCreated ->
  exists req hashed user,
    ShouldBindJSON c = inr req /\
    HashPassword (entropy e) (reg_Password req) = Some hashed /\
    snd (handlers.Register HashPassword c e db) = db ++ [user] /\
    fst (handlers.Register HashPassword c e db)
      = JSON http.StatusCreated (UserJSON (ToResponse user)) /\
    ID user = NewObjectID e /\
    FindOne (by_email_or_username (Email user) (Username user)) db = None /\
    Email user = reg_Email req /\
    Password user = hashed /\
    Role user = reg_Role req /\
    Status user = StatusActive.
Proof.
  open_handler handlers.Register; unfold InsertOne.
  repeat step; try discriminate; intros _.
  do 3 eexists. split; [reflexivity|]. split; [eassumption|].
  split; [reflexivity|]. split; [reflexivity|]. split; [reflexivity|].
  split; [simpl; assumption|]. repeat split.
Qed.

Lemma CreateUser_appends (c : Context RegisterRequest) (e : Env) (db : Collection) :
  code (fst (handlers.CreateUser HashPassword c e db)) = http.StatusCreated ->
  exists user,
    snd (handlers.CreateUser HashPassword c e db) = db ++ [user] /\
    fst (handlers.CreateUser HashPassword c e db)
      = JSON http.StatusCreated (UserJSON (ToResponse user)) /\
    ID user = NewObjectID e /\
    FindOne (by_email_or_username (Email user) (Username user)) db = None.
Proof.
  open_handler handlers.CreateUser; unfold InsertOne.
  repeat step; try discriminate; intros _.
  all: eexists; split; [reflexivity|]; split; [reflexivity|];
    split; [reflexivity | simpl; assumption].
Qed.

(** Account creation keeps the accounts unique: if identifiers, emails and
    usernames are pairwise distinct before and the identifier drawn for the
    request is not in use, they are pairwise distinct after [Register] and
    after [CreateUser], whatever these answer. *)
Theorem creation_keeps_accounts_unique (c : Context RegisterRequest) (e : Env)
  (db : Collection) :
  invariant.unique_accounts db ->
  ~ In (NewObjectID e) (map ID db) ->
  invariant.unique_accounts (snd (handlers.Register HashPassword c e db)) /\
  invariant.unique_accounts (snd (handlers.CreateUser HashPassword c e db)).
Proof.
  intros Huniq Hfresh. split.
  - destruct (Z.eq_dec (code (fst (handlers.Register HashPassword c e db)))
                http.StatusCreated) as [Hok | Hfail].
    + destruct (Register_appends c e db Hok)
        as (req & hashed & user & _ & _ & -> & _ & Hid & Hnone & _).
      apply append_keeps_unique; try assumption. now rewrite Hid.
    + now rewrite (Register_failure_keeps HashPassword c e db Hfail).
  - destruct (Z.eq_dec (code (fst (handlers.CreateUser HashPassword c e db)))
                http.StatusCreated) as [Hok | Hfail].
    + destruct (CreateUser_appends c e db Hok) as (user & -> & _ & Hid & Hnone).
      apply append_keeps_unique; try assumption. now rewrite Hid.
    + now rewrite (CreateUser_failure_keeps HashPassword c e db Hfail).
Qed.

End CreationKeepsUnique.

(** What the two conflict blocks of a successful [UpdateUser] established:
    the email (and the username) of the updated account is the prior one, or
    no account under another identifier holds it. *)
Lemma UpdateUser_success_checks (c : Context UpdateUserRequest) (e : Env)
  (db : Collection) :
  code (fst (UpdateUser c e db)) = http.StatusOK ->
  exists req tid target,
    ShouldBindJSON c = inr req /\
    primitive.ObjectIDFromHex (Param_id c) = Some tid /\
    FindOne (by_id tid) db = Some target /\
    (Email (policy.partial_update req target (now e)) = Email target \/
     FindOne (by_email_not_id
                (Email (policy.partial_update req target (now e))) tid) db = None) /\
    (Username (policy.partial_update req target (now e)) = Username target \/
     FindOne (by_username_not_id
                (Username (policy.partial_update req target (now e))) tid) db = None).
Proof.
  open_handler handlers.UpdateUser; unfold UpdateOne, is_empty.
  repeat step; try discriminate.
  all: intros _.
  all: match goal with
       | Hp : primitive.ObjectIDFromHex (Param_id _) = Some ?tid,
         Hb : ShouldBindJSON _ = inr ?req,
         Ht : FindOne (by_id ?tid) _ = Some ?target |- _ =>
           exists req, tid, target;
           split; [reflexivity|]; split; [reflexivity|]; split; [exact Ht|]
       end.
  all: simpl in *.
  all: split.
  all: match goal with
       | H : negb (String.eqb ?p EmptyString) && negb (String.eqb ?p ?x) = false
         |- policy.patch_string ?p ?x = ?x \/ _ =>
           left; exact (patch_keep p x H)
       | H : negb (String.eqb ?p EmptyString) && negb (String.eqb ?p ?x) = true
         |- policy.patch_string ?p ?x = ?x \/ _ =>
           right; rewrite (patch_take p x H); assumption
       end.
Qed.

(** With unique identifiers, the accounts around the one found for [tid]
    all have another identifier. *)
Lemma others_have_other_ids (tid : primitive.ObjectID) (before after : Collection)
  (target : User) :
  List.NoDup (map ID (before ++ target :: after)) ->
  ID target = tid ->
  Forall (fun x => ID x <> tid) (before ++ after).
Proof.
  intros Hnodup Hid. rewrite map_app in Hnodup. simpl in Hnodup.
  apply List.NoDup_remove_2 in Hnodup. rewrite <- map_app in Hnodup.
  apply List.Forall_forall. intros x Hx Heq. apply Hnodup.
  rewrite Hid, <- Heq. now apply in_map.
Qed.

Lemma conflict_free_elsewhere {B} (g : User -> B) (f : User -> bool) (v : B)
  (tid : primitive.ObjectID) (before after : Collection) (target : User) :
  (forall u, g u = v -> ID u <> tid -> f u = true) ->
  Forall (fun x => ID x <> tid) (before ++ after) ->
  FindOne f (before ++ target :: after) = None ->
  ~ In v (map g (before ++ after)).
Proof.
  intros Hf Hother Hnone Hin. apply FindOne_none in Hnone.
  apply in_map_iff in Hin as (u & Hu & Hin).
  rewrite List.Forall_forall in Hnone, Hother.
  assert (Hin' : In u (before ++ target :: after)).
  { apply in_app_or in Hin as [H|H]; apply in_or_app; [now left | right; now right]. }
  specialize (Hnone u Hin'). rewrite (Hf u Hu (Hother u Hin)) in Hnone.
  discriminate Hnone.
Qed.

(** An update keeps the accounts unique, whatever it answers. *)
Lemma UpdateUser_keeps_accounts_unique (c : Context UpdateUserRequest)
  (e : Env) (db : Collection) :
  invariant.unique_accounts db ->
  invariant.unique_accounts (snd (UpdateUser c e db)).
Proof.
  intros Huniq.
  destruct (Z.eq_dec (code (fst (UpdateUser c e db))) http.StatusOK)
    as [Hok | Hfail]; [|now rewrite (UpdateUser_failure_keeps c e db Hfail)].
  destruct (UpdateUser_success c e db Hok)
    as (req & tid & target & before & after
        & Hbind & Hparam & Htarget & Hdb & Hid & _ & Hrun).
  destruct (UpdateUser_success_checks c e db Hok)
    as (req' & tid' & target' & Hbind' & Hparam' & Htarget' & Hemail & Hname).
  assert (req' = req) by congruence. assert (tid' = tid) by congruence.
  subst req' tid'. assert (target' = target) by congruence. subst target'.
  rewrite Hrun. simpl. rewrite Hdb in Huniq, Hemail, Hname.
  destruct Huniq as (Hids & Hemails & Hnames).
  pose proof (others_have_other_ids tid before after target Hids Hid) as Hother.
  split; [|split].
  - apply (NoDup_map_replace ID before after target); [exact Hids | now left].
  - apply (NoDup_map_replace Email before after target); [exact Hemails|].
    destruct Hemail as [Hsame | Hnone]; [now left | right].
    eapply (conflict_free_elsewhere Email); [|exact Hother | exact Hnone].
    intros u Hu Hne. unfold by_email_not_id.
    apply andb_true_iff. split; [now apply String.eqb_eq|].
    apply negb_true_iff. now apply N.eqb_neq.
  - apply (NoDup_map_replace Username before after target); [exact Hnames|].
    destruct Hname as [Hsame | Hnone]; [now left | right].
    eapply (conflict_free_elsewhere Username); [|exact Hother | exact Hnone].
    intros u Hu Hne. unfold by_username_not_id.
    apply andb_true_iff. split; [now apply String.eqb_eq|].
    apply negb_true_iff. now apply N.eqb_neq.
Qed.

Lemma DeleteUser_collection_after (c : Context unit) (e : Env) (db : Collection) :
  snd (DeleteUser c e db) = db \/
  exists tid,
    primitive.ObjectIDFromHex (Param_id c) = Some tid /\
    code (fst (DeleteUser c e db)) = http.StatusNoContent /\
    snd (DeleteUser c e db) = delete_first (by_id tid) db.
Proof.
  open_handler handlers.DeleteUser; unfold DeleteOne.
  repeat step; try (left; reflexivity).
  right. eexists. repeat split.
Qed.

Lemma map_through_login_stamp {B} (g : User -> B) (l l' : Collection) :
  (forall u, g (invariant.without_login_stamp u) = g u) ->
  map invariant.without_login_stamp l' = map invariant.without_login_stamp l ->
  map g l' = map g l.
Proof.
  intros Hg H.
  rewrite <- (map_ext _ _ Hg l), <- (map_ext _ _ Hg l').
  rewrite <- !(map_map invariant.without_login_stamp g). now rewrite H.
Qed.

(** Deleting and logging in keep the accounts unique. *)
Lemma DeleteUser_and_Login_keep_accounts_unique
  (CheckPassword : string -> string -> bool)
  (GenerateToken : Env -> User -> string -> Z -> option string)
  (cd : Context unit) (cl : Context LoginRequest) (e : Env) (db : Collection) :
  invariant.unique_accounts db ->
  invariant.unique_accounts (snd (DeleteUser cd e db)) /\
  invariant.unique_accounts
    (snd (handlers.Login CheckPassword GenerateToken cl e db)).
Proof.
  intros (Hids & Hemails & Hnames). split.
  - destruct (DeleteUser_collection_after cd e db) as [-> | (tid & _ & _ & ->)];
      [now repeat split|].
    repeat split; now apply NoDup_map_delete_first.
  - pose proof (Login_keeps_all_but_the_stamp CheckPassword GenerateToken cl e db)
      as Hframe.
    unfold invariant.unique_accounts.
    rewrite (map_through_login_stamp ID _ _ (fun u => eq_refl) Hframe).
    rewrite (map_through_login_stamp Email _ _ (fun u => eq_refl) Hframe).
    rewrite (map_through_login_stamp Username _ _ (fun u => eq_refl) Hframe).
    now repeat split.
Qed.

(** Updating, deleting and logging in keep the accounts unique: if
    identifiers, emails and usernames are pairwise distinct before
    [UpdateUser], [DeleteUser] or [Login], they are pairwise distinct after
    it, whatever it answers.  For [UpdateUser] this rests on its two conflict
    checks, which look for the new email or username under any other
    identifier. *)
Theorem update_delete_login_keep_accounts_unique
  (CheckPassword : string -> string -> bool)
  (GenerateToken : Env -> User -> string -> Z -> option string)
  (cu : Context UpdateUserRequest) (cd : Context unit)
  (cl : Context LoginRequest) (e : Env) (db : Collection) :
  invariant.unique_accounts db ->
  invariant.unique_accounts (snd (UpdateUser cu e db)) /\
  invariant.unique_accounts (snd (DeleteUser cd e db)) /\
  invariant.unique_accounts
    (snd (handlers.Login CheckPassword GenerateToken cl e db)).
Proof.
  intros Huniq. split.
  - now apply UpdateUser_keeps_accounts_unique.
  - now apply DeleteUser_and_Login_keep_accounts_unique.
Qed.

(* ===================================================================== *)
(** ** Identifiers in hexadecimal *)
(* ===================================================================== *)

Lemma hex_value_hex_char (d : N) :
  (d < 16)%N -> primitive.hex_value (primitive.hex_char d) = Some d.
Proof.
  intros H. assert (Hd : d = N.of_nat (N.to_nat d)) by lia.
  assert (Hn : (N.to_nat d < 16)%nat) by lia.
  rewrite Hd. clear H Hd. generalize dependent (N.to_nat d). intros n Hn.
  do 16 (destruct n as [|n]; [reflexivity|]). lia.
Qed.

Lemma decode_encode_hex (k : nat) :
  forall (n : N) (acc : string) (a : N),
    (n < 16 ^ N.of_nat k)%N ->
    primitive.decode_hex (primitive.encode_hex k n acc) a
    = primitive.decode_hex acc (a * 16 ^ N.of_nat k + n)%N.
Proof.
  induction k as [|k IH]; intros n acc a Hn.
  - simpl in *. f_equal. lia.
  - rewrite Nat2N.inj_succ, N.pow_succ_r' in *.
    cbn [primitive.encode_hex]. rewrite IH.
    + cbn [primitive.decode_hex].
      rewrite hex_value_hex_char by (apply N.mod_lt; lia).
      f_equal. pose proof (N.div_mod n 16 ltac:(lia)). lia.
    + apply N.Div0.div_lt_upper_bound. lia.
Qed.

Lemma length_encode_hex (k : nat) :
  forall (n : N) (acc : string),
    String.length (primitive.encode_hex k n acc) = (k + String.length acc)%nat.
Proof.
  induction k as [|k IH]; intros n acc; simpl; [reflexivity|].
  rewrite IH. simpl. lia.
Qed.

(** The 24 hexadecimal digits of a twelve-byte identifier parse back to
    it. *)
Lemma ObjectIDFromHex_Hex (id : primitive.ObjectID) :
  (id < 2 ^ 96)%N -> primitive.ObjectIDFromHex (primitive.Hex id) = Some id.
Proof.
  intros H. unfold primitive.ObjectIDFromHex, primitive.Hex.
  rewrite length_encode_hex. simpl Nat.eqb. cbv iota.
  rewrite decode_encode_hex; [reflexivity|].
  change (16 ^ N.of_nat 24)%N with (2 ^ 96)%N. exact H.
Qed.

(* ===================================================================== *)
(** ** Reading back what the handlers wrote *)
(* ===================================================================== *)

Lemma GetUser_found (c : Context unit) (db : Collection)
  (id : primitive.ObjectID) (user : User) :
  primitive.ObjectIDFromHex (Param_id c) = Some id ->
  FindOne (by_id id) db = Some user ->
  readers.GetUser c db = (JSON http.StatusOK (UserJSON (ToResponse user)), db).
Proof.
  intros Hparam Hfound. open_handler readers.GetUser.
  rewrite Hparam; simpl. rewrite Hfound; simpl. reflexivity.
Qed.

Lemma GetUser_missing (c : Context unit) (db : Collection)
  (id : primitive.ObjectID) :
  primitive.ObjectIDFromHex (Param_id c) = Some id ->
  FindOne (by_id id) db = None ->
  readers.GetUser c db
  = (JSON http.StatusNotFound (ErrorResponse "User not found"), db).
Proof.
  intros Hparam Hnone. open_handler readers.GetUser.
  rewrite Hparam; simpl. rewrite Hnone; simpl. reflexivity.
Qed.

Lemma fresh_id_not_found (id : primitive.ObjectID) (db : Collection) :
  ~ In id (map ID db) -> Forall (fun x => by_id id x = false) db.
Proof.
  intros Hfresh. apply List.Forall_forall. intros x Hx. apply by_id_false.
  intros Heq. apply Hfresh. rewrite <- Heq. now apply in_map.
Qed.

Lemma FindOne_after_delete_first (tid : primitive.ObjectID) (db : Collection) :
  List.NoDup (map ID db) ->
  FindOne (by_id tid) (delete_first (by_id tid) db) = None.
Proof.
  induction db as [|u rest IH]; simpl; [reflexivity|].
  intros Hnodup. apply List.NoDup_cons_iff in Hnodup as [Hnot Hrest].
  destruct (by_id tid u) eqn:Hu.
  - apply by_id_true in Hu. apply FindOne_none. apply fresh_id_not_found.
    now rewrite <- Hu.
  - unfold FindOne in *. simpl. rewrite Hu. now apply IH.
Qed.

Lemma FindOne_other_after_delete_first (tid id : primitive.ObjectID) (db : Collection) :
  id <> tid ->
  FindOne (by_id id) (delete_first (by_id tid) db) = FindOne (by_id id) db.
Proof.
  intros Hne. unfold FindOne.
  induction db as [|u rest IH]; simpl; [reflexivity|].
  destruct (by_id tid u) eqn:Hu; simpl.
  - apply by_id_true in Hu.
    assert (Hid : by_id id u = false) by (apply by_id_false; congruence).
    now rewrite Hid.
  - destruct (by_id id u); [reflexivity | exact IH].
Qed.

Section ReadBack.

Variable HashPassword : string -> string -> option string.
Variable CheckPassword : string -> string -> bool.
Variable GenerateToken : Env -> User -> string -> Z -> option string.

(** A 201 from [Register] appended one account under the new identifier,
    never logged in, created and updated at the instant of the request. *)
Lemma Register_appends_at (c : Context RegisterRequest) (e : Env) (db : Collection) :
  code (fst (handlers.Register HashPassword c e db)) = http.StatusCreated ->
  exists user,
    handlers.Register HashPassword c e db
    = (JSON http.StatusCreated (UserJSON (ToResponse user)), db ++ [user]) /\
    ID user = NewObjectID e /\
    LastLogin user = None /\ CreatedAt user = now e /\ UpdatedAt user = now e.
Proof.
  open_handler handlers.Register; unfold InsertOne.
  repeat step; try discriminate; intros _.
  eexists. split; [reflexivity|]. repeat split.
Qed.

(** Reading back a registration: when [Register] answers 201 under a fresh
    twelve-byte identifier, the [id] string of its answer, used as the path
    parameter of [GetUser], gets the same account back with its two times
    cut to the millisecond.  The answer of [Register] carries the instant of
    the request in both; the two bodies are equal only when that instant is a
    whole millisecond. *)
Theorem Register_then_GetUser (c : Context RegisterRequest) (e : Env)
  (db : Collection) :
  code (fst (handlers.Register HashPassword c e db)) = http.StatusCreated ->
  (NewObjectID e < 2 ^ 96)%N ->
  ~ In (NewObjectID e) (map ID db) ->
  exists created,
    body (fst (handlers.Register HashPassword c e db)) = UserJSON created /\
    resp_CreatedAt created = now e /\
    resp_UpdatedAt created = now e /\
    (forall c' : Context unit,
       Param_id c' = resp_ID created ->
       fst (readers.GetUser c'
              (bson.on_disk (snd (handlers.Register HashPassword c e db))))
       = JSON http.StatusOK (UserJSON (bson.read_back created))) /\
    resp_CreatedAt (bson.read_back created) = bson.DateTime (now e) /\
    resp_UpdatedAt (bson.read_back created) = bson.DateTime (now e) /\
    (bson.read_back created = created <-> now e mod bson.Millisecond = 0).
Proof.
  intros Hok Hrange Hfresh.
  destruct (Register_appends_at c e db Hok)
    as (user & Hrun & Hid & Hlast & Hcreated & Hupdated).
  exists (ToResponse user). rewrite Hrun. cbn [fst snd body].
  split; [reflexivity|]. split; [exact Hcreated|]. split; [exact Hupdated|].
  split; [|split; [|split]].
  - intros c' Hparam. simpl in Hparam.
    rewrite (GetUser_found c' _ (ID user) (bson.stored user)); [reflexivity| |].
    + rewrite Hparam. apply ObjectIDFromHex_Hex. now rewrite Hid.
    + rewrite FindOne_on_disk.
      rewrite (FindOne_split (by_id (ID user)) db [] user); [reflexivity| |].
      * apply fresh_id_not_found. now rewrite Hid.
      * apply N.eqb_refl.
  - simpl. now rewrite Hcreated.
  - simpl. now rewrite Hupdated.
  - rewrite <- DateTime_keeps_iff. split.
    + intros H. apply (f_equal resp_CreatedAt) in H. simpl in H.
      now rewrite Hcreated in H.
    + intros H. unfold bson.read_back, ToResponse. simpl.
      rewrite Hlast, Hcreated, Hupdated, H. reflexivity.
Qed.

(** Logging in after registering: when [Register] answers 201, the hasher's
    digest verifies the password it was made from, and the token service
    delivers, a login with the registered email and password is answered 200,
    for an account with the registered role. *)
Theorem Register_then_Login (c : Context RegisterRequest) (e e' : Env)
  (db : Collection) (req : RegisterRequest) (cl : Context LoginRequest) :
  ShouldBindJSON c = inr req ->
  code (fst (handlers.Register HashPassword c e db)) = http.StatusCreated ->
  (forall hashed,
     HashPassword (entropy e) (reg_Password req) = Some hashed ->
     CheckPassword (reg_Password req) hashed = true) ->
  (forall user, exists token,
     GenerateToken e' user (config.JWTSecret (cfg e'))
       (config.JWTExpirationHours (cfg e')) = Some token) ->
  ShouldBindJSON cl = inr (mkLoginRequest (reg_Email req) (reg_Password req)) ->
  exists token account,
    fst (handlers.Login CheckPassword GenerateToken cl e'
           (snd (handlers.Register HashPassword c e db)))
    = JSON http.StatusOK (LoginResponse token account) /\
    resp_Email account = reg_Email req /\
    resp_Role account = reg_Role req /\
    resp_LastLogin account = Some (now e').
Proof.
  intros Hbind Hok Hverify Htoken Hlogin.
  destruct (Register_appends HashPassword c e db Hok)
    as (req' & hashed & user & Hbind' & Hhash & Hsnd & _ & _ & Hnone
        & Hemail & Hpw & Hrole & Hstatus).
  assert (req' = req) by congruence. subst req'.
  destruct (Htoken (set_last_login (now e') user)) as [token Htok].
  exists token, (ToResponse (set_last_login (now e') user)).
  rewrite Hsnd.
  rewrite (Login_past_checks CheckPassword GenerateToken cl e' (db ++ [user])
             (mkLoginRequest (reg_Email req) (reg_Password req)) user Hlogin).
  - rewrite Htok. simpl. repeat split; assumption.
  - simpl. apply FindOne_split.
    + apply FindOne_none in Hnone.
      eapply List.Forall_impl; [|exact Hnone]. intros x Hx.
      apply by_email_or_username_false in Hx. apply by_email_false.
      rewrite Hemail in Hx. tauto.
    + unfold by_email. rewrite Hemail. apply String.eqb_refl.
  - simpl. rewrite Hpw. now apply Hverify.
  - exact Hstatus.
Qed.

(** Reading back an update: after [UpdateUser] answers 200, [GetUser] on
    the same path parameter answers 200 with the account [UpdateUser] sent,
    its times cut to the millisecond.  The answer of [UpdateUser] carries the
    instant of the request as [updated_at]; on a collection read from disk
    the two bodies are equal only when that instant is a whole
    millisecond. *)
Theorem UpdateUser_then_GetUser (c : Context UpdateUserRequest) (e : Env)
  (db : Collection) (c' : Context unit) :
  code (fst (UpdateUser c e db)) = http.StatusOK ->
  Param_id c' = Param_id c ->
  exists sent,
    body (fst (UpdateUser c e db)) = UserJSON sent /\
    resp_UpdatedAt sent = now e /\
    fst (readers.GetUser c' (bson.on_disk (snd (UpdateUser c e db))))
    = JSON http.StatusOK (UserJSON (bson.read_back sent)) /\
    resp_UpdatedAt (bson.read_back sent) = bson.DateTime (now e) /\
    (bson.on_disk db = db ->
     (bson.read_back sent = sent <-> now e mod bson.Millisecond = 0)).
Proof.
  intros Hok Hparam.
  destruct (UpdateUser_success c e db Hok)
    as (req & tid & target & before & after
        & _ & Hhex & _ & Hdb & Hid & Hne & Hrun).
  exists (ToResponse (policy.partial_update req target (now e))).
  rewrite Hrun. cbn [fst snd body].
  split; [reflexivity|]. split; [reflexivity|]. split; [|split; [reflexivity|]].
  - rewrite (GetUser_found c' _ tid
               (bson.stored (policy.partial_update req target (now e))));
      [reflexivity | now rewrite Hparam |].
    rewrite FindOne_on_disk, FindOne_split; [reflexivity| |].
    + eapply List.Forall_impl; [|exact Hne]. intros x Hx. now apply by_id_false.
    + apply by_id_true. exact Hid.
  - intros Hdisk. rewrite <- DateTime_keeps_iff.
    assert (Hkept : bson.stored target = target).
    { apply (on_disk_keeps db); [exact Hdisk|].
      rewrite Hdb. apply in_or_app. right. left. reflexivity. }
    assert (Hlast : option_map bson.DateTime (LastLogin target) = LastLogin target)
      by exact (f_equal LastLogin Hkept).
    assert (Hcreated : bson.DateTime (CreatedAt target) = CreatedAt target)
      by exact (f_equal CreatedAt Hkept).
    split.
    + intros H. exact (f_equal resp_UpdatedAt H).
    + intros H. unfold bson.read_back, ToResponse, policy.partial_update. simpl.
      rewrite Hlast, Hcreated, H. reflexivity.
Qed.

(** Reading back a delete: with unique identifiers, after [DeleteUser]
    answers 204 the deleted identifier is answered 404 by [GetUser], and
    every other identifier finds what it found before. *)
Theorem DeleteUser_then_GetUser (c : Context unit) (e : Env) (db : Collection)
  (c' : Context unit) :
  List.NoDup (map ID db) ->
  code (fst (DeleteUser c e db)) = http.StatusNoContent ->
  (Param_id c' = Param_id c ->
   code (fst (readers.GetUser c' (snd (DeleteUser c e db)))) = http.StatusNotFound) /\
  (forall tid id,
     primitive.ObjectIDFromHex (Param_id c) = Some tid -> id <> tid ->
     FindOne (by_id id) (snd (DeleteUser c e db)) = FindOne (by_id id) db).
Proof.
  intros Hnodup Hok.
  destruct (DeleteUser_collection_after c e db) as [Hsame | (tid & Hhex & _ & Hsnd)].
  - exfalso. revert Hok Hsame. open_handler handlers.DeleteUser; unfold DeleteOne.
    repeat step; try discriminate. intros _ Hsame.
    match goal with
    | Hp : primitive.ObjectIDFromHex _ = Some ?tid,
      Hf : FindOne (by_id ?tid) db = Some ?u |- _ =>
        pose proof (FindOne_after_delete_first tid db Hnodup) as Hgone;
        rewrite Hsame, Hf in Hgone; discriminate Hgone
    end.
  - rewrite Hsnd. split.
    + intros Hparam.
      rewrite (GetUser_missing c' _ tid); [reflexivity | now rewrite Hparam |].
      now apply FindOne_after_delete_first.
    + intros tid' id Hhex' Hne. assert (tid' = tid) by congruence. subst tid'.
      now apply FindOne_other_after_delete_first.
Qed.

End ReadBack.

(* ===================================================================== *)
(** ** Requests without a target or without an actor *)
(* ===================================================================== *)

(** A delete of an identifier nobody has is answered 404 before the handler
    looks for the actor: the answer is the same with no [userID] in the
    context, with a malformed one, or with any account behind it, and nothing
    is removed. *)
Theorem DeleteUser_missing_target_is_not_found (c : Context unit) (e : Env)
  (db : Collection) (tid : primitive.ObjectID) :
  primitive.ObjectIDFromHex (Param_id c) = Some tid ->
  ~ In tid (map ID db) ->
  DeleteUser c e db
  = (JSON http.StatusNotFound (ErrorResponse "User not found"), db).
Proof.
  intros Hparam Hfresh.
  assert (Hnone : FindOne (by_id tid) db = None)
    by (apply FindOne_none; now apply fresh_id_not_found).
  open_handler handlers.DeleteUser.
  rewrite Hparam; simpl. rewrite Hnone; simpl. reflexivity.
Qed.

Section ActorGone.

Variable HashPassword : string -> string -> option string.

(** An actor whose account is no longer stored cannot manage users: when
    the [userID] of the context is a well-formed identifier that no stored
    account has, [CreateUser], [UpdateUser] and [DeleteUser] answer 500 and
    write nothing, whatever the request asks for. *)
Theorem actor_without_account_is_refused
  (cc : Context RegisterRequest) (cu : Context UpdateUserRequest)
  (cd : Context unit) (e : Env) (db : Collection)
  (hex : string) (id : primitive.ObjectID) :
  primitive.ObjectIDFromHex hex = Some id ->
  ~ In id (map ID db) ->
  (Get_userID cc = Some hex ->
   code (fst (handlers.CreateUser HashPassword cc e db)) <> http.StatusCreated /\
   snd (handlers.CreateUser HashPassword cc e db) = db /\
   (forall req, ShouldBindJSON cc = inr req ->
      code (fst (handlers.CreateUser HashPassword cc e db))
      = http.StatusInternalServerError)) /\
  (Get_userID cu = Some hex ->
   code (fst (UpdateUser cu e db)) <> http.StatusOK /\
   snd (UpdateUser cu e db) = db) /\
  (Get_userID cd = Some hex ->
   code (fst (DeleteUser cd e db)) <> http.StatusNoContent /\
   snd (DeleteUser cd e db) = db).
Proof.
  intros Hhex Hfresh.
  assert (Hnone : FindOne (by_id id) db = None)
    by (apply FindOne_none; now apply fresh_id_not_found).
  split; [|split]; intros Hget.
  - assert (Hcode : code (fst (handlers.CreateUser HashPassword cc e db))
                    <> http.StatusCreated).
    { open_handler handlers.CreateUser.
      destruct (ShouldBindJSON cc); simpl; [discriminate|].
      rewrite Hget; simpl. rewrite Hhex; simpl. rewrite Hnone; simpl.
      discriminate. }
    split; [exact Hcode|]. split; [now apply CreateUser_failure_keeps|].
    intros req Hbind. open_handler handlers.CreateUser.
    rewrite Hbind, Hget; simpl. rewrite Hhex; simpl. rewrite Hnone; simpl.
    reflexivity.
  - assert (Hcode : code (fst (UpdateUser cu e db)) <> http.StatusOK).
    { open_handler handlers.UpdateUser.
      destruct (primitive.ObjectIDFromHex (Param_id cu)); simpl; [|discriminate].
      destruct (ShouldBindJSON cu); simpl; [discriminate|].
      rewrite Hget; simpl. rewrite Hhex; simpl. rewrite Hnone; simpl.
      discriminate. }
    split; [exact Hcode | now apply UpdateUser_failure_keeps].
  - assert (Hcode : code (fst (DeleteUser cd e db)) <> http.StatusNoContent).
    { open_handler handlers.DeleteUser.
      destruct (primitive.ObjectIDFromHex (Param_id cd)) as [tid|]; simpl;
        [|discriminate].
      destruct (FindOne (by_id tid) db); simpl; [|discriminate].
      rewrite Hget; simpl. rewrite Hhex; simpl. rewrite Hnone; simpl.
      discriminate. }
    split; [exact Hcode | now apply DeleteUser_failure_keeps].
Qed.

(** Without a [userID] in the context the three handlers answer 401 once
    the request itself is well formed, and write nothing; [DeleteUser] does
    so only for a target that exists. *)
Lemma missing_userID_is_unauthorized
  (cc : Context RegisterRequest) (cu : Context UpdateUserRequest)
  (cd : Context unit) (e : Env) (db : Collection)
  (creq : RegisterRequest) (ureq : UpdateUserRequest)
  (uid did : primitive.ObjectID) (target : User) :
  Get_userID cc = None -> Get_userID cu = None -> Get_userID cd = None ->
  ShouldBindJSON cc = inr creq ->
  ShouldBindJSON cu = inr ureq ->
  primitive.ObjectIDFromHex (Param_id cu) = Some uid ->
  primitive.ObjectIDFromHex (Param_id cd) = Some did ->
  FindOne (by_id did) db = Some target ->
  handlers.CreateUser HashPassword cc e db
    = (JSON http.StatusUnauthorized (ErrorResponse "Unauthorized"), db) /\
  UpdateUser cu e db
    = (JSON http.StatusUnauthorized (ErrorResponse "Unauthorized"), db) /\
  DeleteUser cd e db
    = (JSON http.StatusUnauthorized (ErrorResponse "Unauthorized"), db).
Proof.
  intros Hc Hu Hd Hbc Hbu Hpu Hpd Ht. split; [|split].
  - open_handler handlers.CreateUser. rewrite Hbc, Hc. reflexivity.
  - open_handler handlers.UpdateUser. rewrite Hpu; simpl. rewrite Hbu, Hu.
    reflexivity.
  - open_handler handlers.DeleteUser. rewrite Hpd; simpl. rewrite Ht; simpl.
    rewrite Hd. reflexivity.
Qed.

End ActorGone.

(* ===================================================================== *)
(** ** The profile and its permission summary *)
(* ===================================================================== *)

(** The permission summary over all role strings: managing users is granted
    to admin and manager only, managing roles and the system to admin only,
    and a role outside the three named ones gets no access entry at all and
    is displayed as the raw role string. *)
Theorem getRolePermissions_by_role (role : UserRole) :
  (readers.CanManageUsers (readers.getRolePermissions role) = true <->
   role = RoleAdmin \/ role = RoleManager) /\
  (readers.CanManageRoles (readers.getRolePermissions role) = true <->
   role = RoleAdmin) /\
  (readers.CanManageSystem (readers.getRolePermissions role) = true <->
   role = RoleAdmin) /\
  (readers.AccessPermissions (readers.getRolePermissions role) = [] <->
   role <> RoleAdmin /\ role <> RoleManager /\ role <> RoleStaff) /\
  (readers.getRoleDisplay role = role <->
   role <> RoleAdmin /\ role <> RoleManager /\ role <> RoleStaff).
Proof.
  unfold readers.getRolePermissions, readers.getRoleDisplay.
  destruct (String.eqb role RoleAdmin) eqn:Ha;
    [apply String.eqb_eq in Ha; subst role; simpl;
     repeat split; intros; try tauto; try discriminate; intuition discriminate|].
  destruct (String.eqb role RoleManager) eqn:Hm;
    [apply String.eqb_eq in Hm; subst role; simpl;
     repeat split; intros; try tauto; try discriminate; intuition discriminate|].
  destruct (String.eqb role RoleStaff) eqn:Hs;
    [apply String.eqb_eq in Hs; subst role; simpl;
     repeat split; intros; try tauto; try discriminate; intuition discriminate|].
  apply String.eqb_neq in Ha, Hm, Hs. simpl.
  repeat split; intros; try tauto; try discriminate; intuition discriminate.
Qed.

Section SummaryAndChecks.

Variable HashPassword : string -> string -> option string.

(** The summary and the permission checks agree on creation and update: a
    request to create a staff account is refused (403) exactly for actors
    whose summary denies managing users, and a patch that names a role for a
    staff target is refused exactly for actors whose summary denies managing
    roles. *)
Theorem permission_summary_matches_checks
  (cc : Context RegisterRequest) (cu : Context UpdateUserRequest)
  (e : Env) (db : Collection)
  (creq : RegisterRequest) (creator : User)
  (ureq : UpdateUserRequest) (tid : primitive.ObjectID) (actor target : User) :
  policy.create_reaches_check cc db creq creator ->
  policy.update_reaches_check cu db ureq tid actor target ->
  reg_Role creq = RoleStaff ->
  Role target = RoleStaff ->
  upd_Role ureq <> EmptyString ->
  (code (fst (handlers.CreateUser HashPassword cc e db)) = http.StatusForbidden <->
   readers.CanManageUsers (readers.getRolePermissions (Role creator)) = false) /\
  (code (fst (UpdateUser cu e db)) = http.StatusForbidden <->
   readers.CanManageRoles (readers.getRolePermissions (Role actor)) = false).
Proof.
  intros (Hbind & hex & id & Hget & Hhex & Hactor) Hupdate Hcr Htr Hur. split.
  - open_handler handlers.CreateUser. unfold InsertOne.
    rewrite Hbind, Hget; simpl. rewrite Hhex; simpl. rewrite Hactor; simpl.
    rewrite Hcr. unfold readers.getRolePermissions.
    destruct (String.eqb (Role creator) RoleAdmin); simpl;
      [|destruct (String.eqb (Role creator) RoleManager); simpl].
    1,2: repeat step; split; intros H; discriminate H.
    destruct (String.eqb (Role creator) RoleStaff); simpl; split; reflexivity.
  - destruct (UpdateUser_forbidden_iff cu e db ureq tid actor target Hupdate)
      as [Hiff _].
    rewrite Hiff, Htr. unfold policy.update_denied, readers.getRolePermissions.
    apply String.eqb_neq in Hur. rewrite Hur. simpl.
    destruct (String.eqb (Role actor) RoleAdmin); simpl;
      [split; intros H; discriminate H|].
    destruct (String.eqb (Role actor) RoleManager); simpl; [split; reflexivity|].
    destruct (String.eqb (Role actor) RoleStaff); simpl; split; reflexivity.
Qed.

End SummaryAndChecks.

Section ProfileProperties.

Variable FormatDate : Time -> string.

Local Abbreviation GetProfile := (readers.GetProfile FormatDate).

(** How [GetProfile] ends, by what the context holds under [user_id]:
    nothing, and the handler panics; a string that is not 24 hexadecimal
    digits, 400; an identifier no stored account has, 500; the identifier of
    a stored account, 200. *)
Theorem GetProfile_outcome_by_context (user_id : option string)
  (now1 now2 now3 : Time) (db : Collection) :
  ((exists reason, GetProfile user_id now1 now2 now3 db = readers.Panic reason) <->
   user_id = None) /\
  ((exists msg, GetProfile user_id now1 now2 now3 db
                = readers.Refusal http.StatusBadRequest msg) <->
   exists s, user_id = Some s /\ primitive.ObjectIDFromHex s = None) /\
  ((exists msg, GetProfile user_id now1 now2 now3 db
                = readers.Refusal http.StatusInternalServerError msg) <->
   exists s id, user_id = Some s /\ primitive.ObjectIDFromHex s = Some id /\
                FindOne (by_id id) db = None) /\
  ((exists p, GetProfile user_id now1 now2 now3 db = readers.Answer http.StatusOK p) <->
   exists s id user, user_id = Some s /\ primitive.ObjectIDFromHex s = Some id /\
                     FindOne (by_id id) db = Some user).
Proof.
  unfold readers.GetProfile.
  destruct user_id as [s|];
    [destruct (primitive.ObjectIDFromHex s) as [id|] eqn:Hhex;
     [destruct (FindOne (by_id id) db) as [user|] eqn:Hfound|]|].
  all: split; [|split; [|split]].
  all: split;
    [ intros [x H];
      first [ discriminate H
            | injection H; intros; congruence
            | eauto 10 ]
    | intros H;
      first [ eexists; reflexivity
            | exfalso; decompose [ex and] H; congruence ] ].
Qed.

(** A profile shows the stored account: when [GetProfile] answers 200 for
    the identifier [s], [GetUser] on the path parameter [s] and the same
    collection answers 200 with exactly the account fields of the profile;
    the permission summary and the display name are those of the stored
    role.  Each of the three activities is stamped from a reading of the
    clock of its own: two hours before the first reading, twenty-four before
    the second, forty-eight before the third; they lie exactly 2, 24 and 48
    hours before one instant only when the three readings coincide. *)
Theorem GetProfile_agrees_with_GetUser (s : string) (now1 now2 now3 : Time)
  (db : Collection) (p : readers.ProfileResponse) (c : Context unit) :
  GetProfile (Some s) now1 now2 now3 db = readers.Answer http.StatusOK p ->
  Param_id c = s ->
  readers.GetUser c db
    = (JSON http.StatusOK (UserJSON (readers.account_of_profile p)), db) /\
  readers.profile_Permissions p = readers.getRolePermissions (readers.profile_Role p) /\
  readers.profile_RoleDisplay p = readers.getRoleDisplay (readers.profile_Role p) /\
  map readers.activity_Timestamp (readers.profile_RecentActivities p)
    = [now1 - 2 * readers.Hour; now2 - 24 * readers.Hour; now3 - 48 * readers.Hour] /\
  (forall t,
     map readers.activity_Timestamp (readers.profile_RecentActivities p)
     = [t - 2 * readers.Hour; t - 24 * readers.Hour; t - 48 * readers.Hour]
     <-> now1 = t /\ now2 = t /\ now3 = t).
Proof.
  unfold readers.GetProfile. intros Hrun Hparam.
  destruct (primitive.ObjectIDFromHex s) as [id|] eqn:Hhex; [|discriminate Hrun].
  destruct (FindOne (by_id id) db) as [user|] eqn:Hfound; [|discriminate Hrun].
  injection Hrun as <-.
  split; [|split; [reflexivity|split; [reflexivity|split]]].
  - rewrite (GetUser_found c db id user); [reflexivity | now rewrite Hparam | exact Hfound].
  - cbn [readers.profile_RecentActivities map readers.activity_Timestamp].
    repeat f_equal; lia.
  - intros t.
    cbn [readers.profile_RecentActivities map readers.activity_Timestamp].
    split.
    + intros H. injection H as H1 H2 H3. repeat split; lia.
    + intros (-> & -> & ->). repeat f_equal; lia.
Qed.

End ProfileProperties.

(* ===================================================================== *)
(** ** Query parameters: strconv.Atoi and parseIntParam *)
(* ===================================================================== *)

Lemma digit_char_is_digit (d : Z) :
  0 <= d < 10 ->
  strconv.is_digit (strconv.digit_char d) = true /\
  strconv.digit_value (strconv.digit_char d) = d.
Proof.
  intros H. assert (Hd : d = Z.of_nat (Z.to_nat d)) by lia.
  assert (Hn : (Z.to_nat d < 10)%nat) by lia.
  rewrite Hd. clear H Hd. generalize dependent (Z.to_nat d). intros n Hn.
  do 10 (destruct n as [|n]; [split; reflexivity|]). lia.
Qed.

(** Reading the digits that [utoa] wrote gives the number back, shifted
    into whatever was read before. *)
Lemma digits_utoa (fuel : nat) :
  forall (n : Z) (acc : string),
    0 <= n < 10 ^ Z.of_nat fuel ->
    exists k, 0 <= k /\
      forall a, strconv.digits (strconv.utoa fuel n acc) a
                = strconv.digits acc (a * 10 ^ k + n).
Proof.
  induction fuel as [|fuel IH]; intros n acc Hn.
  - simpl in Hn. exists 0. split; [lia|]. intros a. simpl. f_equal. lia.
  - cbn [strconv.utoa]. destruct (n <? 10) eqn:Hsmall.
    + apply Z.ltb_lt in Hsmall. exists 1. split; [lia|]. intros a.
      cbn [strconv.digits].
      destruct (digit_char_is_digit n ltac:(lia)) as [-> ->]. f_equal. lia.
    + apply Z.ltb_ge in Hsmall.
      rewrite Nat2Z.inj_succ, Z.pow_succ_r in Hn by lia.
      destruct (IH (n / 10) (String (strconv.digit_char (n mod 10)) acc))
        as (k & Hk & Hread).
      { split; [apply Z.div_pos; lia | apply Z.div_lt_upper_bound; lia]. }
      exists (k + 1). split; [lia|]. intros a. rewrite Hread.
      cbn [strconv.digits].
      destruct (digit_char_is_digit (n mod 10)) as [-> ->];
        [apply Z.mod_pos_bound; lia|].
      f_equal. rewrite Z.pow_add_r by lia.
      pose proof (Z.div_mod n 10 ltac:(lia)). lia.
Qed.

Lemma utoa_starts_with_digit (fuel : nat) :
  forall (n : Z) (acc : string),
    0 <= n ->
    exists c rest,
      strconv.utoa (S fuel) n acc = String c rest /\ strconv.is_digit c = true.
Proof.
  induction fuel as [|fuel IH]; intros n acc Hn; cbn [strconv.utoa].
  - destruct (n <? 10) eqn:Hsmall.
    + apply Z.ltb_lt in Hsmall. do 2 eexists. split; [reflexivity|].
      now apply digit_char_is_digit.
    + do 2 eexists. split; [reflexivity|].
      apply digit_char_is_digit. apply Z.mod_pos_bound. lia.
  - destruct (n <? 10) eqn:Hsmall.
    + apply Z.ltb_lt in Hsmall. do 2 eexists. split; [reflexivity|].
      now apply digit_char_is_digit.
    + apply Z.ltb_ge in Hsmall. apply IH. apply Z.div_pos; lia.
Qed.

(** On a string that starts with a digit, [Atoi] reads no sign. *)
Lemma Atoi_unsigned (c : ascii) (rest : string) :
  strconv.is_digit c = true ->
  strconv.Atoi (String c rest)
  = match strconv.digits (String c rest) 0 with
    | None => None
    | Some v =>
        if (goint.MinInt64 <=? v) && (v <=? goint.MaxInt64) then Some v else None
    end.
Proof.
  destruct c as [b0 b1 b2 b3 b4 b5 b6 b7].
  destruct b0, b1, b2, b3, b4, b5, b6, b7; intros H;
    first [discriminate H | reflexivity].
Qed.

Lemma Atoi_Itoa (n : Z) :
  goint.MinInt64 <= n <= goint.MaxInt64 ->
  strconv.Atoi (strconv.Itoa n) = Some n.
Proof.
  intros Hrange. unfold strconv.Itoa.
  assert (Hpow : 10 ^ Z.of_nat 19 = 10000000000000000000) by reflexivity.
  unfold goint.MinInt64, goint.MaxInt64 in Hrange.
  destruct (n <? 0) eqn:Hneg.
  - apply Z.ltb_lt in Hneg.
    destruct (digits_utoa 19 (- n) EmptyString ltac:(lia)) as (k & _ & Hread).
    destruct (utoa_starts_with_digit 18 (- n) EmptyString ltac:(lia))
      as (c & rest & Heq & _).
    unfold strconv.Atoi. rewrite Heq, <- Heq, Hread. cbn [strconv.digits].
    replace (0 * 10 ^ k + - n) with (- n) by lia. rewrite Z.opp_involutive.
    unfold goint.MinInt64, goint.MaxInt64.
    destruct (Z.leb_spec (- 2 ^ 63) n); [|lia].
    destruct (Z.leb_spec n (2 ^ 63 - 1)); [reflexivity | lia].
  - apply Z.ltb_ge in Hneg.
    destruct (digits_utoa 19 n EmptyString ltac:(lia)) as (k & _ & Hread).
    destruct (utoa_starts_with_digit 18 n EmptyString ltac:(lia))
      as (c & rest & Heq & Hc).
    rewrite Heq, (Atoi_unsigned c rest Hc), <- Heq, Hread. cbn [strconv.digits].
    replace (0 * 10 ^ k + n) with n by lia.
    unfold goint.MinInt64, goint.MaxInt64.
    destruct (Z.leb_spec (- 2 ^ 63) n); [|lia].
    destruct (Z.leb_spec n (2 ^ 63 - 1)); [reflexivity | lia].
Qed.

Lemma Itoa_not_empty (n : Z) :
  goint.MinInt64 <= n <= goint.MaxInt64 ->
  String.eqb (strconv.Itoa n) EmptyString = false.
Proof.
  intros Hrange. apply String.eqb_neq. intros Hempty.
  pose proof (Atoi_Itoa n Hrange) as H. rewrite Hempty in H. discriminate H.
Qed.

Lemma digits_stops_at_other (p : string) :
  forall (c : ascii) (q : string) (a : Z),
    strconv.is_digit c = false ->
    strconv.digits (p ++ String c q) a = None.
Proof.
  induction p as [|d p IH]; intros c q a Hc; simpl.
  - now rewrite Hc.
  - destruct (strconv.is_digit d); [now apply IH | reflexivity].
Qed.

Lemma Atoi_in_range (s : string) (n : Z) :
  strconv.Atoi s = Some n -> goint.MinInt64 <= n <= goint.MaxInt64.
Proof.
  unfold strconv.Atoi.
  destruct (match s with
            | String "-"%char rest => (true, rest)
            | String "+"%char rest => (false, rest)
            | _ => (false, s)
            end) as [negative body].
  destruct body; [discriminate|].
  destruct (strconv.digits _ 0) as [v|]; [|discriminate].
  destruct ((goint.MinInt64 <=? _) && (_ <=? goint.MaxInt64)) eqn:Hr;
    [|discriminate].
  intros [= <-]. apply andb_true_iff in Hr as [H1 H2].
  apply Z.leb_le in H1, H2. lia.
Qed.

(** A query parameter written in decimal comes back as the number it
    spells, over the whole range of [int], zero and negative numbers
    included; the result of [parseIntParam] is always within that range when
    the default is. *)
Theorem parseIntParam_round_trip (n defaultValue : Z) :
  goint.MinInt64 <= n <= goint.MaxInt64 ->
  readers.parseIntParam (strconv.Itoa n) defaultValue = n /\
  (forall param,
     goint.MinInt64 <= defaultValue <= goint.MaxInt64 ->
     goint.MinInt64 <= readers.parseIntParam param defaultValue <= goint.MaxInt64).
Proof.
  intros Hrange. split.
  - unfold readers.parseIntParam. rewrite (Atoi_Itoa n Hrange).
    destruct (String.eqb (strconv.Itoa n) EmptyString) eqn:Hempty; [|reflexivity].
    apply String.eqb_eq in Hempty. pose proof (Atoi_Itoa n Hrange) as H.
    rewrite Hempty in H. discriminate H.
  - intros param Hd. unfold readers.parseIntParam.
    destruct (String.eqb param EmptyString); [exact Hd|].
    destruct (strconv.Atoi param) as [v|] eqn:Hv; [|exact Hd].
    now apply Atoi_in_range in Hv.
Qed.

(** A parameter that is empty, a bare sign, or has a byte other than a
    decimal digit anywhere past its first position (or at its first position,
    unless that byte is a sign) gives the default. *)
Theorem parseIntParam_falls_back (defaultValue : Z) :
  readers.parseIntParam EmptyString defaultValue = defaultValue /\
  readers.parseIntParam "-" defaultValue = defaultValue /\
  readers.parseIntParam "+" defaultValue = defaultValue /\
  (forall (first c : ascii) (p q : string),
     strconv.is_digit c = false ->
     readers.parseIntParam (String first (p ++ String c q)) defaultValue
     = defaultValue) /\
  (forall (c : ascii) (q : string),
     strconv.is_digit c = false -> c <> "-"%char -> c <> "+"%char ->
     readers.parseIntParam (String c q) defaultValue = defaultValue).
Proof.
  split; [reflexivity|]. split; [reflexivity|]. split; [reflexivity|]. split.
  - intros first c p q Hc. unfold readers.parseIntParam.
    cbn [String.eqb]. 
    assert (Hbody : strconv.digits (p ++ String c q) 0 = None)
      by now apply digits_stops_at_other.
    assert (Hwhole : strconv.digits (String first (p ++ String c q)) 0 = None).
    { cbn [strconv.digits]. destruct (strconv.is_digit first); [|reflexivity].
      now apply digits_stops_at_other. }
    assert (Hatoi : strconv.Atoi (String first (p ++ String c q)) = None).
    { unfold strconv.Atoi.
      destruct (Ascii.eqb first "-"%char) eqn:Hm;
        [apply Ascii.eqb_eq in Hm; subst first; rewrite Hbody;
         destruct p; reflexivity|].
      destruct (Ascii.eqb first "+"%char) eqn:Hp;
        [apply Ascii.eqb_eq in Hp; subst first; rewrite Hbody;
         destruct p; reflexivity|].
      replace (match String first (p ++ String c q) with
               | String "-"%char rest => (true, rest)
               | String "+"%char rest => (false, rest)
               | _ => (false, String first (p ++ String c q))
               end) with (false, String first (p ++ String c q)).
      - now rewrite Hwhole.
      - destruct first as [b0 b1 b2 b3 b4 b5 b6 b7].
        destruct b0, b1, b2, b3, b4, b5, b6, b7;
          first [reflexivity | discriminate Hm | discriminate Hp]. }
    now rewrite Hatoi.
  - intros c q Hc Hm Hp. unfold readers.parseIntParam. cbn [String.eqb].
    assert (Hatoi : strconv.Atoi (String c q) = None).
    { unfold strconv.Atoi.
      replace (match String c q with
               | String "-"%char rest => (true, rest)
               | String "+"%char rest => (false, rest)
               | _ => (false, String c q)
               end) with (false, String c q).
      - cbn [strconv.digits]. now rewrite Hc.
      - destruct c as [b0 b1 b2 b3 b4 b5 b6 b7].
        destruct b0, b1, b2, b3, b4, b5, b6, b7;
          first [reflexivity | now elim Hm | now elim Hp]. }
    now rewrite Hatoi.
Qed.

(* ===================================================================== *)
(** ** The user list and its page arithmetic *)
(* ===================================================================== *)

Lemma wrap_in_range (z : Z) :
  goint.MinInt64 <= z <= goint.MaxInt64 -> goint.wrap z = z.
Proof.
  unfold goint.wrap, goint.MinInt64, goint.MaxInt64. intros H.
  rewrite Z.mod_small; lia.
Qed.

Section UserList.

Variable regex : string -> option (string -> bool).
Variable Find : (User -> bool) -> Z -> Z -> Collection -> option (list User).

Local Abbreviation GetUsers := (readers.GetUsers regex Find).
Local Abbreviation users_filter := (readers.users_filter regex).

(** [GetUsers] panics exactly on a limit of zero: when the [limit]
    parameter parses to 0 and both the count and the read succeed, the page
    count divides by zero; for any other limit the handler answers. *)
Theorem GetUsers_panics_iff_limit_zero (q : readers.ListQuery) (db : Collection) :
  (exists reason, GetUsers q db = readers.Panic reason) <->
  readers.parseIntParam (readers.Query_limit q) 10 = 0 /\
  exists filter users,
    users_filter (readers.Query_search q) (readers.Query_role q)
      (readers.Query_status q) = Some filter /\
    Find filter 0 0 db = Some users.
Proof.
  unfold readers.GetUsers, goint.div.
  set (limit := readers.parseIntParam (readers.Query_limit q) 10).
  set (page := readers.parseIntParam (readers.Query_page q) 1).
  destruct (users_filter _ _ _) as [filter|] eqn:Hfilter.
  2: { split; [intros [? H]; discriminate H
              | intros [_ (? & ? & H & _)]; discriminate H]. }
  destruct (Z.eqb_spec limit 0) as [Hzero | Hnonzero].
  - rewrite Hzero.
    replace (goint.mul (goint.sub page 1) 0) with 0
      by (unfold goint.mul; rewrite Z.mul_0_r; reflexivity).
    destruct (Find filter 0 0 db) as [users|] eqn:Hfind.
    + split; [intros _ | intros _; eexists; reflexivity].
      split; [reflexivity|]. exists filter, users. now split.
    + split; [intros [? H]; discriminate H|].
      intros [_ (f & us & Hf & Hus)]. congruence.
  - destruct (Find filter _ limit db); split;
      try (intros [? H]; discriminate H); intros [H _]; contradiction.
Qed.

(** For a positive limit the page count is the ceiling of total over limit:
    the pages hold all matching accounts and the last page is not empty.  The
    total counts every account of the collection that passes the filter,
    whatever the page. *)
Theorem GetUsers_page_count_is_ceiling (q : readers.ListQuery) (db : Collection)
  (p : readers.PaginatedResponse) :
  GetUsers q db = readers.Answer http.StatusOK p ->
  0 < readers.Limit p ->
  readers.Total p + readers.Limit p <= goint.MaxInt64 ->
  readers.Limit p = readers.parseIntParam (readers.Query_limit q) 10 /\
  (exists filter,
     users_filter (readers.Query_search q) (readers.Query_role q)
       (readers.Query_status q) = Some filter /\
     readers.Total p = Z.of_nat (length (List.filter filter db))) /\
  readers.Total p <= readers.TotalPages p * readers.Limit p /\
  (readers.TotalPages p - 1) * readers.Limit p < readers.Total p.
Proof.
  unfold readers.GetUsers, goint.div.
  set (limit := readers.parseIntParam (readers.Query_limit q) 10).
  destruct (users_filter _ _ _) as [filter|]; [|discriminate].
  set (total := Z.of_nat (length (List.filter filter db))).
  destruct (Find filter _ limit db) as [users|]; [|discriminate].
  destruct (Z.eqb_spec limit 0); [discriminate|].
  intros [= <-]. cbn [readers.Limit readers.Total readers.TotalPages].
  intros Hpos Hfit.
  assert (Htotal : 0 <= total) by (unfold total; lia).
  unfold goint.MaxInt64 in Hfit.
  unfold goint.add, goint.sub.
  rewrite (wrap_in_range (total + limit))
    by (unfold goint.MinInt64, goint.MaxInt64; lia).
  rewrite (wrap_in_range (total + limit - 1))
    by (unfold goint.MinInt64, goint.MaxInt64; lia).
  rewrite Z.quot_div_nonneg by lia.
  assert (Hq : 0 <= (total + limit - 1) / limit <= total + limit - 1).
  { split; [apply Z.div_pos; lia|].
    apply Z.div_le_upper_bound; [lia|]. nia. }
  rewrite wrap_in_range by (unfold goint.MinInt64, goint.MaxInt64; lia).
  split; [reflexivity|]. split; [exists filter; split; reflexivity|].
  pose proof (Z.div_mod (total + limit - 1) limit ltac:(lia)) as Hdm.
  pose proof (Z.mod_pos_bound (total + limit - 1) limit ltac:(lia)) as Hmod.
  split; nia.
Qed.

(** Without [page] and [limit] parameters, or with unparsable ones, the
    list is read from the start in pages of ten. *)
Theorem GetUsers_defaults (q : readers.ListQuery) (db : Collection)
  (filter : User -> bool) :
  strconv.Atoi (readers.Query_page q) = None ->
  strconv.Atoi (readers.Query_limit q) = None ->
  users_filter (readers.Query_search q) (readers.Query_role q)
    (readers.Query_status q) = Some filter ->
  Z.of_nat (length db) + 10 <= goint.MaxInt64 ->
  GetUsers q db
  = match Find filter 0 10 db with
    | None => readers.Refusal http.StatusInternalServerError "Failed to fetch users"
    | Some users =>
        readers.Answer http.StatusOK
          {| readers.Data := map ToResponse users;
             readers.Total := Z.of_nat (length (List.filter filter db));
             readers.Page := 1;
             readers.Limit := 10;
             readers.TotalPages :=
               (Z.of_nat (length (List.filter filter db)) + 9) / 10 |}
    end.
Proof.
  intros Hpage Hlimit Hfilter Hfit.
  assert (Hp : readers.parseIntParam (readers.Query_page q) 1 = 1).
  { unfold readers.parseIntParam. rewrite Hpage. now destruct (String.eqb _ _). }
  assert (Hl : readers.parseIntParam (readers.Query_limit q) 10 = 10).
  { unfold readers.parseIntParam. rewrite Hlimit. now destruct (String.eqb _ _). }
  unfold readers.GetUsers. rewrite Hp, Hl, Hfilter.
  change (goint.mul (goint.sub 1 1) 10) with 0.
  destruct (Find filter 0 10 db) as [users|]; [|reflexivity].
  set (total := Z.of_nat (length (List.filter filter db))).
  assert (Htotal : 0 <= total <= Z.of_nat (length db)).
  { unfold total. split; [lia|]. apply inj_le. apply List.filter_length_le. }
  unfold goint.MaxInt64 in Hfit.
  unfold goint.div, goint.add, goint.sub. simpl (10 =? 0).
  rewrite (wrap_in_range (total + 10))
    by (unfold goint.MinInt64, goint.MaxInt64; lia).
  rewrite (wrap_in_range (total + 10 - 1))
    by (unfold goint.MinInt64, goint.MaxInt64; lia).
  rewrite Z.quot_div_nonneg by lia.
  replace (total + 10 - 1) with (total + 9) by lia.
  assert (Hq : 0 <= (total + 9) / 10 <= total + 9).
  { split; [apply Z.div_pos; lia|]. apply Z.div_le_upper_bound; lia. }
  rewrite wrap_in_range by (unfold goint.MinInt64, goint.MaxInt64; lia).
  reflexivity.
Qed.

End UserList.

(* ===================================================================== *)
(** ** Configuration from the environment *)
(* ===================================================================== *)

Lemma Getenv_insert (environ : gmap string string) (key value : string) :
  configload.Getenv (<[key := value]> environ) key = value.
Proof. unfold configload.Getenv. now rewrite lookup_insert_eq. Qed.

Lemma Getenv_insert_other (environ : gmap string string) (key other value : string) :
  other <> key ->
  configload.Getenv (<[other := value]> environ) key = configload.Getenv environ key.
Proof. intros H. unfold configload.Getenv. now rewrite lookup_insert_ne. Qed.

(** A variable set to a non-empty value is read back as set; a variable set
    to the empty string counts as not set, like a variable that is absent;
    setting another variable changes nothing; and with a non-empty default
    the result is never empty. *)
Theorem getEnv_set_and_unset (environ : gmap string string)
  (key value defaultValue : string) :
  (value <> EmptyString ->
   configload.getEnv (<[key := value]> environ) key defaultValue = value) /\
  configload.getEnv (<[key := EmptyString]> environ) key defaultValue = defaultValue /\
  configload.getEnv (delete key environ) key defaultValue = defaultValue /\
  (forall other, other <> key ->
     configload.getEnv (<[other := value]> environ) key defaultValue
     = configload.getEnv environ key defaultValue) /\
  (defaultValue <> EmptyString ->
   configload.getEnv environ key defaultValue <> EmptyString).
Proof.
  unfold configload.getEnv. repeat split.
  - intros Hv. rewrite Getenv_insert. apply String.eqb_neq in Hv. now rewrite Hv.
  - now rewrite Getenv_insert.
  - unfold configload.Getenv. now rewrite lookup_delete_eq.
  - intros other Hne. now rewrite Getenv_insert_other.
  - intros Hd. destruct (String.eqb (configload.Getenv environ key) EmptyString) eqn:H;
      simpl; [exact Hd | now apply String.eqb_neq].
Qed.

(** An integer variable written in decimal is read back as the number it
    spells, zero and negative numbers included (nothing asks for a positive
    token lifetime); a value [Atoi] rejects gives the default. *)
Theorem getEnvAsInt_reads_decimal (environ : gmap string string) (key : string)
  (n defaultValue : Z) :
  goint.MinInt64 <= n <= goint.MaxInt64 ->
  configload.getEnvAsInt (<[key := strconv.Itoa n]> environ) key defaultValue = n /\
  (forall value, strconv.Atoi value = None ->
     configload.getEnvAsInt (<[key := value]> environ) key defaultValue
     = defaultValue).
Proof.
  intros Hrange. unfold configload.getEnvAsInt. split.
  - now rewrite Getenv_insert, (Atoi_Itoa n Hrange), (Itoa_not_empty n Hrange).
  - intros value Hbad. rewrite Getenv_insert, Hbad.
    now destruct (String.eqb value EmptyString).
Qed.

Lemma JoinComma_cons (p : string) (rest : list string) :
  rest <> [] ->
  gostrings.JoinComma (p :: rest)
  = (p ++ String ","%char (gostrings.JoinComma rest))%string.
Proof. destruct rest; [congruence | reflexivity]. Qed.

Lemma split_comma_nonempty (s piece : string) : gostrings.split_comma s piece <> [].
Proof.
  revert piece. induction s as [|c s IH]; intros piece; simpl; [discriminate|].
  destruct (Ascii.eqb c ","%char); [discriminate | apply IH].
Qed.

Lemma string_app_assoc (a b c : string) :
  ((a ++ b) ++ c)%string = (a ++ (b ++ c))%string.
Proof.
  induction a as [|x a IH]; [reflexivity|].
  change (String x ((a ++ b) ++ c)%string = String x (a ++ (b ++ c))%string).
  now rewrite IH.
Qed.

Lemma string_app_nil_r (a : string) : (a ++ EmptyString)%string = a.
Proof.
  induction a as [|x a IH]; [reflexivity|].
  change (String x (a ++ EmptyString)%string = String x a). now rewrite IH.
Qed.

Lemma JoinComma_split_comma (s : string) :
  forall piece,
    gostrings.JoinComma (gostrings.split_comma s piece) = (piece ++ s)%string.
Proof.
  induction s as [|c s IH]; intros piece; simpl.
  - now rewrite string_app_nil_r.
  - destruct (Ascii.eqb c ","%char) eqn:Hc.
    + apply Ascii.eqb_eq in Hc. subst c.
      rewrite JoinComma_cons by apply split_comma_nonempty.
      now rewrite IH.
    + rewrite IH, string_app_assoc. reflexivity.
Qed.

Lemma contains_comma_app (a b : string) :
  gostrings.contains_comma (a ++ b)
  = gostrings.contains_comma a || gostrings.contains_comma b.
Proof.
  induction a as [|x a IH]; [reflexivity|].
  change (Ascii.eqb x ","%char || gostrings.contains_comma (a ++ b)
          = Ascii.eqb x ","%char || gostrings.contains_comma a
            || gostrings.contains_comma b).
  rewrite IH. now rewrite orb_assoc.
Qed.

Lemma split_comma_pieces (s : string) :
  forall piece,
    gostrings.contains_comma piece = false ->
    Forall (fun p => gostrings.contains_comma p = false)
      (gostrings.split_comma s piece).
Proof.
  induction s as [|c s IH]; intros piece Hp; simpl.
  - now constructor.
  - destruct (Ascii.eqb c ","%char) eqn:Hc.
    + constructor; [exact Hp | now apply IH].
    + apply IH. rewrite contains_comma_app, Hp. simpl. now rewrite Hc.
Qed.

(** A list variable is split at its commas: joining the pieces with commas
    gives the value back, no piece contains a comma, and there is at least
    one piece. *)
Theorem getEnvAsSlice_splits_at_commas (environ : gmap string string)
  (key value : string) (defaultValue : list string) :
  value <> EmptyString ->
  gostrings.JoinComma
    (configload.getEnvAsSlice (<[key := value]> environ) key defaultValue) = value /\
  Forall (fun p => gostrings.contains_comma p = false)
    (configload.getEnvAsSlice (<[key := value]> environ) key defaultValue) /\
  configload.getEnvAsSlice (<[key := value]> environ) key defaultValue <> [].
Proof.
  intros Hv. unfold configload.getEnvAsSlice. rewrite Getenv_insert.
  apply String.eqb_neq in Hv. rewrite Hv. simpl. unfold gostrings.SplitComma.
  split; [apply JoinComma_split_comma|].
  split; [now apply split_comma_pieces | apply split_comma_nonempty].
Qed.

(** [Load] depends on its nine variables only, and the signing secret it
    returns is never empty: with [JWT_SECRET] absent or empty it is the
    default written in the source. *)
Theorem Load_reads_its_variables_only (environ : gmap string string)
  (key value : string) :
  ~ In key configload.variables ->
  configload.Load (<[key := value]> environ) = configload.Load environ /\
  configload.JWTSecret (configload.Load environ) <> EmptyString /\
  (configload.Getenv environ "JWT_SECRET" = EmptyString ->
   configload.JWTSecret (configload.Load environ)
   = "your-super-secret-jwt-key-here").
Proof.
  intros Hkey. split; [|split].
  - unfold configload.Load, configload.getEnv, configload.getEnvAsInt,
      configload.getEnvAsSlice.
    rewrite !Getenv_insert_other; [reflexivity|..];
      intros ->; apply Hkey; simpl; tauto.
  - apply getEnv_set_and_unset; [exact EmptyString | discriminate].
  - intros Hunset. cbn [configload.Load configload.JWTSecret].
    unfold configload.getEnv. now rewrite Hunset.
Qed.

(* ===================================================================== *)
(** ** Start-up: the ping loop and the seeded test user *)
(* ===================================================================== *)

(** The ping loop gives up after three pings: the start-up reaches a live
    connection exactly when the connection opens and one of the first three
    pings succeeds; it never sends more than three pings, sleeps one second
    after the first failure and two after the second, and so never waits
    more than three seconds in all. *)
Theorem connect_and_ping_bounded (connect_ok : bool) (ping : nat -> bool) :
  ((exists slept pings,
      initdb.connect_and_ping connect_ok ping = initdb.Connected slept pings) <->
   connect_ok = true /\
   (ping 0%nat = true \/ ping 1%nat = true \/ ping 2%nat = true)) /\
  (forall slept pings,
     initdb.connect_and_ping connect_ok ping = initdb.Connected slept pings \/
     (exists reason,
        initdb.connect_and_ping connect_ok ping = initdb.Fatal reason slept pings) ->
     (pings <= 3)%nat /\
     (slept = [] \/ slept = [1] \/ slept = [1; 2]) /\
     length slept = Nat.pred pings /\
     fold_right Z.add 0 slept <= 3).
Proof.
  unfold initdb.connect_and_ping.
  destruct connect_ok; simpl.
  - destruct (ping 0%nat) eqn:H0; simpl;
      [|destruct (ping 1%nat) eqn:H1; simpl;
        [|destruct (ping 2%nat) eqn:H2; simpl]].
    all: split;
      [ split;
        [ intros (s & p & H);
          first [ discriminate H | split; [reflexivity | tauto] ]
        | intros [_ H];
          first [ do 2 eexists; reflexivity
                | exfalso; destruct H as [H | [H | H]]; discriminate H ] ]
      | intros s p [H | [r H]];
        first [ discriminate H
              | injection H; intros; subst; simpl;
                repeat split; try lia; tauto ] ].
  - split.
    + split; [intros (s & p & H); discriminate H | intros [H _]; discriminate H].
    + intros s p [H | [r H]]; [discriminate H|].
      injection H; intros; subst. simpl. repeat split; try lia; tauto.
Qed.

Lemma ping_loop_connects (ping : nat -> bool) :
  ping 0%nat = true \/ ping 1%nat = true \/ ping 2%nat = true ->
  exists slept pings,
    initdb.connect_and_ping true ping = initdb.Connected slept pings.
Proof.
  intros Hping. unfold initdb.connect_and_ping. simpl.
  destruct (ping 0%nat) eqn:H0; simpl; [do 2 eexists; reflexivity|].
  destruct (ping 1%nat) eqn:H1; simpl; [do 2 eexists; reflexivity|].
  destruct (ping 2%nat) eqn:H2; simpl; [do 2 eexists; reflexivity|].
  exfalso. destruct Hping as [H | [H | H]]; discriminate H.
Qed.

Lemma by_email_true (email : string) (u : User) :
  by_email email u = true <-> Email u = email.
Proof. unfold by_email. apply String.eqb_eq. Qed.

Section SeededUser.

Variable HashPassword : string -> string -> option string.
Variable CheckPassword : string -> string -> bool.
Variable GenerateToken : Env -> User -> string -> Z -> option string.

Local Abbreviation seed := (initdb.createTestUserIfNotExists HashPassword).

(** Seeding adds at most one account and only when nobody has the test
    email: a collection that has an account under that email is left as it
    is, so seeding twice is seeding once; and uniqueness of the emails is
    kept.  Only the email is looked at: the username "testuser" is not
    checked. *)
Theorem createTestUser_seeds_once (e e' : Env) (db : Collection) :
  (seed e db = db \/
   exists user,
     seed e db = db ++ [user] /\
     FindOne (by_email "testandtest@gmail.com") db = None /\
     Email user = "testandtest@gmail.com" /\
     Username user = "testuser" /\
     Role user = RoleAdmin /\
     Status user = StatusActive /\
     HashPassword (entropy e) "12345678" = Some (Password user)) /\
  ((exists u, FindOne (by_email "testandtest@gmail.com") db = Some u) ->
   seed e db = db) /\
  (seed e db <> db -> seed e' (seed e db) = seed e db) /\
  (List.NoDup (map Email db) -> List.NoDup (map Email (seed e db))).
Proof.
  assert (Hcases :
    seed e db = db \/
    exists user,
      seed e db = db ++ [user] /\
      FindOne (by_email "testandtest@gmail.com") db = None /\
      Email user = "testandtest@gmail.com" /\
      Username user = "testuser" /\
      Role user = RoleAdmin /\
      Status user = StatusActive /\
      HashPassword (entropy e) "12345678" = Some (Password user)).
  { unfold initdb.createTestUserIfNotExists, InsertOne.
    destruct (FindOne _ db) eqn:Hfound; [now left|].
    destruct (HashPassword _ _) eqn:Hhash; [|now left].
    destruct (write_err e); [now left|].
    right. eexists. split; [reflexivity|]. repeat split. }
  split; [exact Hcases|]. split; [|split].
  - intros [u Hu]. unfold initdb.createTestUserIfNotExists. now rewrite Hu.
  - intros Hchanged. destruct Hcases as [Hsame | (user & Hrun & Hnone & Hemail & _)];
      [contradiction|].
    rewrite Hrun. unfold initdb.createTestUserIfNotExists.
    rewrite (FindOne_split (by_email "testandtest@gmail.com") db [] user);
      [reflexivity | now apply FindOne_none | now apply by_email_true].
  - intros Hnodup. destruct Hcases as [-> | (user & -> & Hnone & Hemail & _)];
      [exact Hnodup|].
    apply NoDup_map_snoc; [exact Hnodup|]. rewrite Hemail.
    apply (not_found_not_in (by_email "testandtest@gmail.com") Email);
      [|exact Hnone].
    intros u Hu. now apply by_email_true.
Qed.

(** After a start-up that reached the database, on a collection without the
    test email, with the hasher and the driver working: anyone can log in as
    an admin with the email and the password written in the source. *)
Theorem seeded_admin_can_log_in (connect_ok : bool) (ping : nat -> bool)
  (e e' : Env) (db : Collection) (hashed : string) (cl : Context LoginRequest) :
  connect_ok = true ->
  ping 0%nat = true \/ ping 1%nat = true \/ ping 2%nat = true ->
  FindOne (by_email "testandtest@gmail.com") db = None ->
  HashPassword (entropy e) "12345678" = Some hashed ->
  CheckPassword "12345678" hashed = true ->
  write_err e = false ->
  (forall user, exists token,
     GenerateToken e' user (config.JWTSecret (cfg e'))
       (config.JWTExpirationHours (cfg e')) = Some token) ->
  ShouldBindJSON cl = inr (mkLoginRequest "testandtest@gmail.com" "12345678") ->
  exists token account,
    fst (handlers.Login CheckPassword GenerateToken cl e'
           (snd (initdb.InitDB HashPassword connect_ok ping e db)))
    = JSON http.StatusOK (LoginResponse token account) /\
    resp_Role account = RoleAdmin /\
    resp_Status account = StatusActive.
Proof.
  intros Hconnect Hping Hnone Hhash Hverify Hwrite Htoken Hbind.
  subst connect_ok.
  destruct (ping_loop_connects ping Hping) as (slept & pings & Hstart).
  unfold initdb.InitDB. rewrite Hstart. cbn [snd].
  unfold initdb.createTestUserIfNotExists, InsertOne.
  rewrite Hnone, Hhash, Hwrite.
  match goal with
  | |- context [db ++ [?u]] => set (user := u)
  end.
  destruct (Htoken (set_last_login (now e') user)) as [token Htok].
  exists token, (ToResponse (set_last_login (now e') user)).
  rewrite (Login_past_checks CheckPassword GenerateToken cl e' (db ++ [user])
             (mkLoginRequest "testandtest@gmail.com" "12345678") user Hbind).
  - rewrite Htok. repeat split.
  - apply FindOne_split; [now apply FindOne_none | reflexivity].
  - exact Hverify.
  - reflexivity.
Qed.

End SeededUser.

(* ===================================================================== *)
(** ** The route table *)
(* ===================================================================== *)

(** Every route has one of four guard chains, and the chain fixes who may
    call it: only the swagger page, register and login are public; the
    profile asks for a token; the five user routes ask for a token and the
    admin role; every other route asks for a token and the admin or manager
    role.  No route checks a role without checking the token first. *)
Theorem routes_are_guarded_by_group :
  Forall
    (fun r =>
       routes.chain r = [routes.CORSMiddleware] /\
       In (routes.handler r) ["ginSwagger"; "Register"; "Login"]
       \/
       routes.chain r = [routes.CORSMiddleware; routes.AuthMiddleware] /\
       routes.handler r = "GetProfile"
       \/
       routes.chain r = [routes.CORSMiddleware; routes.AuthMiddleware;
                         routes.RoleMiddleware [RoleAdmin]] /\
       In (routes.handler r)
         ["GetUsers"; "GetUser"; "CreateUser"; "UpdateUser"; "DeleteUser"]
       \/
       routes.chain r = [routes.CORSMiddleware; routes.AuthMiddleware;
                         routes.RoleMiddleware [RoleAdmin; RoleManager]] /\
       ~ In (routes.handler r)
           ["ginSwagger"; "Register"; "Login"; "GetProfile";
            "GetUsers"; "GetUser"; "CreateUser"; "UpdateUser"; "DeleteUser"])
    routes.SetupRoutes /\
  length routes.SetupRoutes = 29%nat /\
  map routes.chain_of
    ["GetUsers"; "GetUser"; "CreateUser"; "UpdateUser"; "DeleteUser"]
  = repeat (Some [routes.CORSMiddleware; routes.AuthMiddleware;
                  routes.RoleMiddleware [RoleAdmin]]) 5.
Proof.
  split; [|split; reflexivity].
  assert (Hroutes : routes.SetupRoutes = ltac:(let v := eval vm_compute in routes.SetupRoutes in exact v))
    by (vm_compute; reflexivity).
  rewrite Hroutes.
  repeat (constructor;
          [ first
              [ left; split; [reflexivity | cbv; tauto]
              | right; left; split; reflexivity
              | right; right; left; split; [reflexivity | cbv; tauto]
              | right; right; right; split;
                [reflexivity
                | cbv; intros H;
                  repeat (destruct H as [H | H]; [discriminate H|]); exact H ] ]
          | ]).
  apply List.Forall_nil.
Qed.

(* ===================================================================== *)
(** ** The further properties at work on the sample collection *)
(* ===================================================================== *)

Lemma sample_db_unique : invariant.unique_accounts sample.db.
Proof.
  repeat split;
    repeat (apply List.NoDup_cons;
            [cbv; intros H;
             repeat (destruct H as [H | H]; [discriminate H|]); exact H|]);
    apply List.NoDup_nil.
Defined.

(** sam logs in at an instant that is no whole millisecond; the driver
    works. *)
Lemma Login_success_stamps_last_login_witness :
  exists before after answered kept,
    sample.db = before ++ sample.account 3 "sam" RoleStaff StatusActive :: after /\
    fst (handlers.Login sample.CheckPassword sample.GenerateToken
           (samples.login_as "sam@x.com" "pw-sam") samples.precise sample.db)
    = JSON http.StatusOK
        (LoginResponse "000000000000000000000003.staff.secret" (ToResponse answered)) /\
    LastLogin answered = Some 1700000000123456789 /\
    bson.on_disk
      (snd (handlers.Login sample.CheckPassword sample.GenerateToken
              (samples.login_as "sam@x.com" "pw-sam") samples.precise sample.db))
    = bson.on_disk before ++ kept :: bson.on_disk after /\
    LastLogin kept = Some 1700000000123000000.
Proof.
  destruct (Login_success_stamps_last_login sample.CheckPassword
              sample.GenerateToken (samples.login_as "sam@x.com" "pw-sam")
              samples.precise sample.db (mkLoginRequest "sam@x.com" "pw-sam")
              (sample.account 3 "sam" RoleStaff StatusActive)
              "000000000000000000000003.staff.secret"
              (proj1 sample_db_unique) eq_refl eq_refl eq_refl eq_refl
              eq_refl eq_refl)
    as (before & after & answered & kept & Hdb & Hrun & Hlast & _ & Hdisk & Hkept & _).
  exists before, after, answered, kept. split; [exact Hdb|].
  split; [exact Hrun|]. split; [exact Hlast|]. split; [exact Hdisk | exact Hkept].
Defined.

(** sam logs in while the driver fails on writes. *)
Lemma Login_survives_write_failure_witness :
  handlers.Login sample.CheckPassword sample.GenerateToken
    (samples.login_as "sam@x.com" "pw-sam") samples.read_only sample.db
  = (JSON http.StatusOK
       (LoginResponse "000000000000000000000003.staff.secret"
          (ToResponse (set_last_login 1700000000
                         (sample.account 3 "sam" RoleStaff StatusActive)))),
     sample.db).
Proof.
  exact (proj1 (Login_survives_write_failure sample.CheckPassword
                  sample.GenerateToken (samples.login_as "sam@x.com" "pw-sam")
                  samples.read_only sample.db (mkLoginRequest "sam@x.com" "pw-sam")
                  (sample.account 3 "sam" RoleStaff StatusActive)
                  "000000000000000000000003.staff.secret"
                  eq_refl eq_refl eq_refl eq_refl eq_refl eq_refl)).
Defined.

(** sam logs in while the token service is down. *)
Lemma Login_token_failure_keeps_stamp_witness :
  exists before after,
    sample.db = before ++ sample.account 3 "sam" RoleStaff StatusActive :: after /\
    code (fst (handlers.Login sample.CheckPassword samples.no_token
                 (samples.login_as "sam@x.com" "pw-sam") sample.env sample.db))
    = http.StatusInternalServerError /\
    snd (handlers.Login sample.CheckPassword samples.no_token
           (samples.login_as "sam@x.com" "pw-sam") sample.env sample.db)
    = before ++ set_last_login 1700000000
                  (sample.account 3 "sam" RoleStaff StatusActive) :: after.
Proof.
  exact (Login_token_failure_keeps_stamp sample.CheckPassword samples.no_token
           (samples.login_as "sam@x.com" "pw-sam") sample.env sample.db
           (mkLoginRequest "sam@x.com" "pw-sam")
           (sample.account 3 "sam" RoleStaff StatusActive)
           (proj1 sample_db_unique) eq_refl eq_refl eq_refl eq_refl eq_refl
           eq_refl).
Defined.

Lemma sample_id_fresh : ~ In (NewObjectID sample.env) (map ID sample.db).
Proof.
  cbv. intros H. repeat (destruct H as [H | H]; [discriminate H|]). exact H.
Defined.

(** A newcomer registers as staff; the manager mary creates the same
    account through the user routes. *)
Lemma creation_keeps_accounts_unique_witness :
  invariant.unique_accounts
    (snd (handlers.Register sample.HashPassword
            (sample.request_by 2 0 (sample.new_account RoleStaff))
            sample.env sample.db)) /\
  invariant.unique_accounts
    (snd (handlers.CreateUser sample.HashPassword
            (sample.request_by 2 0 (sample.new_account RoleStaff))
            sample.env sample.db)).
Proof.
  exact (creation_keeps_accounts_unique sample.HashPassword
           (sample.request_by 2 0 (sample.new_account RoleStaff))
           sample.env sample.db sample_db_unique sample_id_fresh).
Defined.

(** root renames nothing but sets a phone on sam; mary deletes mike; sam
    logs in. *)
Lemma update_delete_login_keep_accounts_unique_witness :
  invariant.unique_accounts
    (snd (UpdateUser (sample.request_by 1 3 (sample.phone_patch "0700123456"))
            sample.env sample.db)) /\
  invariant.unique_accounts
    (snd (DeleteUser (sample.request_by 2 5 tt) sample.env sample.db)) /\
  invariant.unique_accounts
    (snd (handlers.Login sample.CheckPassword sample.GenerateToken
            (samples.login_as "sam@x.com" "pw-sam") sample.env sample.db)).
Proof.
  exact (update_delete_login_keep_accounts_unique sample.CheckPassword
           sample.GenerateToken
           (sample.request_by 1 3 (sample.phone_patch "0700123456"))
           (sample.request_by 2 5 tt) (samples.login_as "sam@x.com" "pw-sam")
           sample.env sample.db sample_db_unique).
Defined.

(** Eve registers at an instant that is no whole millisecond and is read
    back under the identifier of the answer. *)
Lemma Register_then_GetUser_witness :
  exists created,
    body (fst (handlers.Register sample.HashPassword
                 (sample.anonymous sample.eve_admin) samples.precise sample.db))
    = UserJSON created /\
    resp_ID created = "000000000000000000000007" /\
    resp_CreatedAt created = 1700000000123456789 /\
    fst (readers.GetUser (sample.request_by 1 7 tt)
           (bson.on_disk
              (snd (handlers.Register sample.HashPassword
                      (sample.anonymous sample.eve_admin) samples.precise sample.db))))
    = JSON http.StatusOK (UserJSON (bson.read_back created)) /\
    resp_CreatedAt (bson.read_back created) = 1700000000123000000 /\
    bson.read_back created <> created.
Proof.
  destruct (Register_then_GetUser sample.HashPassword
              (sample.anonymous sample.eve_admin) samples.precise sample.db
              eq_refl eq_refl sample_id_fresh)
    as (created & Hbody & Hcreated & _ & Hread & Hback & _ & Hsame).
  exists created. split; [exact Hbody|].
  assert (Hid : resp_ID created = "000000000000000000000007").
  { assert (H : UserJSON created
                = body (fst (handlers.Register sample.HashPassword
                               (sample.anonymous sample.eve_admin)
                               samples.precise sample.db)))
      by (symmetry; exact Hbody).
    vm_compute in H. injection H as ->. reflexivity. }
  split; [exact Hid|]. split; [exact Hcreated|].
  split; [apply Hread; rewrite Hid; reflexivity|].
  split; [exact Hback|].
  intros H. apply Hsame in H. discriminate H.
Defined.

(** Eve registers and logs in with what she registered. *)
Lemma Register_then_Login_witness :
  exists token account,
    fst (handlers.Login sample.CheckPassword sample.GenerateToken
           (samples.login_as "eve@x.com" "hunter2") sample.env
           (snd (handlers.Register sample.HashPassword
                   (sample.anonymous sample.eve_admin) sample.env sample.db)))
    = JSON http.StatusOK (LoginResponse token account) /\
    resp_Role account = RoleAdmin.
Proof.
  destruct (Register_then_Login sample.HashPassword sample.CheckPassword
              sample.GenerateToken (sample.anonymous sample.eve_admin)
              sample.env sample.env sample.db sample.eve_admin
              (samples.login_as "eve@x.com" "hunter2") eq_refl eq_refl)
    as (token & account & Hrun & _ & Hrole & _).
  - intros hashed H. injection H as <-. reflexivity.
  - intros user. eexists. reflexivity.
  - reflexivity.
  - exists token, account. split; [exact Hrun | exact Hrole].
Defined.

(** root sets a phone on sam at an instant that is no whole millisecond and
    reads sam back. *)
Lemma UpdateUser_then_GetUser_witness :
  exists sent,
    body (fst (UpdateUser (sample.request_by 1 3 (sample.phone_patch "0700123456"))
                 samples.precise sample.db)) = UserJSON sent /\
    resp_UpdatedAt sent = 1700000000123456789 /\
    fst (readers.GetUser (sample.request_by 1 3 tt)
           (bson.on_disk
              (snd (UpdateUser (sample.request_by 1 3 (sample.phone_patch "0700123456"))
                      samples.precise sample.db))))
    = JSON http.StatusOK (UserJSON (bson.read_back sent)) /\
    resp_UpdatedAt (bson.read_back sent) = 1700000000123000000.
Proof.
  destruct (UpdateUser_then_GetUser
              (sample.request_by 1 3 (sample.phone_patch "0700123456"))
              samples.precise sample.db (sample.request_by 1 3 tt) eq_refl eq_refl)
    as (sent & Hbody & Hsent & Hread & Hback & _).
  exists sent. split; [exact Hbody|]. split; [exact Hsent|].
  split; [exact Hread | exact Hback].
Defined.

(** mary deletes mike; mike is gone, sam is still there. *)
Lemma DeleteUser_then_GetUser_witness :
  code (fst (readers.GetUser (sample.request_by 1 5 tt)
               (snd (DeleteUser (sample.request_by 2 5 tt) sample.env sample.db))))
  = http.StatusNotFound /\
  FindOne (by_id 3%N)
    (snd (DeleteUser (sample.request_by 2 5 tt) sample.env sample.db))
  = Some (sample.account 3 "sam" RoleStaff StatusActive).
Proof.
  destruct (DeleteUser_then_GetUser (sample.request_by 2 5 tt) sample.env
              sample.db (sample.request_by 1 5 tt)
              (proj1 sample_db_unique) eq_refl)
    as [Hgone Hothers].
  split; [exact (Hgone eq_refl)|].
  rewrite (Hothers 5%N 3%N eq_refl); [reflexivity | discriminate].
Defined.

(** Nobody in particular deletes an identifier nobody has. *)
Lemma DeleteUser_missing_target_is_not_found_witness :
  DeleteUser (mkContext (inr tt) (sample.id_hex 9) None) sample.env sample.db
  = (JSON http.StatusNotFound (ErrorResponse "User not found"), sample.db).
Proof.
  apply (DeleteUser_missing_target_is_not_found
           (mkContext (inr tt) (sample.id_hex 9) None) sample.env sample.db 9%N
           eq_refl).
  cbv. intros H. repeat (destruct H as [H | H]; [discriminate H|]). exact H.
Defined.

(** The identifier 9 has no account: it cannot create, update or delete. *)
Lemma actor_without_account_is_refused_witness :
  code (fst (handlers.CreateUser sample.HashPassword
               (sample.request_by 9 0 (sample.new_account RoleStaff))
               sample.env sample.db)) = http.StatusInternalServerError /\
  snd (UpdateUser (sample.request_by 9 3 (sample.phone_patch "0700123456"))
         sample.env sample.db) = sample.db /\
  snd (DeleteUser (sample.request_by 9 3 tt) sample.env sample.db) = sample.db.
Proof.
  assert (Hfresh : ~ In 9%N (map ID sample.db)).
  { cbv. intros H. repeat (destruct H as [H | H]; [discriminate H|]). exact H. }
  destruct (actor_without_account_is_refused sample.HashPassword
              (sample.request_by 9 0 (sample.new_account RoleStaff))
              (sample.request_by 9 3 (sample.phone_patch "0700123456"))
              (sample.request_by 9 3 tt) sample.env sample.db
              (sample.id_hex 9) 9%N eq_refl Hfresh)
    as (Hcreate & Hupdate & Hdelete).
  split; [|split].
  - exact (proj2 (proj2 (Hcreate eq_refl)) _ eq_refl).
  - exact (proj2 (Hupdate eq_refl)).
  - exact (proj2 (Hdelete eq_refl)).
Defined.

(** The staff account sam deletes the manager mary. *)
Lemma DeleteUser_other_actor_not_forbidden_witness :
  code (fst (DeleteUser (sample.request_by 3 2 tt) sample.env sample.db))
  <> http.StatusForbidden.
Proof.
  apply (DeleteUser_other_actor_not_forbidden (sample.request_by 3 2 tt)
           sample.env sample.db 2%N
           (sample.account 3 "sam" RoleStaff StatusActive)
           (sample.account 2 "mary" RoleManager StatusActive)
           (sample_delete_reach 3 2 _ _ eq_refl eq_refl eq_refl eq_refl)).
  - intros H. discriminate H.
  - intros H. discriminate H.
Defined.

(** The manager mary: may create staff, may not name a role. *)
Lemma permission_summary_matches_checks_witness :
  code (fst (handlers.CreateUser sample.HashPassword
               (sample.request_by 2 0 (sample.new_account RoleStaff))
               sample.env sample.db)) <> http.StatusForbidden /\
  code (fst (UpdateUser (sample.request_by 2 3 (sample.role_patch RoleManager))
               sample.env sample.db)) = http.StatusForbidden.
Proof.
  destruct (permission_summary_matches_checks sample.HashPassword
              (sample.request_by 2 0 (sample.new_account RoleStaff))
              (sample.request_by 2 3 (sample.role_patch RoleManager))
              sample.env sample.db
              (sample.new_account RoleStaff)
              (sample.account 2 "mary" RoleManager StatusActive)
              (sample.role_patch RoleManager) 3%N
              (sample.account 2 "mary" RoleManager StatusActive)
              (sample.account 3 "sam" RoleStaff StatusActive)
              (sample_create_reach 2 _ _ eq_refl eq_refl)
              (sample_update_reach 2 3 _ _ _ eq_refl eq_refl eq_refl eq_refl)
              eq_refl eq_refl)
    as [Hcreate Hupdate].
  - intros H. discriminate H.
  - split.
    + intros H. apply Hcreate in H. discriminate H.
    + apply Hupdate. reflexivity.
Defined.

(** The profile of mary and the account [GetUser] shows for her. *)
Lemma GetProfile_agrees_with_GetUser_witness :
  exists p,
    readers.GetProfile samples.FormatDate (Some (sample.id_hex 2))
      1700000000123456789 1700000000123456912 1700000000123457040 sample.db
    = readers.Answer http.StatusOK p /\
    readers.GetUser (sample.request_by 1 2 tt) sample.db
    = (JSON http.StatusOK (UserJSON (readers.account_of_profile p)), sample.db) /\
    readers.profile_RoleDisplay p = "Management Team" /\
    map readers.activity_Timestamp (readers.profile_RecentActivities p)
    = [1699992800123456789; 1699913600123456912; 1699827200123457040].
Proof.
  eexists. split; [reflexivity|].
  destruct (GetProfile_agrees_with_GetUser samples.FormatDate (sample.id_hex 2)
              1700000000123456789 1700000000123456912 1700000000123457040
              sample.db _ (sample.request_by 1 2 tt) eq_refl eq_refl)
    as (Hsame & _ & Hdisplay & Hstamps & _).
  split; [exact Hsame|]. split; [exact Hdisplay | exact Hstamps].
Defined.

(** The limits -3, 0 and 25 as query parameters. *)
Lemma parseIntParam_round_trip_witness :
  readers.parseIntParam "-3" 10 = -3 /\
  readers.parseIntParam "0" 10 = 0 /\
  readers.parseIntParam "25" 10 = 25.
Proof.
  assert (Hrange : forall n, -100 <= n <= 100 ->
                     goint.MinInt64 <= n <= goint.MaxInt64)
    by (unfold goint.MinInt64, goint.MaxInt64; lia).
  split; [|split].
  - exact (proj1 (parseIntParam_round_trip (-3) 10 (Hrange (-3) ltac:(lia)))).
  - exact (proj1 (parseIntParam_round_trip 0 10 (Hrange 0 ltac:(lia)))).
  - exact (proj1 (parseIntParam_round_trip 25 10 (Hrange 25 ltac:(lia)))).
Defined.

(** The two staff accounts, in pages of one: two pages. *)
Lemma GetUsers_page_count_is_ceiling_witness :
  exists p,
    readers.GetUsers samples.regex samples.Find (samples.staff_only "2" "1") sample.db
    = readers.Answer http.StatusOK p /\
    readers.Total p = 2 /\ readers.Limit p = 1 /\ readers.TotalPages p = 2 /\
    readers.Total p <= readers.TotalPages p * readers.Limit p /\
    (readers.TotalPages p - 1) * readers.Limit p < readers.Total p.
Proof.
  eexists. split; [vm_compute; reflexivity|].
  destruct (GetUsers_page_count_is_ceiling samples.regex samples.Find
              (samples.staff_only "2" "1") sample.db _ eq_refl)
    as (_ & _ & Hall & Hlast).
  - reflexivity.
  - discriminate.
  - split; [reflexivity|]. split; [reflexivity|]. split; [reflexivity|].
    split; [exact Hall | exact Hlast].
Defined.

(** A list request with [page=first] and no [limit]. *)
Lemma GetUsers_defaults_witness :
  exists p,
    readers.GetUsers samples.regex samples.Find
      (samples.staff_only "first" EmptyString) sample.db
    = readers.Answer http.StatusOK p /\
    readers.Page p = 1 /\ readers.Limit p = 10 /\ readers.TotalPages p = 1.
Proof.
  pose proof (GetUsers_defaults samples.regex samples.Find
                (samples.staff_only "first" EmptyString) sample.db
                (fun u => true && String.eqb (Role u) RoleStaff && true)
                eq_refl eq_refl eq_refl) as Hrun.
  eexists. split.
  - rewrite Hrun; [reflexivity | discriminate].
  - repeat split.
Defined.

(** A token lifetime of zero hours is taken as given. *)
Lemma getEnvAsInt_reads_decimal_witness :
  configload.JWTExpirationHours
    (configload.Load {[ "JWT_EXPIRATION_HOURS" := "0" ]}) = 0 /\
  configload.JWTExpirationHours
    (configload.Load {[ "JWT_EXPIRATION_HOURS" := "a day" ]}) = 24.
Proof.
  assert (Hrange : goint.MinInt64 <= 0 <= goint.MaxInt64)
    by (unfold goint.MinInt64, goint.MaxInt64; lia).
  destruct (getEnvAsInt_reads_decimal samples.no_variables "JWT_EXPIRATION_HOURS" 0 24 Hrange)
    as [Hzero Hbad].
  split; [exact Hzero | exact (Hbad "a day" eq_refl)].
Defined.

(** Two origins in one variable. *)
Lemma getEnvAsSlice_splits_at_commas_witness :
  configload.AllowedOrigins
    (configload.Load {[ "ALLOWED_ORIGINS" := "https://a.example,https://b.example" ]})
  = ["https://a.example"; "https://b.example"] /\
  gostrings.JoinComma ["https://a.example"; "https://b.example"]
  = "https://a.example,https://b.example".
Proof.
  split; [vm_compute; reflexivity|].
  refine (proj1 (getEnvAsSlice_splits_at_commas samples.no_variables "ALLOWED_ORIGINS"
                   "https://a.example,https://b.example" [] _)).
  discriminate.
Defined.

(** [HOME] is none of the nine variables. *)
Lemma Load_reads_its_variables_only_witness :
  configload.Load {[ "HOME" := "/root" ]} = configload.Load samples.no_variables /\
  configload.JWTSecret (configload.Load samples.no_variables) = "your-super-secret-jwt-key-here".
Proof.
  destruct (Load_reads_its_variables_only samples.no_variables "HOME" "/root") as (Hsame & _ & Hdefault).
  - cbv. intros H. repeat (destruct H as [H | H]; [discriminate H|]). exact H.
  - split; [exact Hsame | exact (Hdefault eq_refl)].
Defined.

(** A start-up whose second ping succeeds, on the sample collection. *)
Lemma seeded_admin_can_log_in_witness :
  exists token account,
    fst (handlers.Login sample.CheckPassword sample.GenerateToken
           (samples.login_as "testandtest@gmail.com" "12345678") sample.env
           (snd (initdb.InitDB sample.HashPassword true (fun i => Nat.eqb i 1)
                   sample.env sample.db)))
    = JSON http.StatusOK (LoginResponse token account) /\
    resp_Role account = RoleAdmin.
Proof.
  destruct (seeded_admin_can_log_in sample.HashPassword sample.CheckPassword
              sample.GenerateToken true (fun i => Nat.eqb i 1)
              sample.env sample.env sample.db "s4lt$12345678"
              (samples.login_as "testandtest@gmail.com" "12345678")
              eq_refl (or_intror (or_introl eq_refl)) eq_refl eq_refl eq_refl
              eq_refl)
    as (token & account & Hrun & Hrole & _).
  - intros user. eexists. reflexivity.
  - reflexivity.
  - exists token, account. split; [exact Hrun | exact Hrole].
Defined.
